(** * moodle_course_status-specific.py: a shallow embedding and its properties

    The script queries a Moodle server over its REST web service and compiles
    a workbook.  The embedding follows the script function by function.

    - Parsed JSON payloads are [value]s.  JSON numbers are integers (Moodle
      ids, states and timestamps are integers); floats are outside the model.
    - A Python [str] is a Rocq [string]: the sequence of bytes of its UTF-8
      encoding.  [str.lower] and [str.capitalize] are those of strings of
      ASCII characters: bytes above 127 are left as they are, where Python
      changes the case of the letters they encode; the statements about the
      case of a string are stated of ASCII strings.  [repr] escapes the
      characters of the ASCII range only.
    - Everything outside the script is an environment [env]: what the server
      answers to each request, and how the local clock renders a timestamp.
      What openpyxl does with a title or a row is a parameter too,
      [openpyxl]: it renames a sheet whose title is taken and raises on a
      cell it refuses.
    - Effects are a trace of events (requests posted, sleeps, printed lines)
      threaded through a state-and-exception monad [M].  Printing and
      sleeping always succeed.
    - An exception is a class and a message; every class modelled is caught
      by [except Exception].  The messages of the errors the interpreter
      raises follow CPython's wording and play no part in the statements.
    - Of [main], the parts modelled are the base URL, the choice of the
      courses, the loop over the futures, the sheets of the workbook (their
      titles and cells) and the column widths [autosize_columns] gives to a
      sheet.  The worker pool is not modelled: the order in which the
      futures complete is a parameter. *)

From Stdlib Require Import ZArith QArith List String Ascii Bool Lia Permutation.
From Stdlib Require Import DecimalString DecimalZ Sorted.
Import ListNotations.

Set Warnings "-register-all".

Close Scope Q_scope.
Open Scope list_scope.
Open Scope string_scope.

(** ** Strings *)

Module Str.

Definition code (c : ascii) : N := N_of_ascii c.

Definition between (lo hi : N) (c : ascii) : bool :=
  (lo <=? code c)%N && (code c <=? hi)%N.

Definition is_upper : ascii -> bool := between 65 90.
Definition is_lower : ascii -> bool := between 97 122.
Definition is_digit : ascii -> bool := between 48 57.

(** The character class [[A-Za-z0-9]]. *)
Definition is_alnum (c : ascii) : bool :=
  is_upper c || is_lower c || is_digit c.

Definition lower_char (c : ascii) : ascii :=
  if is_upper c then ascii_of_N (code c + 32) else c.

Definition upper_char (c : ascii) : ascii :=
  if is_lower c then ascii_of_N (code c - 32) else c.

Fixpoint map (f : ascii -> ascii) (s : string) : string :=
  match s with
  | EmptyString => EmptyString
  | String c r => String (f c) (map f r)
  end.

Fixpoint all (p : ascii -> bool) (s : string) : bool :=
  match s with
  | EmptyString => true
  | String c r => p c && all p r
  end.

Fixpoint mem (c : ascii) (s : string) : bool :=
  match s with
  | EmptyString => false
  | String d r => Ascii.eqb c d || mem c r
  end.

(** [s[:n]] *)
Fixpoint take (n : nat) (s : string) : string :=
  match n, s with
  | S k, String c r => String c (take k r)
  | _, _ => EmptyString
  end.

(** [re.sub(cls, '', s)] for a pattern [cls] that is one character class:
    every character the class matches is dropped. *)
Fixpoint re_sub_drop (cls : ascii -> bool) (s : string) : string :=
  match s with
  | EmptyString => EmptyString
  | String c r =>
      if cls c then re_sub_drop cls r else String c (re_sub_drop cls r)
  end.

(** [s.lower()] for a string [s] of ASCII characters. *)
Definition lower : string -> string := map lower_char.

(** [s.capitalize()] for a string [s] of ASCII characters: first character
    upper-cased, the rest lower-cased. *)
Definition capitalize (s : string) : string :=
  match s with
  | EmptyString => EmptyString
  | String c r => String (upper_char c) (lower r)
  end.

(** [sep.join(parts)] *)
Fixpoint join (sep : string) (parts : list string) : string :=
  match parts with
  | [] => EmptyString
  | [p] => p
  | p :: rest => p ++ sep ++ join sep rest
  end.

Definition is_empty (s : string) : bool :=
  match s with EmptyString => true | _ => false end.

(** [r] is [s] with some characters left out, the others in their order. *)
Inductive subseq : string -> string -> Prop :=
| subseq_nil : subseq EmptyString EmptyString
| subseq_keep c r s : subseq r s -> subseq (String c r) (String c s)
| subseq_skip c r s : subseq r s -> subseq r (String c s).

End Str.

(** ** Settings *)

Definition DEFAULT_MAX_THREADS : nat := 8.
Definition REQUEST_TIMEOUT : Z := 60.
Definition RETRY_COUNT : nat := 3.
Definition RETRY_SLEEP_SECONDS : Q := 1.5%Q.

(** ** sanitize_sheet_name *)

(** The pattern [[^A-Za-z0-9]]. *)
Definition non_alnum (c : ascii) : bool := negb (Str.is_alnum c).

Definition sanitize_sheet_name (name : string) : string :=
  let cleaned := Str.re_sub_drop non_alnum name in
  Str.take 31 cleaned.

(** [x or y] on strings, as in [sanitize_sheet_name(cshort) or "Course"]. *)
Definition str_or (x y : string) : string :=
  if Str.is_empty x then y else x.

(** The title [main] gives to the sheet of a course with short name [cshort]. *)
Definition sheet_title (cshort : string) : string :=
  str_or (sanitize_sheet_name cshort) "Course".

(** ** Python values *)

(** What [r.json()] can return (and what the script stores in rows). *)
Inductive value : Type :=
| VNone
| VBool (b : bool)
| VInt (z : Z)
| VStr (s : string)
| VList (items : list value)
| VDict (fields : list (string * value)).

(** Exceptions, all of them subclasses of [Exception]. *)
Inductive exn_class : Type :=
| RequestError      (* raised by requests.post, raise_for_status or r.json *)
| RuntimeError
| AttributeError
| TypeError
| KeyError
| ClockError        (* OverflowError / OSError / ValueError of fromtimestamp *)
| WorkbookError.    (* ValueError / IllegalCharacterError of openpyxl *)

Record exn : Type := Exn { exn_cls : exn_class; exn_msg : string }.

(** [str(e)] *)
Definition exn_str (e : exn) : string := exn_msg e.

Inductive res (A : Type) : Type :=
| Ok (a : A)
| Raise (e : exn).
Arguments Ok {A} a.
Arguments Raise {A} e.

Definition res_bind {A B} (m : res A) (k : A -> res B) : res B :=
  match m with
  | Ok a => k a
  | Raise e => Raise e
  end.

Declare Scope res_scope.
Delimit Scope res_scope with res.
Notation "x <- m ;; k" := (res_bind m (fun x => k))
  (at level 61, m at next level, right associativity) : res_scope.

Module Py.

Definition type_name (v : value) : string :=
  match v with
  | VNone => "NoneType"
  | VBool _ => "bool"
  | VInt _ => "int"
  | VStr _ => "str"
  | VList _ => "list"
  | VDict _ => "dict"
  end.

Definition no_attribute (v : value) (attr : string) : exn :=
  Exn AttributeError
      ("'" ++ type_name v ++ "' object has no attribute '" ++ attr ++ "'").

Definition unhashable (v : value) : exn :=
  Exn TypeError ("unhashable type: '" ++ type_name v ++ "'").

Definition not_iterable (v : value) : exn :=
  Exn TypeError ("'" ++ type_name v ++ "' object is not iterable").

(** Truth value of an object. *)
Definition truthy (v : value) : bool :=
  match v with
  | VNone => false
  | VBool b => b
  | VInt z => negb (z =? 0)%Z
  | VStr s => negb (Str.is_empty s)
  | VList l => match l with [] => false | _ => true end
  | VDict d => match d with [] => false | _ => true end
  end.

(** [x or y] *)
Definition or_ (x y : value) : value := if truthy x then x else y.

(** [isinstance(v, dict)] *)
Definition is_dict (v : value) : bool :=
  match v with VDict _ => true | _ => false end.

(** The integer a [bool] or [int] stands for ([True == 1]). *)
Definition as_int (v : value) : option Z :=
  match v with
  | VBool b => Some (if b then 1 else 0)%Z
  | VInt z => Some z
  | _ => None
  end.

(** [v == z] for an integer literal [z]. *)
Definition eq_int (v : value) (z : Z) : bool :=
  match as_int v with
  | Some x => (x =? z)%Z
  | None => false
  end.

(** [hash(v)] succeeds. *)
Definition hashable (v : value) : bool :=
  match v with
  | VList _ | VDict _ => false
  | _ => true
  end.

(** [a == b] on hashable values, the test a [dict] uses on its keys. *)
Definition key_eqb (a b : value) : bool :=
  match a, b with
  | VNone, VNone => true
  | VStr s, VStr t => String.eqb s t
  | _, _ =>
      match as_int a, as_int b with
      | Some x, Some y => (x =? y)%Z
      | _, _ => false
      end
  end.

(** Lookup in a JSON object. *)
Fixpoint field (name : string) (fields : list (string * value)) : option value :=
  match fields with
  | [] => None
  | (k, v) :: rest => if String.eqb k name then Some v else field name rest
  end.

(** [d.get(name, default)] on the fields of a JSON object. *)
Definition field_or (name : string) (default : value) (d : list (string * value))
    : value :=
  match field name d with Some x => x | None => default end.

(** [v.get(name, default)]; only a [dict] has [get]. *)
Definition get (v : value) (name : string) (default : value) : res value :=
  match v with
  | VDict d => Ok (field_or name default d)
  | _ => Raise (no_attribute v "get")
  end.

(** [v[name]] for a string [name]: a [dict] without the key raises
    [KeyError], any other value raises [TypeError]. *)
Definition item (v : value) (name : string) : res value :=
  match v with
  | VDict d =>
      match field name d with
      | Some x => Ok x
      | None => Raise (Exn KeyError ("'" ++ name ++ "'"))
      end
  | VList _ =>
      Raise (Exn TypeError "list indices must be integers or slices, not str")
  | VStr _ => Raise (Exn TypeError "string indices must be integers, not 'str'")
  | _ => Raise (Exn TypeError
                    ("'" ++ type_name v ++ "' object is not subscriptable"))
  end.

(** The elements [for x in v] runs through: the items of a list, the keys
    of a dict, the characters of a string (here its bytes; the script calls
    [get] on each element, which no string has). *)
Definition iter (v : value) : res (list value) :=
  match v with
  | VList l => Ok l
  | VDict d => Ok (List.map (fun kv => VStr (fst kv)) d)
  | VStr s =>
      Ok (List.map (fun c => VStr (String c EmptyString))
                   (list_ascii_of_string s))
  | _ => Raise (not_iterable v)
  end.

Definition str_of_Z (z : Z) : string :=
  NilZero.string_of_int (Z.to_int z).

Definition hex_digit (n : N) : ascii :=
  if (n <? 10)%N then ascii_of_N (48 + n) else ascii_of_N (87 + n).

Definition dquote : ascii := "034"%char.
Definition squote : ascii := "039"%char.
Definition backslash : ascii := "092"%char.

Definition escape_char (quote c : ascii) : string :=
  let n := Str.code c in
  if Ascii.eqb c backslash then String backslash (String backslash "")
  else if Ascii.eqb c quote then String backslash (String quote "")
  else if (n =? 10)%N then String backslash "n"
  else if (n =? 13)%N then String backslash "r"
  else if (n =? 9)%N then String backslash "t"
  else if (n <? 32)%N || (n =? 127)%N then
    String backslash
      (String "x" (String (hex_digit (n / 16)) (String (hex_digit (n mod 16)) "")))
  else String c "".

Fixpoint escape (quote : ascii) (s : string) : string :=
  match s with
  | EmptyString => EmptyString
  | String c r => escape_char quote c ++ escape quote r
  end.

(** [repr(s)] of a string. *)
Definition repr_str (s : string) : string :=
  let quote :=
    if Str.mem squote s && negb (Str.mem dquote s) then dquote else squote in
  String quote (escape quote s ++ String quote "").

(** [repr(v)] *)
Fixpoint repr (v : value) : string :=
  match v with
  | VNone => "None"
  | VBool true => "True"
  | VBool false => "False"
  | VInt z => str_of_Z z
  | VStr s => repr_str s
  | VList l => "[" ++ Str.join ", " (List.map repr l) ++ "]"
  | VDict d =>
      "{" ++ Str.join ", "
               (List.map (fun kv => repr_str (fst kv) ++ ": " ++ repr (snd kv)) d)
          ++ "}"
  end.

(** [str(v)], also what an f-string field [{v}] renders. *)
Definition str (v : value) : string :=
  match v with
  | VStr s => s
  | _ => repr v
  end.

(** A Python [dict] built by the script: insertion-ordered, keys compared
    with [==]. *)
Definition dict (V : Type) : Type := list (value * V).

Fixpoint lookup {V} (d : dict V) (k : value) : option V :=
  match d with
  | [] => None
  | (k', v) :: rest => if key_eqb k' k then Some v else lookup rest k
  end.

(** [d[k] = v] for a hashable [k]: an equal key keeps its place (and the key
    object first inserted), a new key goes last. *)
Fixpoint store {V} (d : dict V) (k : value) (v : V) : dict V :=
  match d with
  | [] => [(k, v)]
  | (k', v') :: rest =>
      if key_eqb k' k then (k', v) :: rest else (k', v') :: store rest k v
  end.

(** [d[k] = v] *)
Definition setitem {V} (d : dict V) (k : value) (v : V) : res (dict V) :=
  if hashable k then Ok (store d k v) else Raise (unhashable k).

(** [d.get(k, default)] *)
Definition dict_get {V} (d : dict V) (k : value) (default : V) : res V :=
  if hashable k
  then Ok (match lookup d k with Some v => v | None => default end)
  else Raise (unhashable k).

(** [d.update(other)] *)
Definition update {V} (d other : dict V) : dict V :=
  fold_left (fun acc kv => store acc (fst kv) (snd kv)) other d.

End Py.

(** ** The outside world *)

(** One HTTP POST: the URL, the query parameters and the form data. *)
Record request : Type := Request {
  req_url : string;
  req_params : list (string * string);
  req_data : list (string * value)
}.

(** What [requests.post(...)], [r.raise_for_status()] and [r.json()] make of
    one request: one of the three raises, or the payload is parsed. *)
Inductive attempt : Type :=
| Failed (e : exn)
| Parsed (data : value).

Inductive event : Type :=
| Post (r : request)
| Sleep (seconds : Q)
| Print (line : string).

(** The trace of what the running function has done so far, oldest first. *)
Definition world : Type := list event.

Record env : Type := Env {
  (** the server's answer to a request, given what happened before it *)
  respond : world -> request -> attempt;
  (** [datetime.fromtimestamp(ts).strftime("%Y-%m-%d %H:%M:%S")] *)
  local_time : Z -> res string
}.

(** ** Computations with effects *)

Definition M (A : Type) : Type := world -> res A * world.

Definition ret {A} (a : A) : M A := fun w => (Ok a, w).

Definition raise {A} (e : exn) : M A := fun w => (Raise e, w).

Definition bind {A B} (m : M A) (k : A -> M B) : M B :=
  fun w =>
    match m w with
    | (Ok a, w') => k a w'
    | (Raise e, w') => (Raise e, w')
    end.

Definition lift {A} (r : res A) : M A := fun w => (r, w).

Definition emit (ev : event) : M unit := fun w => (Ok tt, (w ++ [ev])%list).

(** [try: m  except Exception as e: handler e] *)
Definition try_except {A} (m : M A) (handler : exn -> M A) : M A :=
  fun w =>
    match m w with
    | (Ok a, w') => (Ok a, w')
    | (Raise e, w') => handler e w'
    end.

Declare Scope M_scope.
Delimit Scope M_scope with M.
Notation "x <- m ;; k" := (bind m (fun x => k))
  (at level 61, m at next level, right associativity) : M_scope.
Notation "m ;; k" := (bind m (fun _ => k))
  (at level 61, right associativity) : M_scope.

Definition print (line : string) : M unit := emit (Print line).

Definition sleep (seconds : Q) : M unit := emit (Sleep seconds).

(** ** call_moodle *)

(** [RETRY_SLEEP_SECONDS * attempt] *)
Definition backoff (attempt : nat) : Q :=
  (RETRY_SLEEP_SECONDS * inject_Z (Z.of_nat attempt))%Q.

(** [requests.post(full, params=base, data=params, timeout=REQUEST_TIMEOUT)],
    [r.raise_for_status()] and [r.json()]. *)
Definition post_json (E : env) (req : request) : M value :=
  fun w =>
    let w' := (w ++ [Post req])%list in
    match respond E w req with
    | Failed e => (Raise e, w')
    | Parsed data => (Ok data, w')
    end.

(** [isinstance(data, dict) and data.get("exception")], as a truth value. *)
Definition signals_exception (data : value) : res bool :=
  if Py.is_dict data
  then (x <- Py.get data "exception" VNone ;; Ok (Py.truthy x))%res
  else Ok false.

Definition moodle_exception (data : value) : res exn :=
  (message <- Py.get data "message" VNone ;;
   errorcode <- Py.get data "errorcode" VNone ;;
   Ok (Exn RuntimeError
           ("Moodle exception: " ++ Py.str message ++ " | " ++ Py.str errorcode)))%res.

(** [if isinstance(data, dict) and data.get("exception"): raise RuntimeError(...)]
    followed by [return data]. *)
Definition check_payload (data : value) : res value :=
  (flagged <- signals_exception data ;;
   if flagged : bool
   then (e <- moodle_exception data ;; Raise e)
   else Ok data)%res.

(** The body of the [try] in the loop of [call_moodle]. *)
Definition request_once (E : env) (req : request) : M value :=
  (data <- post_json E req ;; lift (check_payload data))%M.

(** [for attempt in attempts: try: ... return data  except Exception: ...],
    followed by [return None]. *)
Fixpoint retry (E : env) (req : request) (attempts : list nat) : M value :=
  match attempts with
  | [] => ret VNone
  | attempt :: rest =>
      try_except (request_once E req)
        (fun e =>
           if (attempt =? RETRY_COUNT)%nat
           then raise e
           else (sleep (backoff attempt) ;; retry E req rest)%M)
  end.

Definition mk_request (url token function : string)
    (params : list (string * value)) : request :=
  let full := url ++ "/webservice/rest/server.php" in
  let base := [("wstoken", token); ("wsfunction", function);
               ("moodlewsrestformat", "json")] in
  Request full base params.

Definition call_moodle (E : env) (url token function : string)
    (params : option (list (string * value))) : M value :=
  let params := match params with None => [] | Some p => p end in
  retry E (mk_request url token function params) (seq 1 RETRY_COUNT).

(** ** Domain queries *)

(** [x in xs] for strings *)
Definition str_in (x : string) (xs : list string) : bool :=
  existsb (String.eqb x) xs.

(** [v.lower()]; only a [str] has [lower]. *)
Definition py_lower (v : value) : res string :=
  match v with
  | VStr s => Ok (Str.lower s)
  | _ => Raise (Py.no_attribute v "lower")
  end.

(** [str(c["id"]) in specific_lower or c["fullname"].lower() in specific_lower] *)
Definition course_selected (specific_lower : list string) (c : value) : res bool :=
  (id <- Py.item c "id" ;;
   if str_in (Py.str id) specific_lower
   then Ok true
   else (fullname <- Py.item c "fullname" ;;
         lowered <- py_lower fullname ;;
         Ok (str_in lowered specific_lower)))%res.

(** The loop [for c in courses: if ...: filtered.append(c)]. *)
Fixpoint filter_courses (specific_lower : list string) (courses : list value)
    (filtered : list value) : res (list value) :=
  match courses with
  | [] => Ok filtered
  | c :: rest =>
      (keep <- course_selected specific_lower c ;;
       filter_courses specific_lower rest
         (if keep : bool then (filtered ++ [c])%list else filtered))%res
  end.

Definition get_all_courses (E : env) (url token : string)
    (specific_courses : option (list string)) : M value :=
  (data <- call_moodle E url token "core_course_get_courses_by_field" None ;;
   courses <- lift (Py.get data "courses" (VList [])) ;;
   match specific_courses with
   | Some ((_ :: _) as specific) =>
       let specific_lower := List.map Str.lower specific in
       cs <- lift (Py.iter courses) ;;
       filtered <- lift (filter_courses specific_lower cs []) ;;
       ret (VList filtered)
   | _ => ret courses
   end)%M.

Definition get_course_users (E : env) (url token : string) (course_id : value)
    : M value :=
  call_moodle E url token "core_enrol_get_enrolled_users"
    (Some [("courseid", course_id)]).

(** [for x in xs: body], the loop body updating the local state [s]. *)
Fixpoint for_in {A S} (xs : list A) (body : A -> S -> res S) (s : S) : res S :=
  match xs with
  | [] => Ok s
  | x :: rest => (s' <- body x s ;; for_in rest body s')%res
  end.

(** The same loop for a body with effects. *)
Fixpoint for_in_M {A S} (xs : list A) (body : A -> S -> M S) (s : S) : M S :=
  match xs with
  | [] => ret s
  | x :: rest => (s' <- body x s ;; for_in_M rest body s')%M
  end.

(** The value [{"name": ..., "modname": ...}] kept for an activity. *)
Record meta : Type := Meta { meta_name : value; meta_modname : value }.

(** The body of [for mod in sec.get("modules", [])]. *)
Definition add_module (mod_ : value) (activities : Py.dict meta)
    : res (Py.dict meta) :=
  (uservisible <- Py.get mod_ "uservisible" (VBool true) ;;
   if Py.truthy uservisible
   then (deletion <- Py.get mod_ "deletioninprogress" (VBool false) ;;
         if negb (Py.truthy deletion)
         then (cmid <- Py.get mod_ "id" VNone ;;
               name <- Py.get mod_ "name" VNone ;;
               modname <- Py.get mod_ "modname" VNone ;;
               Py.setitem activities cmid (Meta name modname))
         else Ok activities)
   else Ok activities)%res.

(** The body of [for sec in sections]. *)
Definition add_section (sec : value) (activities : Py.dict meta)
    : res (Py.dict meta) :=
  (modules <- Py.get sec "modules" (VList []) ;;
   mods <- Py.iter modules ;;
   for_in mods add_module activities)%res.

Definition collect_activities (sections : value) : res (Py.dict meta) :=
  (secs <- Py.iter sections ;;
   for_in secs add_section [])%res.

Definition get_course_activities (E : env) (url token : string)
    (course_id : value) : M (Py.dict meta) :=
  (sections <- call_moodle E url token "core_course_get_contents"
                 (Some [("courseid", course_id)]) ;;
   lift (collect_activities sections))%M.

(** The [if] inside the [try] of [get_course_completion]: [Some] is a
    [return], [None] falls through to the end of the function. *)
Definition completion_of (resp : value) : res (option (Z * string)) :=
  match resp with
  | VDict d =>
      match Py.field "completionstatus" d with
      | Some status =>
          (completed <- Py.get status "completed" VNone ;;
           Ok (Some (if Py.truthy completed then 100%Z else 0%Z,
                     if Py.truthy completed then "Completed" else "Incomplete")))%res
      | None => Ok None
      end
  | _ => Ok None
  end.

Definition get_course_completion (E : env) (url token : string)
    (course_id user_id : value) : M (Z * string) :=
  (returned <-
     try_except
       (resp <- call_moodle E url token
                  "core_completion_get_course_completion_status"
                  (Some [("courseid", course_id); ("userid", user_id)]) ;;
        lift (completion_of resp))
       (fun _ => ret None) ;;
   match returned with
   | Some r => ret r
   | None => ret (0%Z, "N/A")
   end)%M.

(** The label of a numeric completion state. *)
Definition status_of_state (state : value) : string :=
  if Py.eq_int state 1 || Py.eq_int state 2 then "Completed"
  else if Py.eq_int state 3 then "Failed"
  else "Incomplete".

(** The body of [for s in data.get("statuses", [])]. *)
Definition record_status (s : value) (out : Py.dict string)
    : res (Py.dict string) :=
  (cmid <- Py.get s "cmid" VNone ;;
   state <- Py.get s "state" (VInt 0) ;;
   Py.setitem out cmid (status_of_state state))%res.

(** The loop, on the mutable [out]: what [out] holds when the loop ends,
    normally or at the first exception. *)
Fixpoint record_statuses (ss : list value) (out : Py.dict string)
    : Py.dict string :=
  match ss with
  | [] => out
  | s :: rest =>
      match record_status s out with
      | Ok out' => record_statuses rest out'
      | Raise _ => out
      end
  end.

(** What [out] holds after the statements of the [try] that follow the call. *)
Definition statuses_of (data : value) (out : Py.dict string) : Py.dict string :=
  match (statuses <- Py.get data "statuses" (VList []) ;; Py.iter statuses)%res with
  | Ok ss => record_statuses ss out
  | Raise _ => out
  end.

Definition get_activity_completion (E : env) (url token : string)
    (course_id user_id : value) : M (Py.dict string) :=
  let out := [] in
  try_except
    (data <- call_moodle E url token
               "core_completion_get_activities_completion_status"
               (Some [("courseid", course_id); ("userid", user_id)]) ;;
     ret (statuses_of data out))%M
    (fun _ => ret out).

(** ** Rows *)

(** [", ".join(items)]: every item has to be a [str]. *)
Fixpoint strings_of (items : list value) : res (list string) :=
  match items with
  | [] => Ok []
  | VStr s :: rest => (ss <- strings_of rest ;; Ok (s :: ss))%res
  | v :: _ =>
      Raise (Exn TypeError
               ("sequence item: expected str instance, " ++ Py.type_name v ++ " found"))
  end.

Fixpoint map_res {A B} (f : A -> res B) (xs : list A) : res (list B) :=
  match xs with
  | [] => Ok []
  | x :: rest => (y <- f x ;; ys <- map_res f rest ;; Ok (y :: ys))%res
  end.

(** [r.get("name", str(r.get("roleid", "")))] *)
Definition role_name (r : value) : res value :=
  (roleid <- Py.get r "roleid" (VStr "") ;;
   Py.get r "name" (VStr (Py.str roleid)))%res.

Definition role_names (user : value) : string :=
  match (roles <- Py.get user "roles" (VList []) ;;
         rs <- Py.iter roles ;;
         names <- map_res role_name rs ;;
         parts <- strings_of names ;;
         Ok (Str.join ", " parts))%res with
  | Ok s => s
  | Raise _ => ""
  end.

(** [datetime.fromtimestamp(ts)] takes a number. *)
Definition fromtimestamp (E : env) (ts : value) : res string :=
  match Py.as_int ts with
  | Some z => local_time E z
  | None =>
      Raise (Exn TypeError
               ("'" ++ Py.type_name ts ++ "' object cannot be interpreted as an integer"))
  end.

Definition last_access_str (E : env) (user : value) : res string :=
  (ts <- Py.get user "lastaccess" VNone ;;
   if Py.truthy ts then fromtimestamp E ts else Ok "")%res.

(** The body of the loop of [flatten_custom_fields]. *)
Definition add_custom_field (f : value) (d : Py.dict value) : res (Py.dict value) :=
  (shortname <- Py.get f "shortname" VNone ;;
   key <- (if Py.truthy shortname then Ok shortname else Py.get f "name" VNone) ;;
   v <- Py.get f "value" (VStr "") ;;
   Py.setitem d key v)%res.

Definition flatten_custom_fields (user : value) : res (Py.dict value) :=
  (customfields <- Py.get user "customfields" (VList []) ;;
   fs <- Py.iter (Py.or_ customfields (VList [])) ;;
   for_in fs add_custom_field [])%res.

(** A dict display [{k1: v1, k2: v2, ...}]. *)
Definition dict_of {V} (items : list (value * V)) : Py.dict V :=
  Py.update [] items.

(** [v.capitalize()]; only a [str] has [capitalize]. *)
Definition py_capitalize (v : value) : res string :=
  match v with
  | VStr s => Ok (Str.capitalize s)
  | _ => Raise (Py.no_attribute v "capitalize")
  end.

(** The body of [for cmid, meta in activities.items()]. *)
Definition add_column (item : value * meta) (activity_columns : list (value * string))
    : res (list (value * string)) :=
  let (cmid, meta) := item in
  (modname <- py_capitalize (meta_modname meta) ;;
   let col := modname ++ ": " ++ Py.str (meta_name meta) in
   Ok (activity_columns ++ [(cmid, col)])%list)%res.

Definition columns_of (activities : Py.dict meta) : res (list (value * string)) :=
  for_in activities add_column [].

(** The body of [for cmid, colname in activity_columns]. *)
Definition fill_column (a_map : Py.dict string) (column : value * string)
    (course_row : Py.dict value) : res (Py.dict value) :=
  let (cmid, colname) := column in
  (status <- Py.dict_get a_map cmid "Incomplete" ;;
   Py.setitem course_row (VStr colname) (VStr status))%res.

(** The three row collections a course is processed into. *)
Record rows : Type := Rows {
  per_course_rows : list (Py.dict value);
  consolidated_rows : list (list value);
  enrollment_rows : list (Py.dict value)
}.

(** What [process_one_course] returns. *)
Definition task_result : Type :=
  (list (Py.dict value) * list (list value) * list (Py.dict value) * list string)%type.

Definition cross_mark : string := String "226" (String "157" (String "140" "")).
Definition check_mark : string := String "226" (String "156" (String "133" "")).

(** The dict display [base_user = {...}]. *)
Definition base_user_of
    (uid fullname username email department institution city country : value)
    (last_access roles : string) : Py.dict value :=
  dict_of [
    (VStr "User ID", uid);
    (VStr "Full Name", fullname);
    (VStr "Username", username);
    (VStr "Email", email);
    (VStr "Department", department);
    (VStr "Institution", institution);
    (VStr "City", city);
    (VStr "Country", country);
    (VStr "Last Access", VStr last_access);
    (VStr "Role(s)", VStr roles)].

(** The dict display [course_row = {..., **base_user, ...}], before the
    activity columns are filled in. *)
Definition course_row_of (cid cname cshort : value) (base_user : Py.dict value)
    (c_status : string) (c_pct : Z) : Py.dict value :=
  Py.update
    (Py.update
       (dict_of [(VStr "Course ID", cid);
                 (VStr "Course Name", cname);
                 (VStr "Course Shortname", cshort)])
       base_user)
    [(VStr "Course Completion Status", VStr c_status);
     (VStr "Completion %", VInt c_pct)].

Definition consolidated_row_of (uid fullname email cid cname : value)
    (last_access roles : string) (c_pct : Z) (c_status : string) : list value :=
  [uid; fullname; VStr ""; email; cid; cname;
   VStr last_access; VStr roles; VInt c_pct; VStr c_status].

Definition enrollment_row_of (uid fullname username email cid cname cshort : value)
    (roles last_access : string) : Py.dict value :=
  dict_of [
    (VStr "User ID", uid);
    (VStr "Full Name", fullname);
    (VStr "Username", username);
    (VStr "Email", email);
    (VStr "Course ID", cid);
    (VStr "Course Name", cname);
    (VStr "Course Shortname", cshort);
    (VStr "Role(s)", VStr roles);
    (VStr "Last Access", VStr last_access)].

Definition processing_message (cname cid : value) : string :=
  "Processing course: " ++ Py.str cname ++ " (ID=" ++ Py.str cid ++ ")".

Section ProcessOneCourse.

Variable E : env.
Variables url token : string.

(** The body of [for u in users]. *)
Definition process_user (cid cname cshort : value)
    (activity_columns : list (value * string)) (u : value) (acc : rows) : M rows :=
  (uid <- lift (Py.get u "id" VNone) ;;
   fullname <- lift (Py.get u "fullname" (VStr "")) ;;
   username <- lift (Py.get u "username" (VStr "")) ;;
   email <- lift (Py.get u "email" (VStr "")) ;;
   department <- lift (Py.get u "department" (VStr "")) ;;
   institution <- lift (Py.get u "institution" (VStr "")) ;;
   city <- lift (Py.get u "city" (VStr "")) ;;
   country <- lift (Py.get u "country" (VStr "")) ;;
   last_access <- lift (last_access_str E u) ;;
   let roles := role_names u in
   let base_user :=
     base_user_of uid fullname username email department institution city
       country last_access roles in
   custom <- lift (flatten_custom_fields u) ;;
   let base_user := Py.update base_user custom in
   completion <- get_course_completion E url token cid uid ;;
   let (c_pct, c_status) := completion : Z * string in
   a_map <- get_activity_completion E url token cid uid ;;
   let course_row := course_row_of cid cname cshort base_user c_status c_pct in
   course_row <- lift (for_in activity_columns (fill_column a_map) course_row) ;;
   let consolidated_row :=
     consolidated_row_of uid fullname email cid cname last_access roles
       c_pct c_status in
   let enrollment_row :=
     enrollment_row_of uid fullname username email cid cname cshort roles
       last_access in
   ret (Rows (per_course_rows acc ++ [course_row])
             (consolidated_rows acc ++ [consolidated_row])
             (enrollment_rows acc ++ [enrollment_row])))%M%list.

Definition users_failed_message (cname : value) (e : exn) : string :=
  "  " ++ cross_mark ++ " Failed to get users for course " ++ Py.str cname
       ++ ": " ++ exn_str e.

Definition process_one_course (course : value) : M task_result :=
  (cid <- lift (Py.get course "id" VNone) ;;
   cname <- lift (Py.get course "fullname" (VStr "")) ;;
   cshort <- lift (Py.get course "shortname" (VStr "")) ;;
   ccat <- lift (Py.get course "categoryid" (VStr "")) ;;
   print (processing_message cname cid) ;;
   activities <- get_course_activities E url token cid ;;
   activity_columns <- lift (columns_of activities) ;;
   let cols := List.map snd activity_columns in
   fetched <-
     try_except
       (users <- get_course_users E url token cid ;; ret (Some users))
       (fun e => print (users_failed_message cname e) ;; ret None) ;;
   match fetched with
   | None => ret ([], [], [], cols)
   | Some users =>
       us <- lift (Py.iter users) ;;
       acc <- for_in_M us (process_user cid cname cshort activity_columns)
                (Rows [] [] []) ;;
       ret (per_course_rows acc, consolidated_rows acc, enrollment_rows acc, cols)
   end)%M.

End ProcessOneCourse.

(** ** main: collecting the results and writing the workbook *)

(** An entry [(cshort, per_course_rows, act_cols)] of [per_course_results]. *)
Definition course_entry : Type :=
  (value * list (Py.dict value) * list string)%type.

Record collected : Type := Collected {
  consolidated_all : list (list value);
  enrollment_all : list (Py.dict value);
  per_course_results : list course_entry
}.

Definition done_message (cname : value) (n : nat) : string :=
  "  " ++ check_mark ++ " Done: " ++ Py.str cname ++ " ("
       ++ Py.str_of_Z (Z.of_nat n) ++ " user rows)".

Definition error_message (cname : value) (e : exn) : string :=
  "  " ++ cross_mark ++ " Error processing " ++ Py.str cname ++ ": " ++ exn_str e.

(** The body of [for fut in as_completed(fut_map)]: [course] is
    [fut_map[fut]] and [result] is what [fut.result()] returns or raises. *)
Definition collect_one (done : value * res task_result) (acc : collected)
    : M collected :=
  let (course, result) := done in
  (cname <- lift (Py.get course "fullname" (VStr "")) ;;
   id <- lift (Py.get course "id" VNone) ;;
   cshort <- lift (Py.get course "shortname" (VStr ("course_" ++ Py.str id))) ;;
   match result with
   | Ok (per_course_rows, consolidated_rows, enrollment_rows, act_cols) =>
       print (done_message cname (List.length per_course_rows)) ;;
       ret (Collected
              (consolidated_all acc ++ consolidated_rows)
              (enrollment_all acc ++ enrollment_rows)
              (per_course_results acc ++ [(cshort, per_course_rows, act_cols)]))
   | Raise e =>
       print (error_message cname e) ;;
       ret acc
   end)%M%list.

(** The loop over the futures, in their order of completion. *)
Definition collect (completed : list (value * res task_result)) : M collected :=
  for_in_M completed collect_one (Collected [] [] []).

Record sheet : Type := Sheet {
  title : string;
  cells : list (list value)
}.

Definition main_headers : list string :=
  ["User ID"; "Full Name"; "Manager"; "Email"; "Course ID"; "Course Name";
   "Last Access"; "Role(s)"; "Completion %"; "Course Completion Status"].

Definition base : list string :=
  ["Course ID"; "Course Name"; "Course Shortname";
   "User ID"; "Full Name"; "Username"; "Email";
   "Department"; "Institution"; "City"; "Country"; "Last Access"; "Role(s)"].

Definition trailing : list string :=
  ["Completion %"; "Course Completion Status"].

Definition en_headers : list string :=
  ["User ID"; "Full Name"; "Username"; "Email"; "Course ID"; "Course Name";
   "Course Shortname"; "Role(s)"; "Last Access"].

(** [[r.get(h, "") for h in headers]] *)
Definition render (headers : list string) (r : Py.dict value) : list value :=
  List.map
    (fun h => match Py.lookup r (VStr h) with Some v => v | None => VStr "" end)
    headers.

Definition header_row (headers : list string) : list value :=
  List.map VStr headers.

(** Insertion of [x] before the first entry whose key is not smaller. *)
Fixpoint insert_by_key {A} (x : string * A) (sorted : list (string * A))
    : list (string * A) :=
  match sorted with
  | [] => [x]
  | y :: rest =>
      if String.leb (fst x) (fst y) then x :: y :: rest
      else y :: insert_by_key x rest
  end.

(** A stable sort on the keys, as [sorted(..., key=...)] is. *)
Fixpoint sort_by_key {A} (xs : list (string * A)) : list (string * A) :=
  match xs with
  | [] => []
  | x :: rest => insert_by_key x (sort_by_key rest)
  end.

(** [sorted(per_course_results, key=lambda x: x[0].lower())] *)
Definition sorted_results (results : list course_entry) : res (list course_entry) :=
  (keyed <- map_res (fun x : course_entry =>
                       key <- py_lower (fst (fst x)) ;; Ok (key, x)) results ;;
   Ok (List.map snd (sort_by_key keyed)))%res.

(** [sanitize_sheet_name(cshort) or "Course"]; [re.sub] takes a [str]. *)
Definition py_sheet_title (cshort : value) : res string :=
  match cshort with
  | VStr s => Ok (sheet_title s)
  | _ => Raise (Exn TypeError "expected string or bytes-like object")
  end.

(** openpyxl, as far as [main] uses it.  [set_title t] is the title the
    first sheet of a new workbook has after [ws.title = t];
    [create_sheet names t] is the title of the sheet [wb.create_sheet(title=t)]
    adds to a workbook whose sheets have the titles [names] (openpyxl changes
    a title that is taken); [append_row row] is the cells [ws.append(row)]
    writes.  Each of them can raise: openpyxl refuses some titles and some
    values. *)
Record openpyxl : Type := Openpyxl {
  set_title : string -> res string;
  create_sheet : list string -> string -> res string;
  append_row : list value -> res (list value)
}.

(** [ws.append(row)] for the rows of a sheet, in their order. *)
Definition append_rows (X : openpyxl) (rows : list (list value))
    : res (list (list value)) :=
  map_res (append_row X) rows.

(** The body of the loop over the sorted results; [sheets] are the sheets
    the workbook has so far. *)
Definition course_sheet (X : openpyxl) (entry : course_entry) (sheets : list sheet)
    : res (list sheet) :=
  let '(cshort, rows, act_cols) := entry in
  (name <- py_sheet_title cshort ;;
   ws_title <- create_sheet X (List.map title sheets) name ;;
   let headers := (base ++ act_cols ++ trailing)%list in
   ws_cells <- append_rows X (header_row headers :: List.map (render headers) rows) ;;
   Ok (sheets ++ [Sheet ws_title ws_cells])%list)%res.

Definition consolidated_title : string :=
  "All Courses " ++ String "226" (String "128" (String "147" "")) ++ " Consolidated".

(** The sheets of the workbook [main] saves, in their order. *)
Definition workbook (X : openpyxl) (c : collected) : res (list sheet) :=
  (main_title <- set_title X consolidated_title ;;
   main_cells <- append_rows X (header_row main_headers :: consolidated_all c) ;;
   let ws_main := Sheet main_title main_cells in
   ordered <- sorted_results (per_course_results c) ;;
   sheets <- for_in ordered (course_sheet X) [ws_main] ;;
   en_title <- create_sheet X (List.map title sheets) "Enrollments" ;;
   en_cells <- append_rows X
                 (header_row en_headers
                  :: List.map (render en_headers) (enrollment_all c)) ;;
   Ok (sheets ++ [Sheet en_title en_cells])%list)%res.

(** The part of [main] that follows the submission of the courses. *)
Definition report (X : openpyxl) (completed : list (value * res task_result))
    : M (list sheet) :=
  (c <- collect completed ;; lift (workbook X c))%M.

(** ** autosize_columns *)

Module Chars.

(** A byte that continues a UTF-8 sequence ([10xxxxxx]). *)
Definition continuation (c : ascii) : bool :=
  (128 <=? Str.code c)%N && (Str.code c <? 192)%N.

(** [len(s)]: the number of code points of [s], one per byte that does not
    continue a sequence. *)
Fixpoint len (s : string) : nat :=
  match s with
  | EmptyString => 0
  | String c r => if continuation c then len r else S (len r)
  end.

End Chars.

(** [ws.max_column]: the longest row appended, 1 on a sheet without cells. *)
Definition max_column (rows : list (list value)) : nat :=
  fold_right (fun row m => Nat.max (List.length row) m) 1 rows.

(** The values [ws.iter_rows(min_col=col_idx, max_col=col_idx,
    values_only=True)] yields, top to bottom: a row that has no cell in the
    column gives [None]. *)
Definition column_values (rows : list (list value)) (col_idx : nat) : list value :=
  List.map (fun row => nth (col_idx - 1) row VNone) rows.

(** The inner loop: [if val is None: continue] and
    [max_len = max(max_len, len(str(val)))]. *)
Fixpoint longest (vals : list value) (max_len : nat) : nat :=
  match vals with
  | [] => max_len
  | VNone :: rest => longest rest max_len
  | val :: rest => longest rest (Nat.max max_len (Chars.len (Py.str val)))
  end.

(** [min(max(12, max_len + 2), 60)] for the column [col_idx] (from 1). *)
Definition column_width (rows : list (list value)) (col_idx : nat) : nat :=
  let max_len := longest (column_values rows col_idx) 0 in
  Nat.min (Nat.max 12 (max_len + 2)) 60.

(** The widths [autosize_columns(ws)] gives to the columns 1, 2, ... of a
    sheet whose rows were appended as [rows]. *)
Definition autosize_columns (rows : list (list value)) : list nat :=
  List.map (column_width rows) (seq 1 (max_column rows)).

(** ** main: which courses are processed *)

(** [len(v)] *)
Definition py_len (v : value) : res nat :=
  match v with
  | VList l => Ok (List.length l)
  | VDict d => Ok (List.length d)
  | VStr s => Ok (Chars.len s)
  | _ => Raise (Exn TypeError
                    ("object of type '" ++ Py.type_name v ++ "' has no len()"))
  end.

Definition only_course_message (courseid : Z) (n : nat) : string :=
  "Processing only course ID=" ++ Py.str_of_Z courseid ++ " ("
    ++ Py.str_of_Z (Z.of_nat n) ++ " found)".

Definition found_message (n : nat) : string :=
  "Found " ++ Py.str_of_Z (Z.of_nat n) ++ " courses.".

(** [s.rstrip(c)] for a single character [c]: [s] without the run of [c]
    it ends with. *)
Fixpoint rstrip (c : ascii) (s : string) : string :=
  match s with
  | EmptyString => EmptyString
  | String x r =>
      let r' := rstrip c r in
      if Str.is_empty r' && Ascii.eqb x c then EmptyString else String x r'
  end.

(** [url = args.url.rstrip("/")] *)
Definition base_url (arg : string) : string := rstrip "/" arg.

(** [if x:] for an optional integer: [None] and [0] are false. *)
Definition nonzero (x : option Z) : option Z :=
  match x with
  | Some id => if (id =? 0)%Z then None else Some id
  | None => None
  end.

(** The [if args.courseid: ... else: ...] of [main]: [courseid] is
    [args.courseid] ([None] when the flag is absent) and [specific_courses]
    the non-blank lines of the courses file ([None] without a file). *)
Definition resolve_courses (E : env) (url token : string)
    (courseid : option Z) (specific_courses : option (list string)) : M value :=
  match nonzero courseid with
  | Some id =>
      (courses <- get_all_courses E url token (Some [Py.str_of_Z id]) ;;
       n <- lift (py_len courses) ;;
       print (only_course_message id n) ;;
       ret courses)%M
  | None =>
      (courses <- get_all_courses E url token specific_courses ;;
       n <- lift (py_len courses) ;;
       print (found_message n) ;;
       ret courses)%M
  end.

(** ** Vocabulary of the statements *)

(** What one attempt makes of the server's answer. *)
Definition outcome (a : attempt) : res value :=
  match a with
  | Failed e => Raise e
  | Parsed data => check_payload data
  end.

(** The number of requests posted in a trace. *)
Fixpoint posts (t : world) : nat :=
  match t with
  | [] => 0
  | Post _ :: rest => S (posts rest)
  | _ :: rest => posts rest
  end.

(** The three labels of an activity's completion. *)
Definition is_label (s : string) : Prop :=
  s = "Completed" \/ s = "Failed" \/ s = "Incomplete".

(** A status entry the loop of [get_activity_completion] can record: a JSON
    object whose [cmid] can be a key; its id and its state. *)
Definition status_entry (s : value) : option (value * value) :=
  match s with
  | VDict d =>
      let cmid := Py.field_or "cmid" VNone d in
      if Py.hashable cmid then Some (cmid, Py.field_or "state" (VInt 0) d) else None
  | _ => None
  end.

(** The label the entries give to the activity [k]: that of the last entry
    whose id equals [k]. *)
Fixpoint label_for (entries : list (value * value)) (k : value) : option string :=
  match entries with
  | [] => None
  | (cmid, state) :: rest =>
      match label_for rest k with
      | Some l => Some l
      | None => if Py.key_eqb cmid k then Some (status_of_state state) else None
      end
  end.

Fixpoint map_opt {A B} (f : A -> option B) (xs : list A) : option (list B) :=
  match xs with
  | [] => Some []
  | x :: rest =>
      match f x, map_opt f rest with
      | Some y, Some ys => Some (y :: ys)
      | _, _ => None
      end
  end.

(** What the keys and values of a completion mapping are. *)
Definition well_keyed (out : Py.dict string) : Prop :=
  Forall (fun kv => Py.hashable (fst kv) = true /\ is_label (snd kv)) out.

(** A course as the server lists it: a JSON object with a numeric id and a
    full name. *)
Definition listed_course (c : value) : Prop :=
  exists fields id fullname,
    c = VDict fields
    /\ Py.field "id" fields = Some (VInt id)
    /\ Py.field "fullname" fields = Some (VStr fullname).

(** Equality of two strings, case ignored. *)
Definition same_ignoring_case (a b : string) : bool :=
  String.eqb (Str.lower a) (Str.lower b).

(** The course's id rendered as a string, or its full name compared case
    ignored, equals some entry of the filter list. *)
Definition matches_filter (specific : list string) (c : value) : bool :=
  match c with
  | VDict fields =>
      match Py.field "id" fields, Py.field "fullname" fields with
      | Some id, Some (VStr fullname) =>
          existsb (String.eqb (Py.str id)) specific
          || existsb (same_ignoring_case fullname) specific
      | _, _ => false
      end
  | _ => false
  end.

(** Neither an upper-case nor a lower-case letter. *)
Definition caseless (c : ascii) : bool :=
  negb (Str.is_upper c) && negb (Str.is_lower c).

(** The short name [main] files a course under:
    [course.get("shortname", f"course_{course.get('id')}")]. *)
Definition cshort_of (d : list (string * value)) : value :=
  Py.field_or "shortname" (VStr ("course_" ++ Py.str (Py.field_or "id" VNone d))) d.

(** The entry of [per_course_results] a completed future leaves, if any. *)
Definition entry_of (done : value * res task_result) : list course_entry :=
  match done with
  | (VDict d, Ok (per_course_rows, _, _, act_cols)) =>
      [(cshort_of d, per_course_rows, act_cols)]
  | _ => []
  end.

(** The entries whose short name is a string. *)
Definition filed (entry : course_entry) : Prop :=
  exists s, fst (fst entry) = VStr s.

(** [a_map.get(cmid, "Incomplete")] for a [cmid] that can be a key. *)
Definition status_or_incomplete (a_map : Py.dict string) (cmid : value) : string :=
  match Py.lookup a_map cmid with
  | Some status => status
  | None => "Incomplete"
  end.

(** The status the row ends up with under the column name [name]: that of
    the last activity column so named. *)
Fixpoint column_status (a_map : Py.dict string)
    (activity_columns : list (value * string)) (name : string) : option string :=
  match activity_columns with
  | [] => None
  | (cmid, colname) :: rest =>
      match column_status a_map rest name with
      | Some status => Some status
      | None =>
          if String.eqb colname name
          then Some (status_or_incomplete a_map cmid)
          else None
      end
  end.

(** ** Payloads of the shape the script reads *)

(** Every activity kept for the course has a string as its type tag. *)
Definition activities_typed (activities : Py.dict meta) : Prop :=
  Forall (fun a => exists s, meta_modname (snd a) = VStr s) activities.

(** The last access of a user is unset, or a timestamp the clock renders. *)
Definition timestamp_ok (E : env) (f : list (string * value)) : Prop :=
  let ts := Py.field_or "lastaccess" VNone f in
  Py.truthy ts = false
  \/ exists z s, Py.as_int ts = Some z /\ local_time E z = Ok s.

(** A custom field is a JSON object whose short name (or else its name) can
    be the key of a column. *)
Definition custom_field_ok (g : value) : Prop :=
  exists fields,
    g = VDict fields
    /\ Py.hashable (Py.or_ (Py.field_or "shortname" VNone fields)
                           (Py.field_or "name" VNone fields)) = true.

(** The custom fields of a user are unset, or a list of custom fields. *)
Definition custom_fields_ok (f : list (string * value)) : Prop :=
  let customfields := Py.field_or "customfields" (VList []) f in
  Py.truthy customfields = false
  \/ exists gs, customfields = VList gs /\ Forall custom_field_ok gs.

Definition well_formed_user (E : env) (u : value) : Prop :=
  exists f, u = VDict f /\ timestamp_ok E f /\ custom_fields_ok f.

(** The enrolled users are a list of well-formed users. *)
Definition users_ok (E : env) (users : value) : Prop :=
  exists us, users = VList us /\ Forall (well_formed_user E) us.

(** Every key of the dictionary can be hashed. *)
Definition keys_hashable {V} (d : Py.dict V) : Prop :=
  Forall (fun kv => Py.hashable (fst kv) = true) d.

(** [kept] is [all] with some elements left out, the others in their order. *)
Inductive sublist {A : Type} : list A -> list A -> Prop :=
| sublist_nil : sublist [] []
| sublist_keep x kept all : sublist kept all -> sublist (x :: kept) (x :: all)
| sublist_skip x kept all : sublist kept all -> sublist kept (x :: all).

(** The id and the full name of a listed course. *)
Definition course_id (c : value) : value :=
  match c with VDict fields => Py.field_or "id" VNone fields | _ => VNone end.

Definition course_fullname (c : value) : value :=
  match c with VDict fields => Py.field_or "fullname" VNone fields | _ => VNone end.

(** The course has the id [id], or is named by the decimal writing of [id]. *)
Definition has_id_or_name (id : Z) (c : value) : bool :=
  match course_id c, course_fullname c with
  | VInt i, VStr fullname => (i =? id)%Z || String.eqb fullname (Py.str_of_Z id)
  | _, _ => false
  end.

(** What [get_course_activities] keeps of a module: its id and its name and
    type, when the module is visible to the user and not being deleted. *)
Definition visible_module (m : value) : option (value * meta) :=
  match m with
  | VDict f =>
      if Py.truthy (Py.field_or "uservisible" (VBool true) f)
         && negb (Py.truthy (Py.field_or "deletioninprogress" (VBool false) f))
      then Some (Py.field_or "id" VNone f,
                 Meta (Py.field_or "name" VNone f) (Py.field_or "modname" VNone f))
      else None
  | _ => None
  end.

(** The modules of one section, and of all the sections of a payload. *)
Definition section_modules (sec : value) : list value :=
  match sec with
  | VDict f =>
      match Py.iter (Py.field_or "modules" (VList []) f) with
      | Ok ms => ms
      | Raise _ => []
      end
  | _ => []
  end.

Definition modules_of (sections : value) : list value :=
  match Py.iter sections with
  | Ok secs => flat_map section_modules secs
  | Raise _ => []
  end.

(** What the modules say of the activity [k]: the name and type of the last
    kept module whose id equals [k]. *)
Fixpoint last_visible (ms : list value) (k : value) : option meta :=
  match ms with
  | [] => None
  | m :: rest =>
      match last_visible rest k with
      | Some x => Some x
      | None =>
          match visible_module m with
          | Some (cmid, x) => if Py.key_eqb cmid k then Some x else None
          | None => None
          end
      end
  end.

(** No two keys of the dictionary are equal. *)
Inductive distinct_keys {V : Type} : Py.dict V -> Prop :=
| distinct_nil : distinct_keys []
| distinct_cons k v d :
    Py.lookup d k = None -> distinct_keys d -> distinct_keys ((k, v) :: d).

(** A request is posted to the web-service endpoint of [url], with the
    token and the JSON format among its query parameters; sleeping and
    printing post nothing. *)
Definition to_endpoint (url token : string) (ev : event) : Prop :=
  match ev with
  | Post r =>
      req_url r = url ++ "/webservice/rest/server.php"
      /\ In ("wstoken", token) (req_params r)
      /\ In ("moodlewsrestformat", "json") (req_params r)
  | _ => True
  end.

(** Whatever the trace so far, [m] only adds to it: at most [n] requests,
    all of them to the endpoint. *)
Definition runs_within {A} (url token : string) (n : nat) (m : M A) : Prop :=
  forall w, exists t,
    snd (m w) = (w ++ t)%list /\ posts t <= n /\ Forall (to_endpoint url token) t.

(** The pairs [get_course_completion] can return. *)
Definition completion_pair (pct : Z) (status : string) : Prop :=
  (pct = 0%Z /\ status = "Incomplete")
  \/ (pct = 0%Z /\ status = "N/A")
  \/ (pct = 100%Z /\ status = "Completed").

(** The three rows made for the user [u]: the consolidated row has the ten
    cells of the consolidated sheet, it and the enrollment row carry the
    user's id, and its completion cells are a completion pair, the one the
    per-course row shows. *)
Definition user_rows (u : value) (course_row : Py.dict value)
    (consolidated_row : list value) (enrollment_row : Py.dict value) : Prop :=
  exists f pct status,
    u = VDict f
    /\ completion_pair pct status
    /\ List.length consolidated_row = List.length main_headers
    /\ nth_error consolidated_row 0 = Some (Py.field_or "id" VNone f)
    /\ nth_error consolidated_row 8 = Some (VInt pct)
    /\ nth_error consolidated_row 9 = Some (VStr status)
    /\ Py.lookup enrollment_row (VStr "User ID") = Some (Py.field_or "id" VNone f)
    /\ Py.lookup course_row (VStr "Completion %") = Some (VInt pct)
    /\ Py.lookup course_row (VStr "Course Completion Status") = Some (VStr status).

(** Four lists of the same length, related item by item. *)
Inductive aligned {A B C D : Type} (R : A -> B -> C -> D -> Prop)
    : list A -> list B -> list C -> list D -> Prop :=
| aligned_nil : aligned R [] [] [] []
| aligned_cons a b c d la lb lc ld :
    R a b c d -> aligned R la lb lc ld ->
    aligned R (a :: la) (b :: lb) (c :: lc) (d :: ld).

(** The id of an enrolled user. *)
Definition user_id (u : value) : value :=
  match u with VDict f => Py.field_or "id" VNone f | _ => VNone end.

(** The completion cells of a per-course row and of a consolidated row are
    one completion pair. *)
Definition same_completion (course_row : Py.dict value)
    (consolidated_row : list value) : Prop :=
  exists pct status,
    completion_pair pct status
    /\ Py.lookup course_row (VStr "Completion %") = Some (VInt pct)
    /\ Py.lookup course_row (VStr "Course Completion Status") = Some (VStr status)
    /\ nth_error consolidated_row 8 = Some (VInt pct)
    /\ nth_error consolidated_row 9 = Some (VStr status).

(** The column name has a colon. *)
Definition has_colon (column : value * string) : Prop :=
  Str.mem ":" (snd column) = true.

(** The name a role is shown under: its "name", or its role id as a string
    when it has none. *)
Definition role_shown (r : value) : option value :=
  match r with
  | VDict g =>
      Some (Py.field_or "name" (VStr (Py.str (Py.field_or "roleid" (VStr "") g))) g)
  | _ => None
  end.

(** The roles a user's payload lists. *)
Definition roles_of (user : value) : list value :=
  match user with
  | VDict f =>
      match Py.iter (Py.field_or "roles" (VList []) f) with
      | Ok rs => rs
      | Raise _ => []
      end
  | _ => []
  end.

(** The key and the value a custom profile field is kept under: the key is
    its short name, or its name when the short name is missing or empty. *)
Definition custom_entry (f : value) : option (value * value) :=
  match f with
  | VDict g =>
      let shortname := Py.field_or "shortname" VNone g in
      Some (if Py.truthy shortname then shortname
            else Py.field_or "name" VNone g,
            Py.field_or "value" (VStr "") g)
  | _ => None
  end.

(** The custom profile fields a user's payload lists; none when the list is
    missing, null or empty. *)
Definition custom_fields_of (user : value) : list value :=
  match user with
  | VDict f =>
      match Py.iter (Py.or_ (Py.field_or "customfields" (VList []) f) (VList [])) with
      | Ok fs => fs
      | Raise _ => []
      end
  | _ => []
  end.

(** What the fields say under the key [k]: the value of the last field kept
    under a key equal to [k]. *)
Fixpoint last_custom (fs : list value) (k : value) : option value :=
  match fs with
  | [] => None
  | f :: rest =>
      match last_custom rest k with
      | Some v => Some v
      | None =>
          match custom_entry f with
          | Some (key, v) => if Py.key_eqb key k then Some v else None
          | None => None
          end
      end
  end.

(** The per-course row shows the custom fields of the user [u] under their
    keys, but for the keys that name an activity column or one of the two
    completion columns. *)
Definition shows_custom_fields (u : value) (cols : list string)
    (course_row : Py.dict value) : Prop :=
  forall name v,
    last_custom (custom_fields_of u) (VStr name) = Some v ->
    ~ In name cols ->
    name <> "Completion %" -> name <> "Course Completion Status" ->
    Py.lookup course_row (VStr name) = Some v.

(** A character of the ASCII range, and a string of such characters. *)
Definition is_ascii (c : ascii) : bool := (Str.code c <? 128)%N.

Definition ascii_text (s : string) : Prop := Str.all is_ascii s = true.

(** The full name of the course, when it is a string, is an ASCII string. *)
Definition ascii_full_name (c : value) : Prop :=
  forall d s, c = VDict d -> Py.field "fullname" d = Some (VStr s) -> ascii_text s.

(** Every string of the value is an ASCII string. *)
Fixpoint ascii_value (v : value) : bool :=
  match v with
  | VStr s => Str.all is_ascii s
  | VList l => forallb ascii_value l
  | VDict d =>
      forallb (fun kv => Str.all is_ascii (fst kv) && ascii_value (snd kv)) d
  | _ => true
  end.

(** The two fields the filter reads of a course hold ASCII strings only. *)
Definition ascii_course (c : value) : Prop :=
  ascii_full_name c
  /\ forall d id, c = VDict d -> Py.field "id" d = Some id -> ascii_value id = true.


(** The column of an activity whose type tag is an ASCII string: the type
    tag, capitalized, a colon and the activity's name. *)
Definition column_of (activity : value * meta) (col : string) : Prop :=
  exists modname,
    meta_modname (snd activity) = VStr modname
    /\ (ascii_text modname ->
        col = Str.capitalize modname ++ ": " ++ Py.str (meta_name (snd activity))).

(** What a completed future adds to [consolidated_all] and to
    [enrollment_all]: the rows its course was processed into, nothing when
    the processing raised. *)
Definition consolidated_of (done : value * res task_result) : list (list value) :=
  match snd done with
  | Ok (_, consolidated_rows, _, _) => consolidated_rows
  | Raise _ => []
  end.

Definition enrollments_of (done : value * res task_result) : list (Py.dict value) :=
  match snd done with
  | Ok (_, _, enrollment_rows, _) => enrollment_rows
  | Raise _ => []
  end.

(** The line printed for a completed future. *)
Definition collect_line (done : value * res task_result) : list event :=
  match done with
  | (VDict d, Ok (per_course_rows, _, _, _)) =>
      [Print (done_message (Py.field_or "fullname" (VStr "") d)
                (List.length per_course_rows))]
  | (VDict d, Raise e) =>
      [Print (error_message (Py.field_or "fullname" (VStr "") d) e)]
  | _ => []
  end.

(** A JSON object. *)
Definition is_object (v : value) : Prop := exists d, v = VDict d.

(** The key [main] sorts the entries of [per_course_results] by: the short
    name in lower case. *)
Definition sort_key (entry : course_entry) : string :=
  match fst (fst entry) with
  | VStr s => Str.lower s
  | _ => ""
  end.

(** The short name of the entry is a string of ASCII characters. *)
Definition ascii_named (entry : course_entry) : Prop :=
  exists s, fst (fst entry) = VStr s /\ Str.all is_ascii s = true.

(** [a] is not after [b]: the strings are compared character by character,
    a prefix coming first. *)
Definition in_order (a b : course_entry) : Prop :=
  String.leb (sort_key a) (sort_key b) = true.

(** The entries sorted under the key [k], in their order. *)
Definition keyed (k : string) (entries : list course_entry) : list course_entry :=
  filter (fun entry => String.eqb (sort_key entry) k) entries.

(** A course that is a JSON object whose short name (its own, or the one
    [main] makes up from its id) is an ASCII string. *)
Definition plain_course (c : value) : Prop :=
  exists d s, c = VDict d /\ cshort_of d = VStr s /\ ascii_text s.

(** The title [main] asks for the sheet of an entry. *)
Definition asked_title (entry : course_entry) : string :=
  match fst (fst entry) with
  | VStr s => sheet_title s
  | _ => ""
  end.

(** The rows [main] appends to the sheet of an entry: the header row (the
    thirteen base columns, the activity columns, the two completion columns)
    and one row for every per-course row. *)
Definition sheet_rows (entry : course_entry) : list (list value) :=
  let headers := (base ++ snd entry ++ trailing)%list in
  header_row headers :: List.map (render headers) (snd (fst entry)).

(** openpyxl writes the rows as they are. *)
Definition writes (X : openpyxl) (rows : list (list value)) : Prop :=
  Forall (fun row => append_row X row = Ok row) rows.

(** openpyxl adds a sheet when the title [asked] is asked for, whatever the
    sheets the workbook has. *)
Definition names_sheet (X : openpyxl) (asked : string) : Prop :=
  forall names, exists ws_title, create_sheet X names asked = Ok ws_title.

(** openpyxl refuses nothing of the run: it titles the consolidated sheet,
    adds a sheet for every course that was processed and the enrollment
    sheet, and writes the rows of all of them as they are. *)
Definition takes (X : openpyxl) (completed : list (value * res task_result))
    : Prop :=
  (exists main_title, set_title X consolidated_title = Ok main_title)
  /\ writes X (header_row main_headers :: flat_map consolidated_of completed)
  /\ Forall (fun entry => names_sheet X (asked_title entry)
                          /\ writes X (sheet_rows entry))
       (flat_map entry_of completed)
  /\ names_sheet X "Enrollments"
  /\ writes X (header_row en_headers
               :: List.map (render en_headers)
                    (flat_map enrollments_of completed)).

(** The sheet added for an entry to a workbook that has the sheets [before]:
    its title is the one openpyxl gives when the title of the entry is asked
    for, its rows are those of the entry. *)
Definition sheet_made (X : openpyxl) (before : list sheet) (entry : course_entry)
    (s : sheet) : Prop :=
  create_sheet X (List.map title before) (asked_title entry) = Ok (title s)
  /\ cells s = sheet_rows entry.

(** The sheets added for the entries, one after the other, to a workbook
    that has the sheets [before]. *)
Inductive sheets_made (X : openpyxl)
    : list sheet -> list course_entry -> list sheet -> Prop :=
| made_none before : sheets_made X before [] []
| made_one before entry s entries rest :
    sheet_made X before entry s ->
    sheets_made X (before ++ [s])%list entries rest ->
    sheets_made X before (entry :: entries) (s :: rest).

(** [n] times the character [c]. *)
Fixpoint run_of (c : ascii) (n : nat) : string :=
  match n with
  | 0 => EmptyString
  | S m => String c (run_of c m)
  end.

(** ** Sample data *)

Module Sample.

Definition algebra : value :=
  VDict [("id", VInt 101); ("fullname", VStr "Algebra I");
         ("shortname", VStr "ALG-1"); ("categoryid", VInt 3)].

Definition biology : value :=
  VDict [("id", VInt 102); ("fullname", VStr "Biology");
         ("shortname", VStr "BIO"); ("categoryid", VInt 3)].

Definition chemistry : value :=
  VDict [("id", VInt 103); ("fullname", VStr "Chemistry");
         ("shortname", VStr "CHEM"); ("categoryid", VInt 4)].

Definition catalogue : list (string * value) :=
  [("courses", VList [algebra; biology; chemistry]); ("warnings", VList [])].

(** A clock that renders every timestamp the same way. *)
Definition clock (ts : Z) : res string := Ok "2024-01-01 00:00:00".

(** A server that answers every request with the catalogue. *)
Definition catalogue_server : env := Env (fun _ _ => Parsed (VDict catalogue)) clock.

(** A server that is down. *)
Definition unreachable : exn := Exn RequestError "Connection refused".
Definition dead_server : env := Env (fun _ _ => Failed unreachable) clock.

(** The [wsfunction] a request names. *)
Definition wsfunction (r : request) : string :=
  match List.find (fun kv => String.eqb (fst kv) "wsfunction") (req_params r) with
  | Some kv => snd kv
  | None => ""
  end.

(** A course with two forums of the same name. *)
Definition sections : value :=
  VList [VDict [("id", VInt 1); ("name", VStr "General");
                ("modules",
                 VList [VDict [("id", VInt 11); ("name", VStr "Discussion");
                               ("modname", VStr "forum")];
                        VDict [("id", VInt 12); ("name", VStr "Discussion");
                               ("modname", VStr "forum")];
                        VDict [("id", VInt 13); ("name", VStr "Hidden quiz");
                               ("modname", VStr "quiz");
                               ("uservisible", VBool false)];
                        VDict [("id", VInt 14); ("name", VStr "Final exam");
                               ("modname", VStr "quiz")]])]].

(** The activity columns of that course. *)
Definition columns : list (value * string) :=
  [(VInt 11, "Forum: Discussion"); (VInt 12, "Forum: Discussion");
   (VInt 14, "Quiz: Final exam")].

Definition ada : value :=
  VDict [("id", VInt 7); ("fullname", VStr "Ada Lovelace");
         ("username", VStr "ada"); ("email", VStr "ada@example.org");
         ("lastaccess", VInt 1704067200);
         ("roles", VList [VDict [("roleid", VInt 5); ("name", VStr "Student")]]);
         ("customfields",
          VList [VDict [("shortname", VStr "team"); ("value", VStr "Engines")]])].

(** Ada completed the second forum only; the first has no entry. *)
Definition statuses : value :=
  VDict [("statuses", VList [VDict [("cmid", VInt 12); ("state", VInt 1)]])].

Definition course_status : value :=
  VDict [("completionstatus", VDict [("completed", VBool false)])].

Definition answer (function : string) : attempt :=
  if String.eqb function "core_course_get_courses_by_field"
  then Parsed (VDict catalogue)
  else if String.eqb function "core_course_get_contents" then Parsed sections
  else if String.eqb function "core_enrol_get_enrolled_users" then Parsed (VList [ada])
  else if String.eqb function "core_completion_get_course_completion_status"
  then Parsed course_status
  else if String.eqb function "core_completion_get_activities_completion_status"
  then Parsed statuses
  else Failed (Exn RequestError "404 Client Error").

(** A server that answers every function the script calls. *)
Definition campus : env := Env (fun _ r => answer (wsfunction r)) clock.

(** The same server, except that it refuses to list the enrolled users. *)
Definition forbidden : exn := Exn RequestError "403 Client Error".
Definition campus_without_users : env :=
  Env (fun _ r =>
         if String.eqb (wsfunction r) "core_enrol_get_enrolled_users"
         then Failed forbidden
         else answer (wsfunction r))
      clock.

(** A workbook library that, as openpyxl does, gives a title that is taken
    (case ignored) a number, and refuses lists, dicts and strings with control
    characters as cells. *)
Definition taken (names : list string) (asked : string) : bool :=
  existsb (fun name => String.eqb (Str.lower name) (Str.lower asked)) names.

Definition control (c : ascii) : bool :=
  (Str.code c <? 32)%N
  && negb ((Str.code c =? 9)%N || (Str.code c =? 10)%N || (Str.code c =? 13)%N).

Definition writable (v : value) : bool :=
  match v with
  | VList _ | VDict _ => false
  | VStr s => Str.all (fun c => negb (control c)) s
  | _ => true
  end.

Definition refused : exn := Exn WorkbookError "Cannot convert to Excel".

Definition spreadsheet : openpyxl :=
  Openpyxl (fun asked => Ok asked)
           (fun names asked => Ok (if taken names asked then asked ++ "1" else asked))
           (fun row => if forallb writable row then Ok row else Raise refused).



End Sample.

(** * Properties *)

(** ** Strings *)

Module StrFacts.

Lemma all_take (p : ascii -> bool) (n : nat) (s : string) :
  Str.all p s = true -> Str.all p (Str.take n s) = true.
Proof.
  revert s; induction n as [|n IH]; intros [|c r]; simpl; auto.
  intros H; apply andb_true_iff in H as [Hc Hr].
  rewrite Hc; simpl; auto.
Qed.

Lemma all_re_sub_drop (cls : ascii -> bool) (s : string) :
  Str.all (fun c => negb (cls c)) (Str.re_sub_drop cls s) = true.
Proof.
  induction s as [|c r IH]; simpl; [reflexivity|].
  destruct (cls c) eqn:Hc; simpl; [assumption|].
  rewrite Hc; simpl; assumption.
Qed.

Lemma all_ext (p q : ascii -> bool) (s : string) :
  (forall c, p c = q c) -> Str.all p s = Str.all q s.
Proof.
  intros H; induction s as [|c r IH]; simpl; [reflexivity|].
  rewrite H, IH; reflexivity.
Qed.

Lemma length_take (n : nat) (s : string) : String.length (Str.take n s) <= n.
Proof.
  revert s; induction n as [|n IH]; intros [|c r]; simpl; try lia.
  specialize (IH r); lia.
Qed.

Lemma subseq_empty (s : string) : Str.subseq EmptyString s.
Proof. induction s; constructor; assumption. Qed.

Lemma subseq_take (n : nat) (s : string) : Str.subseq (Str.take n s) s.
Proof.
  revert s; induction n as [|n IH]; intros [|c r]; simpl;
    try apply subseq_empty.
  apply Str.subseq_keep, IH.
Qed.

Lemma subseq_re_sub_drop (cls : ascii -> bool) (s : string) :
  Str.subseq (Str.re_sub_drop cls s) s.
Proof.
  induction s as [|c r IH]; simpl; [constructor|].
  destruct (cls c); constructor; assumption.
Qed.

Lemma subseq_trans (a b c : string) :
  Str.subseq a b -> Str.subseq b c -> Str.subseq a c.
Proof.
  intros Hab Hbc; revert a Hab.
  induction Hbc as [|x r s Hrs IH|x r s Hrs IH]; intros a Hab.
  - assumption.
  - inversion Hab; subst.
    + apply Str.subseq_keep, IH; assumption.
    + apply Str.subseq_skip, IH; assumption.
  - apply Str.subseq_skip, IH; assumption.
Qed.

Lemma take_prefix (n : nat) (s : string) :
  exists rest, s = Str.take n s ++ rest.
Proof.
  revert s; induction n as [|n IH]; intros s.
  - exists s; destruct s; reflexivity.
  - destruct s as [|c r]; [exists EmptyString; reflexivity|].
    destruct (IH r) as [rest Hrest].
    exists rest; simpl; rewrite <- Hrest; reflexivity.
Qed.

End StrFacts.

(** ** sanitize_sheet_name *)

(** C9. For every input string, [sanitize_sheet_name] returns a string made
    of characters in A-Z, a-z, 0-9 only, of length at most 31, whose
    characters are characters of the input in their order (it is the start
    of the input's alphanumeric characters); when that string is empty the
    sheet is titled "Course", otherwise it is titled with that string. *)
Theorem sanitize_sheet_name_spec (name : string) :
  let r := sanitize_sheet_name name in
  Str.all Str.is_alnum r = true
  /\ String.length r <= 31
  /\ Str.subseq r name
  /\ (exists rest, Str.re_sub_drop non_alnum name = r ++ rest)
  /\ (r = "" -> sheet_title name = "Course")
  /\ (r <> "" -> sheet_title name = r).
Proof.
  unfold sanitize_sheet_name; cbv zeta.
  repeat split.
  - apply StrFacts.all_take.
    rewrite (StrFacts.all_ext _ (fun c => negb (non_alnum c))).
    + apply StrFacts.all_re_sub_drop.
    + intros c; unfold non_alnum; rewrite negb_involutive; reflexivity.
  - apply StrFacts.length_take.
  - eapply StrFacts.subseq_trans.
    + apply StrFacts.subseq_take.
    + apply StrFacts.subseq_re_sub_drop.
  - apply StrFacts.take_prefix.
  - intros H; unfold sheet_title, str_or, sanitize_sheet_name.
    rewrite H; reflexivity.
  - intros H; unfold sheet_title, str_or, sanitize_sheet_name.
    destruct (Str.take 31 (Str.re_sub_drop non_alnum name)); [congruence|reflexivity].
Qed.

Example sanitize_sheet_name_sample :
  sanitize_sheet_name "Intro to C++ (2024) - section_A [draft] {v2} and more text"
  = "IntrotoC2024sectionAdraftv2andm".
Proof. reflexivity. Qed.

Example sheet_title_fallback : sheet_title " -_()[]{}" = "Course".
Proof. reflexivity. Qed.

(** ** call_moodle *)

Lemma request_once_eq (E : env) (req : request) (w : world) :
  request_once E req w = (outcome (respond E w req), (w ++ [Post req])%list).
Proof.
  unfold request_once, bind, post_json, lift, outcome.
  destruct (respond E w req); reflexivity.
Qed.

Lemma check_payload_raises (d : list (string * value)) (x : value) :
  Py.field "exception" d = Some x -> Py.truthy x = true ->
  check_payload (VDict d)
  = Raise (Exn RuntimeError
             ("Moodle exception: " ++ Py.str (Py.field_or "message" VNone d)
                ++ " | " ++ Py.str (Py.field_or "errorcode" VNone d))).
Proof.
  intros Hx Ht.
  unfold check_payload, signals_exception, moodle_exception, Py.get, Py.is_dict.
  cbn [res_bind]; unfold Py.field_or at 1; rewrite Hx, Ht; reflexivity.
Qed.

Lemma check_payload_returns (data : value) :
  (forall d x, data = VDict d -> Py.field "exception" d = Some x ->
               Py.truthy x = false) ->
  check_payload data = Ok data.
Proof.
  destruct data as [| b | z | s | l | d]; try reflexivity.
  intros H.
  unfold check_payload, signals_exception, Py.get, Py.is_dict.
  cbn [res_bind]; unfold Py.field_or.
  destruct (Py.field "exception" d) as [x|] eqn:Hx; [|reflexivity].
  rewrite (H d x eq_refl Hx); reflexivity.
Qed.

(** The three rounds of the loop, written out. *)
Lemma retry_three (E : env) (req : request) (w : world) :
  let w1 := (w ++ [Post req])%list in
  let s1 := (w1 ++ [Sleep (backoff 1)])%list in
  let w2 := (s1 ++ [Post req])%list in
  let s2 := (w2 ++ [Sleep (backoff 2)])%list in
  let w3 := (s2 ++ [Post req])%list in
  retry E req (seq 1 RETRY_COUNT) w =
    match outcome (respond E w req) with
    | Ok data => (Ok data, w1)
    | Raise _ =>
        match outcome (respond E s1 req) with
        | Ok data => (Ok data, w2)
        | Raise _ => (outcome (respond E s2 req), w3)
        end
    end.
Proof.
  cbv zeta; simpl.
  unfold try_except at 1; rewrite request_once_eq.
  destruct (outcome (respond E w req)) as [d1|e1]; [reflexivity|].
  unfold bind at 1, sleep, emit.
  unfold try_except at 1; rewrite request_once_eq.
  destruct (outcome (respond E _ req)) as [d2|e2]; [reflexivity|].
  unfold bind at 1.
  unfold try_except at 1; rewrite request_once_eq.
  destruct (outcome (respond E _ req)) as [d3|e3]; reflexivity.
Qed.

Lemma call_moodle_eq (E : env) (url token function : string)
    (params : option (list (string * value))) (w : world) :
  let req := mk_request url token function
               (match params with None => [] | Some p => p end) in
  let w1 := (w ++ [Post req])%list in
  let s1 := (w1 ++ [Sleep (backoff 1)])%list in
  let w2 := (s1 ++ [Post req])%list in
  let s2 := (w2 ++ [Sleep (backoff 2)])%list in
  let w3 := (s2 ++ [Post req])%list in
  call_moodle E url token function params w =
    match outcome (respond E w req) with
    | Ok data => (Ok data, w1)
    | Raise _ =>
        match outcome (respond E s1 req) with
        | Ok data => (Ok data, w2)
        | Raise _ => (outcome (respond E s2 req), w3)
        end
    end.
Proof. unfold call_moodle; apply retry_three. Qed.

(** C5, as amended.  [call_moodle] posts the request at most three times.
    An attempt fails when requests raises (network error, status outside 2xx,
    undecodable body) or, with a RuntimeError, when the payload is a JSON
    object whose "exception" field holds a true value; any other payload is
    returned at once.
    After a first failure it sleeps 1.5 x 1 seconds, after a second 1.5 x 2
    seconds, and the failure of the third attempt is raised to the caller. *)
Theorem call_moodle_attempts (E : env) (url token function : string)
    (params : option (list (string * value))) (w : world) :
  let req := mk_request url token function
               (match params with None => [] | Some p => p end) in
  let w1 := (w ++ [Post req])%list in
  let s1 := (w1 ++ [Sleep (backoff 1)])%list in
  let w2 := (s1 ++ [Post req])%list in
  let s2 := (w2 ++ [Sleep (backoff 2)])%list in
  let w3 := (s2 ++ [Post req])%list in
  call_moodle E url token function params w =
    match outcome (respond E w req) with
    | Ok data => (Ok data, w1)
    | Raise _ =>
        match outcome (respond E s1 req) with
        | Ok data => (Ok data, w2)
        | Raise _ => (outcome (respond E s2 req), w3)
        end
    end
  /\ (exists t, snd (call_moodle E url token function params w) = (w ++ t)%list
                /\ 1 <= posts t <= 3)
  /\ (backoff 1 == 1.5 * 1 /\ backoff 2 == 1.5 * 2)%Q
  /\ (forall e, outcome (Failed e) = Raise e)
  /\ (forall d x,
        Py.field "exception" d = Some x -> Py.truthy x = true ->
        exists e, outcome (Parsed (VDict d)) = Raise e
                  /\ exn_cls e = RuntimeError)
  /\ (forall data,
        (forall d x, data = VDict d -> Py.field "exception" d = Some x ->
                     Py.truthy x = false) ->
        outcome (Parsed data) = Ok data).
Proof.
  cbv zeta; split; [apply call_moodle_eq|].
  split.
  { rewrite call_moodle_eq.
    destruct (outcome (respond E w _)).
    - eexists; split; [reflexivity|simpl; lia].
    - destruct (outcome (respond E _ _)).
      + eexists; split; [simpl; rewrite <- !app_assoc; reflexivity|simpl; lia].
      + eexists; split; [simpl; rewrite <- !app_assoc; reflexivity|simpl; lia]. }
  split; [split; reflexivity|].
  split; [reflexivity|].
  split.
  - intros d x Hx Ht; eexists; split.
    + exact (check_payload_raises d x Hx Ht).
    + reflexivity.
  - intros data H; exact (check_payload_returns data H).
Qed.

(** C5, as stated, fails: a payload that has an "exception" field holding
    the empty string is returned by the first attempt, with no retry. *)
Lemma call_moodle_returns_empty_exception_field :
  let payload := VDict [("exception", VStr ""); ("courses", VList [])] in
  let E := Env (fun _ _ => Parsed payload) (fun _ => Ok "") in
  Py.field "exception" [("exception", VStr ""); ("courses", VList [])] = Some (VStr "")
  /\ call_moodle E "https://moodle.example" "secret"
       "core_course_get_courses_by_field" None []
     = (Ok payload,
        [Post (mk_request "https://moodle.example" "secret"
                 "core_course_get_courses_by_field" [])]).
Proof. split; reflexivity. Qed.

Example call_moodle_gives_up :
  let boom := Exn RequestError "503 Server Error" in
  let E := Env (fun _ _ => Failed boom) (fun _ => Ok "") in
  let req := mk_request "u" "t" "f" [] in
  call_moodle E "u" "t" "f" None []
  = (Raise boom, [Post req; Sleep (backoff 1); Post req; Sleep (backoff 2); Post req]).
Proof. reflexivity. Qed.

Example call_moodle_second_attempt :
  let E := Env (fun w _ => match w with
                           | [] => Parsed (VDict [("exception", VStr "dml_exception");
                                                  ("message", VStr "busy");
                                                  ("errorcode", VStr "dbbusy")])
                           | _ => Parsed (VList [])
                           end) (fun _ => Ok "") in
  let req := mk_request "u" "t" "f" [] in
  call_moodle E "u" "t" "f" None []
  = (Ok (VList []), [Post req; Sleep (backoff 1); Post req]).
Proof. reflexivity. Qed.

(** ** Dictionaries *)

Module DictFacts.

Lemma key_eqb_sym (a b : value) : Py.key_eqb a b = Py.key_eqb b a.
Proof.
  destruct a, b; simpl; try reflexivity;
    try apply Z.eqb_sym; try apply String.eqb_sym.
Qed.

Lemma key_eqb_trans (a b c : value) :
  Py.key_eqb a b = true -> Py.key_eqb a c = Py.key_eqb b c.
Proof.
  destruct a, b; simpl; try discriminate; intros H;
    try (apply Z.eqb_eq in H); try (apply String.eqb_eq in H);
    destruct c; simpl; try reflexivity; try congruence;
    repeat match goal with
           | b : bool |- _ => destruct b
           end; simpl in *; subst; try reflexivity; try congruence.
Qed.

Lemma lookup_store {V} (d : Py.dict V) (k q : value) (v : V) :
  Py.lookup (Py.store d k v) q
  = if Py.key_eqb k q then Some v else Py.lookup d q.
Proof.
  induction d as [|[k' v'] d IH]; simpl.
  - reflexivity.
  - destruct (Py.key_eqb k' k) eqn:Hk; simpl.
    + rewrite (key_eqb_trans _ _ q Hk).
      destruct (Py.key_eqb k q); reflexivity.
    + destruct (Py.key_eqb k' q) eqn:Hq; [|apply IH].
      rewrite key_eqb_sym in Hk.
      destruct (Py.key_eqb k q) eqn:Hkq; [|reflexivity].
      rewrite (key_eqb_trans _ _ k' Hkq) in Hk.
      rewrite key_eqb_sym in Hq; congruence.
Qed.

Lemma store_keys_hashable {V} (d : Py.dict V) (k : value) (v : V) :
  Forall (fun kv => Py.hashable (fst kv) = true) d ->
  Py.hashable k = true ->
  Forall (fun kv => Py.hashable (fst kv) = true) (Py.store d k v).
Proof.
  intros Hd Hk; induction d as [|[k' v'] d IH]; simpl.
  - constructor; auto.
  - inversion Hd; subst.
    destruct (Py.key_eqb k' k); constructor; auto.
Qed.

End DictFacts.

(** ** Completion queries *)

Lemma try_except_call {A B} (m : M A) (k : A -> res B) (fallback : B) (w : world) :
  try_except (x <- m ;; lift (k x))%M (fun _ => ret fallback) w
  = (match fst (m w) with
     | Ok x => match k x with Ok b => Ok b | Raise _ => Ok fallback end
     | Raise _ => Ok fallback
     end, snd (m w)).
Proof.
  unfold try_except, bind, lift, ret.
  destruct (m w) as [[x|e] w']; simpl; [|reflexivity].
  destruct (k x); reflexivity.
Qed.

Lemma get_course_completion_eq (E : env) (url token : string)
    (cid uid : value) (w : world) :
  let call := call_moodle E url token
                "core_completion_get_course_completion_status"
                (Some [("courseid", cid); ("userid", uid)]) w in
  get_course_completion E url token cid uid w
  = (Ok match fst call with
        | Ok resp => match completion_of resp with
                     | Ok (Some r) => r
                     | _ => (0%Z, "N/A")
                     end
        | Raise _ => (0%Z, "N/A")
        end, snd call).
Proof.
  cbv zeta; unfold get_course_completion, bind at 1.
  rewrite try_except_call.
  destruct (call_moodle _ _ _ _ _ w) as [[resp|e] w']; simpl; [|reflexivity].
  destruct (completion_of resp) as [[r|]|e]; reflexivity.
Qed.

(** C2. When the course-completion call raises, [get_course_completion]
    returns exactly (0, "N/A"); it never raises; a user the server reports as
    not completed gets (0, "Incomplete") (and a completed one
    (100, "Completed")), which differs from (0, "N/A"). *)
Theorem get_course_completion_spec (E : env) (url token : string)
    (cid uid : value) (w : world) :
  let call := call_moodle E url token
                "core_completion_get_course_completion_status"
                (Some [("courseid", cid); ("userid", uid)]) w in
  (forall e, fst call = Raise e ->
     get_course_completion E url token cid uid w = (Ok (0%Z, "N/A"), snd call))
  /\ (exists r, get_course_completion E url token cid uid w = (Ok r, snd call))
  /\ (forall d status,
        fst call = Ok (VDict d) ->
        Py.field "completionstatus" d = Some (VDict status) ->
        get_course_completion E url token cid uid w
        = (Ok (if Py.truthy (Py.field_or "completed" VNone status)
               then (100%Z, "Completed") else (0%Z, "Incomplete")), snd call))
  /\ (0%Z, "N/A") <> (0%Z, "Incomplete").
Proof.
  cbv zeta; repeat split.
  - intros e He; rewrite get_course_completion_eq; cbv zeta; rewrite He; reflexivity.
  - rewrite get_course_completion_eq; eexists; reflexivity.
  - intros d status Hd Hs; rewrite get_course_completion_eq; cbv zeta.
    rewrite Hd; simpl; rewrite Hs; simpl.
    unfold Py.field_or; destruct (Py.field "completed" status);
      destruct (Py.truthy _); reflexivity.
  - discriminate.
Qed.

Example get_course_completion_not_completed :
  let resp := VDict [("completionstatus",
                      VDict [("completed", VBool false); ("aggregation", VInt 1)])] in
  let E := Env (fun _ _ => Parsed resp) (fun _ => Ok "") in
  fst (get_course_completion E "u" "t" (VInt 5) (VInt 9) []) = Ok (0%Z, "Incomplete").
Proof. reflexivity. Qed.

Example get_course_completion_unavailable :
  let E := Env (fun _ _ => Failed (Exn RequestError "timed out")) (fun _ => Ok "") in
  fst (get_course_completion E "u" "t" (VInt 5) (VInt 9) []) = Ok (0%Z, "N/A").
Proof. reflexivity. Qed.

Lemma status_of_state_label (state : value) : is_label (status_of_state state).
Proof.
  unfold status_of_state, is_label.
  destruct (Py.eq_int state 1 || Py.eq_int state 2); [auto|].
  destruct (Py.eq_int state 3); auto.
Qed.

Lemma eq_int_as_int (v : value) (z : Z) :
  Py.eq_int v z = true <-> Py.as_int v = Some z.
Proof.
  unfold Py.eq_int; destruct (Py.as_int v) as [x|]; split; intros H;
    try discriminate.
  - apply Z.eqb_eq in H; congruence.
  - injection H as ->; apply Z.eqb_refl.
Qed.

Lemma record_status_entry (s : value) (out : Py.dict string) (cmid state : value) :
  status_entry s = Some (cmid, state) ->
  record_status s out = Ok (Py.store out cmid (status_of_state state)).
Proof.
  destruct s as [| | | | |d]; try discriminate.
  unfold status_entry, record_status, Py.setitem, Py.get, res_bind.
  fold (Py.field_or "cmid" VNone d); fold (Py.field_or "state" (VInt 0) d).
  destruct (Py.hashable (Py.field_or "cmid" VNone d)); [|discriminate].
  intros H; injection H as <- <-; reflexivity.
Qed.

(** C7. For every completion entry the loop records, the label stored under
    the entry's id follows the entry's state: state 1 or 2 gives "Completed",
    state 3 gives "Failed", any other state gives "Incomplete", and so does
    an entry without a state (it defaults to 0). *)
Theorem completion_state_label (d : list (string * value)) (out : Py.dict string) :
  let cmid := Py.field_or "cmid" VNone d in
  let state := Py.field_or "state" (VInt 0) d in
  Py.hashable cmid = true ->
  exists label,
    record_status (VDict d) out = Ok (Py.store out cmid label)
    /\ (Py.as_int state = Some 1%Z \/ Py.as_int state = Some 2%Z ->
        label = "Completed")
    /\ (Py.as_int state = Some 3%Z -> label = "Failed")
    /\ (Py.as_int state <> Some 1%Z -> Py.as_int state <> Some 2%Z ->
        Py.as_int state <> Some 3%Z -> label = "Incomplete")
    /\ (Py.field "state" d = None -> label = "Incomplete").
Proof.
  cbv zeta; intros Hc.
  exists (status_of_state (Py.field_or "state" (VInt 0) d)).
  split.
  { apply record_status_entry; simpl; rewrite Hc; reflexivity. }
  unfold status_of_state.
  repeat split.
  - intros [H|H]; apply eq_int_as_int in H; rewrite H; simpl;
      [reflexivity|rewrite orb_true_r; reflexivity].
  - intros H.
    assert (H1 : Py.eq_int (Py.field_or "state" (VInt 0) d) 1 = false).
    { destruct (Py.eq_int _ 1) eqn:H1; [|reflexivity].
      apply eq_int_as_int in H1; congruence. }
    assert (H2 : Py.eq_int (Py.field_or "state" (VInt 0) d) 2 = false).
    { destruct (Py.eq_int _ 2) eqn:H2; [|reflexivity].
      apply eq_int_as_int in H2; congruence. }
    apply eq_int_as_int in H; rewrite H1, H2, H; reflexivity.
  - intros H1 H2 H3.
    destruct (Py.eq_int _ 1) eqn:E1; [apply eq_int_as_int in E1; contradiction|].
    destruct (Py.eq_int _ 2) eqn:E2; [apply eq_int_as_int in E2; contradiction|].
    destruct (Py.eq_int _ 3) eqn:E3; [apply eq_int_as_int in E3; contradiction|].
    reflexivity.
  - intros H; unfold Py.field_or; rewrite H; reflexivity.
Qed.

(** The entry [{cmid: 7, state: 2}] is recorded as "Completed". *)
Lemma completion_state_label_witness :
  Py.hashable (Py.field_or "cmid" VNone [("cmid", VInt 7); ("state", VInt 2)]) = true
  /\ exists label,
       record_status (VDict [("cmid", VInt 7); ("state", VInt 2)]) []
       = Ok (Py.store [] (VInt 7) label)
       /\ label = "Completed".
Proof.
  split; [reflexivity|].
  destruct (completion_state_label [("cmid", VInt 7); ("state", VInt 2)] [] eq_refl)
    as (label & Hrec & H12 & _).
  exists label; split; [exact Hrec|].
  apply H12; right; reflexivity.
Defined.

Lemma store_well_keyed (out : Py.dict string) (k : value) (l : string) :
  well_keyed out -> Py.hashable k = true -> is_label l ->
  well_keyed (Py.store out k l).
Proof.
  unfold well_keyed; intros Hout Hk Hl.
  induction out as [|[k' l'] out IH]; simpl.
  - constructor; auto.
  - inversion Hout as [|? ? [Hk' Hl'] Hrest]; subst; simpl in *.
    destruct (Py.key_eqb k' k); constructor; simpl; auto.
Qed.

Lemma record_status_well_keyed (s : value) (out out' : Py.dict string) :
  record_status s out = Ok out' -> well_keyed out -> well_keyed out'.
Proof.
  unfold record_status, Py.setitem.
  destruct (Py.get s "cmid" VNone) as [cmid|]; simpl; [|discriminate].
  destruct (Py.get s "state" (VInt 0)) as [state|]; simpl; [|discriminate].
  destruct (Py.hashable cmid) eqn:Hc; [|discriminate].
  intros H Hout; injection H as <-.
  apply store_well_keyed; auto using status_of_state_label.
Qed.

Lemma record_statuses_well_keyed (ss : list value) (out : Py.dict string) :
  well_keyed out -> well_keyed (record_statuses ss out).
Proof.
  revert out; induction ss as [|s ss IH]; intros out Hout; simpl; [assumption|].
  destruct (record_status s out) as [out'|] eqn:Hs; [|assumption].
  apply IH; eapply record_status_well_keyed; eassumption.
Qed.

Lemma statuses_of_well_keyed (data : value) : well_keyed (statuses_of data []).
Proof.
  unfold statuses_of.
  destruct (_ <- _ ;; _)%res; [|constructor].
  apply record_statuses_well_keyed; constructor.
Qed.

Lemma record_statuses_lookup (ss : list value) (entries : list (value * value))
    (out : Py.dict string) (k : value) :
  map_opt status_entry ss = Some entries ->
  Py.lookup (record_statuses ss out) k
  = match label_for entries k with
    | Some l => Some l
    | None => Py.lookup out k
    end.
Proof.
  revert entries out; induction ss as [|s ss IH]; intros entries out; simpl.
  - intros H; injection H as <-; reflexivity.
  - destruct (status_entry s) as [[cmid state]|] eqn:Hs; [|discriminate].
    destruct (map_opt status_entry ss) as [rest|] eqn:Hrest; [|discriminate].
    intros H; injection H as <-.
    rewrite (record_status_entry s out _ _ Hs), (IH rest _ eq_refl); simpl.
    destruct (label_for rest k); [reflexivity|].
    rewrite DictFacts.lookup_store.
    destruct (Py.key_eqb cmid k); reflexivity.
Qed.

Lemma get_activity_completion_eq (E : env) (url token : string)
    (cid uid : value) (w : world) :
  let call := call_moodle E url token
                "core_completion_get_activities_completion_status"
                (Some [("courseid", cid); ("userid", uid)]) w in
  get_activity_completion E url token cid uid w
  = (Ok match fst call with
        | Ok data => statuses_of data []
        | Raise _ => []
        end, snd call).
Proof.
  cbv zeta; unfold get_activity_completion, try_except, bind, ret.
  destruct (call_moodle _ _ _ _ _ w) as [[data|e] w']; reflexivity.
Qed.

Lemma get_activity_completion_well_keyed (E : env) (url token : string)
    (cid uid : value) (w w' : world) (a_map : Py.dict string) :
  get_activity_completion E url token cid uid w = (Ok a_map, w') ->
  well_keyed a_map.
Proof.
  rewrite get_activity_completion_eq; cbv zeta.
  intros H; injection H as <- _.
  destruct (fst _); [apply statuses_of_well_keyed|constructor].
Qed.

(** C6. When the activities-completion call raises,
    [get_activity_completion] returns the empty mapping; it never raises;
    what it returns maps activity ids to the labels "Completed", "Failed" and
    "Incomplete"; and on a payload whose statuses are JSON objects keyed by an
    id, each activity id gets the label of its (last) entry. *)
Theorem get_activity_completion_spec (E : env) (url token : string)
    (cid uid : value) (w : world) :
  let call := call_moodle E url token
                "core_completion_get_activities_completion_status"
                (Some [("courseid", cid); ("userid", uid)]) w in
  (forall e, fst call = Raise e ->
     get_activity_completion E url token cid uid w = (Ok [], snd call))
  /\ (exists out,
        get_activity_completion E url token cid uid w = (Ok out, snd call)
        /\ Forall (fun kv => Py.hashable (fst kv) = true /\ is_label (snd kv)) out)
  /\ (forall d ss entries,
        fst call = Ok (VDict d) ->
        Py.field_or "statuses" (VList []) d = VList ss ->
        map_opt status_entry ss = Some entries ->
        exists out,
          get_activity_completion E url token cid uid w = (Ok out, snd call)
          /\ forall k, Py.lookup out k = label_for entries k).
Proof.
  cbv zeta; repeat split.
  - intros e He; rewrite get_activity_completion_eq; cbv zeta.
    rewrite He; reflexivity.
  - rewrite get_activity_completion_eq; cbv zeta.
    eexists; split; [reflexivity|].
    destruct (fst _); [apply statuses_of_well_keyed|constructor].
  - intros d ss entries Hd Hss Hentries.
    rewrite get_activity_completion_eq; cbv zeta.
    eexists; split; [reflexivity|].
    intros k; rewrite Hd.
    unfold statuses_of, Py.get, res_bind.
    fold (Py.field_or "statuses" (VList []) d); rewrite Hss; simpl.
    rewrite (record_statuses_lookup ss entries [] k Hentries).
    destruct (label_for entries k); reflexivity.
Qed.

Example get_activity_completion_sample :
  let data := VDict [("statuses",
                      VList [VDict [("cmid", VInt 11); ("state", VInt 1)];
                             VDict [("cmid", VInt 12); ("state", VInt 3)];
                             VDict [("cmid", VInt 13)]])] in
  let E := Env (fun _ _ => Parsed data) (fun _ => Ok "") in
  fst (get_activity_completion E "u" "t" (VInt 5) (VInt 9) [])
  = Ok [(VInt 11, "Completed"); (VInt 12, "Failed"); (VInt 13, "Incomplete")].
Proof. reflexivity. Qed.

(** A payload that stops being readable midway leaves what was recorded. *)
Example get_activity_completion_partial :
  let data := VDict [("statuses",
                      VList [VDict [("cmid", VInt 11); ("state", VInt 1)];
                             VStr "garbled";
                             VDict [("cmid", VInt 12); ("state", VInt 3)]])] in
  let E := Env (fun _ _ => Parsed data) (fun _ => Ok "") in
  fst (get_activity_completion E "u" "t" (VInt 5) (VInt 9) [])
  = Ok [(VInt 11, "Completed")].
Proof. reflexivity. Qed.

Example get_activity_completion_failure :
  let E := Env (fun _ _ => Failed (Exn RequestError "timed out")) (fun _ => Ok "") in
  fst (get_activity_completion E "u" "t" (VInt 5) (VInt 9) []) = Ok [].
Proof. reflexivity. Qed.

(** ** get_all_courses *)

Module CaseFacts.

Lemma lower_char_of_upper (c : ascii) :
  Str.is_upper c = true -> Str.is_lower (Str.lower_char c) = true.
Proof.
  destruct c as [[] [] [] [] [] [] [] []]; vm_compute; congruence.
Qed.

Lemma lower_char_caseless (c : ascii) :
  caseless (Str.lower_char c) = true -> Str.lower_char c = c.
Proof.
  unfold caseless; intros H; apply andb_true_iff in H as [_ H].
  destruct (Str.is_upper c) eqn:Hu.
  - rewrite (lower_char_of_upper c Hu) in H; discriminate.
  - unfold Str.lower_char; rewrite Hu; reflexivity.
Qed.

(** A string without letters is the lower-casing of itself only. *)
Lemma lower_caseless (e s : string) :
  Str.all caseless s = true -> Str.lower e = s -> e = s.
Proof.
  unfold Str.lower.
  revert s; induction e as [|c e IH]; intros [|c' s]; simpl; try congruence.
  intros H Heq; injection Heq as Hc He.
  apply andb_true_iff in H as [Hc' Hs].
  rewrite <- Hc in Hc'; apply lower_char_caseless in Hc'.
  f_equal; [congruence|apply IH; assumption].
Qed.

Lemma lower_of_caseless (s : string) :
  Str.all caseless s = true -> Str.lower s = s.
Proof.
  unfold Str.lower.
  induction s as [|c s IH]; simpl; [reflexivity|].
  intros H; apply andb_true_iff in H as [Hc Hs].
  rewrite (IH Hs); f_equal.
  unfold caseless in Hc; apply andb_true_iff in Hc as [Hu _].
  unfold Str.lower_char; destruct (Str.is_upper c); [discriminate|reflexivity].
Qed.

Lemma uint_caseless (u : Decimal.uint) :
  Str.all caseless (NilEmpty.string_of_uint u) = true.
Proof. induction u; simpl; auto. Qed.

Lemma str_of_Z_caseless (z : Z) : Str.all caseless (Py.str_of_Z z) = true.
Proof.
  unfold Py.str_of_Z, NilZero.string_of_int, NilZero.string_of_uint.
  destruct (Z.to_int z) as [u|u]; destruct u; simpl;
    try reflexivity; apply uint_caseless.
Qed.

(** Lower-casing the filter entries does not change which of them a
    rendered number equals. *)
Lemma str_in_lower_number (z : Z) (specific : list string) :
  str_in (Py.str_of_Z z) (List.map Str.lower specific)
  = existsb (String.eqb (Py.str_of_Z z)) specific.
Proof.
  unfold str_in; induction specific as [|e rest IH]; simpl; [reflexivity|].
  rewrite IH; f_equal.
  destruct (String.eqb_spec (Py.str_of_Z z) e) as [He|He].
  - subst e; rewrite (lower_of_caseless _ (str_of_Z_caseless z)).
    apply String.eqb_refl.
  - destruct (String.eqb_spec (Py.str_of_Z z) (Str.lower e)) as [Hl|Hl];
      [|reflexivity].
    exfalso; apply He; symmetry.
    apply lower_caseless; [apply str_of_Z_caseless|congruence].
Qed.

Lemma str_in_lower_name (name : string) (specific : list string) :
  str_in (Str.lower name) (List.map Str.lower specific)
  = existsb (same_ignoring_case name) specific.
Proof.
  unfold str_in, same_ignoring_case.
  induction specific as [|e rest IH]; simpl; [reflexivity|].
  rewrite IH; reflexivity.
Qed.

End CaseFacts.

Lemma course_selected_listed (specific : list string) (c : value) :
  listed_course c ->
  course_selected (List.map Str.lower specific) c = Ok (matches_filter specific c).
Proof.
  intros (fields & id & fullname & -> & Hid & Hname).
  unfold course_selected, matches_filter, Py.item; rewrite Hid, Hname; simpl.
  rewrite CaseFacts.str_in_lower_number, CaseFacts.str_in_lower_name.
  destruct (existsb (String.eqb (Py.str_of_Z id)) specific); reflexivity.
Qed.

Lemma filter_courses_listed (specific : list string) (cs filtered : list value) :
  Forall listed_course cs ->
  filter_courses (List.map Str.lower specific) cs filtered
  = Ok (filtered ++ List.filter (matches_filter specific) cs)%list.
Proof.
  intros H; revert filtered; induction H as [|c cs Hc Hcs IH]; intros filtered; simpl.
  - rewrite app_nil_r; reflexivity.
  - rewrite (course_selected_listed specific c Hc); simpl.
    rewrite IH.
    destruct (matches_filter specific c); [rewrite <- app_assoc|]; reflexivity.
Qed.



(** ** process_one_course *)

Section Aggregator.

Variable E : env.
Variables url token : string.

(** The steps of [process_one_course] on a course that is a JSON object. *)
Lemma process_one_course_eq (d : list (string * value)) (w : world) :
  let cid := Py.field_or "id" VNone d in
  let cname := Py.field_or "fullname" (VStr "") d in
  let cshort := Py.field_or "shortname" (VStr "") d in
  process_one_course E url token (VDict d) w =
    match get_course_activities E url token cid
            (w ++ [Print (processing_message cname cid)])%list with
    | (Raise e, w1) => (Raise e, w1)
    | (Ok activities, w1) =>
        match columns_of activities with
        | Raise e => (Raise e, w1)
        | Ok activity_columns =>
            let cols := List.map snd activity_columns in
            match get_course_users E url token cid w1 with
            | (Raise e, w2) =>
                (Ok ([], [], [], cols),
                 (w2 ++ [Print (users_failed_message cname e)])%list)
            | (Ok users, w2) =>
                match Py.iter users with
                | Raise e => (Raise e, w2)
                | Ok us =>
                    match for_in_M us
                            (process_user E url token cid cname cshort
                               activity_columns)
                            (Rows [] [] []) w2 with
                    | (Ok acc, w3) =>
                        (Ok (per_course_rows acc, consolidated_rows acc,
                             enrollment_rows acc, cols), w3)
                    | (Raise e, w3) => (Raise e, w3)
                    end
                end
            end
        end
    end.
Proof.
  cbv zeta.
  unfold process_one_course, bind, lift, print, emit, try_except, ret, Py.get, Py.field_or.
  destruct (get_course_activities E url token _ _) as [[activities|e] w1];
    [|reflexivity].
  destruct (columns_of activities) as [activity_columns|e]; [|reflexivity].
  destruct (get_course_users E url token _ w1) as [[users|e] w2]; [|reflexivity].
  destruct (Py.iter users) as [us|e]; [|reflexivity].
  destruct (for_in_M us _ _ w2) as [[acc|e] w3]; reflexivity.
Qed.

(** The steps of [process_user] on a user that is a JSON object. *)
Lemma process_user_eq (cid cname cshort : value)
    (activity_columns : list (value * string)) (f : list (string * value))
    (acc : rows) (w : world) :
  let u := VDict f in
  let uid := Py.field_or "id" VNone f in
  let fullname := Py.field_or "fullname" (VStr "") f in
  let username := Py.field_or "username" (VStr "") f in
  let email := Py.field_or "email" (VStr "") f in
  let roles := role_names u in
  process_user E url token cid cname cshort activity_columns u acc w =
    match last_access_str E u with
    | Raise e => (Raise e, w)
    | Ok last_access =>
        match flatten_custom_fields u with
        | Raise e => (Raise e, w)
        | Ok custom =>
            let base_user :=
              Py.update
                (base_user_of uid fullname username email
                   (Py.field_or "department" (VStr "") f)
                   (Py.field_or "institution" (VStr "") f)
                   (Py.field_or "city" (VStr "") f)
                   (Py.field_or "country" (VStr "") f) last_access roles)
                custom in
            match get_course_completion E url token cid uid w with
            | (Raise e, w1) => (Raise e, w1)
            | (Ok (c_pct, c_status), w1) =>
                match get_activity_completion E url token cid uid w1 with
                | (Raise e, w2) => (Raise e, w2)
                | (Ok a_map, w2) =>
                    match for_in activity_columns (fill_column a_map)
                            (course_row_of cid cname cshort base_user
                               c_status c_pct) with
                    | Raise e => (Raise e, w2)
                    | Ok course_row =>
                        (Ok (Rows
                               (per_course_rows acc ++ [course_row])
                               (consolidated_rows acc ++
                                  [consolidated_row_of uid fullname email cid
                                     cname last_access roles c_pct c_status])
                               (enrollment_rows acc ++
                                  [enrollment_row_of uid fullname username
                                     email cid cname cshort roles
                                     last_access]))%list,
                         w2)
                    end
                end
            end
        end
    end.
Proof.
  cbv zeta.
  unfold process_user, bind, lift, ret, Py.get, Py.field_or.
  destruct (last_access_str E (VDict f)) as [last_access|e]; [|reflexivity].
  destruct (flatten_custom_fields (VDict f)) as [custom|e]; [|reflexivity].
  destruct (get_course_completion E url token cid _ w)
    as [[[c_pct c_status]|e] w1]; [|reflexivity].
  destruct (get_activity_completion E url token cid _ w1)
    as [[a_map|e] w2]; [|reflexivity].
  destruct (for_in activity_columns _ _) as [course_row|e]; reflexivity.
Qed.

Lemma process_user_not_dict (cid cname cshort : value)
    (activity_columns : list (value * string)) (u : value)
    (acc acc' : rows) (w w' : world) :
  process_user E url token cid cname cshort activity_columns u acc w
  = (Ok acc', w') ->
  exists f, u = VDict f.
Proof.
  destruct u as [| | | | |f]; try discriminate.
  intros _; exists f; reflexivity.
Qed.

Lemma lookup_in {V} (d : Py.dict V) (k : value) (v : V) :
  Py.lookup d k = Some v -> exists k', In (k', v) d.
Proof.
  induction d as [|[k0 v0] d IH]; simpl; [discriminate|].
  destruct (Py.key_eqb k0 k).
  - intros H; injection H as ->; exists k0; left; reflexivity.
  - intros H; destruct (IH H) as [k' Hk']; exists k'; right; exact Hk'.
Qed.

Lemma status_or_incomplete_label (a_map : Py.dict string) (cmid : value) :
  well_keyed a_map -> is_label (status_or_incomplete a_map cmid).
Proof.
  intros Hmap; unfold status_or_incomplete.
  destruct (Py.lookup a_map cmid) as [l|] eqn:Hl.
  - destruct (lookup_in a_map cmid l Hl) as [k' Hk'].
    unfold well_keyed in Hmap; rewrite Forall_forall in Hmap.
    exact (proj2 (Hmap _ Hk')).
  - right; right; reflexivity.
Qed.

Lemma fill_column_eq (a_map : Py.dict string) (cmid : value) (colname : string)
    (row row' : Py.dict value) :
  fill_column a_map (cmid, colname) row = Ok row' ->
  row' = Py.store row (VStr colname) (VStr (status_or_incomplete a_map cmid)).
Proof.
  unfold fill_column, Py.dict_get, Py.setitem, status_or_incomplete; simpl.
  destruct (Py.hashable cmid); simpl; [|discriminate].
  intros H; injection H as <-; reflexivity.
Qed.

(** What the loop over the activity columns leaves under each column name. *)
Lemma fill_columns_lookup (a_map : Py.dict string)
    (activity_columns : list (value * string)) (row0 row : Py.dict value)
    (name : string) :
  for_in activity_columns (fill_column a_map) row0 = Ok row ->
  Py.lookup row (VStr name)
  = match column_status a_map activity_columns name with
    | Some status => Some (VStr status)
    | None => Py.lookup row0 (VStr name)
    end.
Proof.
  revert row0; induction activity_columns as [|[cmid colname] rest IH];
    intros row0; cbn [for_in column_status].
  - intros H; injection H as <-; reflexivity.
  - destruct (fill_column a_map (cmid, colname) row0) as [row1|] eqn:H1;
      cbn [res_bind]; [|discriminate].
    intros Hrest; rewrite (IH row1 Hrest).
    destruct (column_status a_map rest name); [reflexivity|].
    rewrite (fill_column_eq a_map cmid colname row0 row1 H1).
    rewrite DictFacts.lookup_store; simpl.
    destruct (String.eqb colname name); reflexivity.
Qed.

Lemma column_status_app (a_map : Py.dict string)
    (l1 l2 : list (value * string)) (name : string) :
  column_status a_map (l1 ++ l2) name
  = match column_status a_map l2 name with
    | Some status => Some status
    | None => column_status a_map l1 name
    end.
Proof.
  induction l1 as [|[cmid colname] l1 IH]; simpl.
  - destruct (column_status a_map l2 name); reflexivity.
  - rewrite IH; destruct (column_status a_map l2 name); reflexivity.
Qed.

Lemma column_status_unnamed (a_map : Py.dict string)
    (l : list (value * string)) (name : string) :
  ~ In name (List.map snd l) -> column_status a_map l name = None.
Proof.
  induction l as [|[cmid colname] l IH]; simpl; [reflexivity|].
  intros H; rewrite IH by tauto.
  destruct (String.eqb_spec colname name); [tauto|reflexivity].
Qed.

Lemma column_status_last (a_map : Py.dict string)
    (before after : list (value * string)) (cmid : value) (name : string) :
  ~ In name (List.map snd after) ->
  column_status a_map (before ++ (cmid, name) :: after) name
  = Some (status_or_incomplete a_map cmid).
Proof.
  intros H; rewrite column_status_app; simpl.
  rewrite (column_status_unnamed a_map after name H), String.eqb_refl.
  reflexivity.
Qed.

Lemma column_status_label (a_map : Py.dict string)
    (l : list (value * string)) (name : string) :
  well_keyed a_map -> In name (List.map snd l) ->
  exists status, column_status a_map l name = Some status /\ is_label status.
Proof.
  intros Hmap; induction l as [|[cmid colname] l IH]; simpl; [contradiction|].
  intros Hin.
  destruct (in_dec string_dec name (List.map snd l)) as [Hrest|Hrest].
  - destruct (IH Hrest) as (status & -> & Hl).
    exists status; split; [reflexivity|exact Hl].
  - rewrite (column_status_unnamed a_map l name Hrest).
    destruct Hin as [->|Hin]; [|contradiction].
    rewrite String.eqb_refl; eexists; split; [reflexivity|].
    apply status_or_incomplete_label; exact Hmap.
Qed.

Lemma render_cell (headers : list string) (row : Py.dict value) (n : nat)
    (name : string) (v : value) :
  nth_error headers n = Some name ->
  Py.lookup row (VStr name) = Some v ->
  nth_error (render headers row) n = Some v.
Proof.
  intros Hn Hv; unfold render.
  rewrite nth_error_map, Hn; simpl; rewrite Hv; reflexivity.
Qed.

Lemma column_position (before after : list (value * string)) (cmid : value)
    (name : string) :
  nth_error (base ++ List.map snd (before ++ (cmid, name) :: after) ++ trailing)%list
            (List.length base + List.length before)
  = Some name.
Proof.
  rewrite nth_error_app2 by lia.
  replace (List.length base + List.length before - List.length base)
    with (List.length before) by lia.
  rewrite map_app; simpl.
  rewrite <- app_assoc; simpl.
  rewrite nth_error_app2 by (rewrite length_map; lia).
  rewrite length_map, Nat.sub_diag; reflexivity.
Qed.

(** What holds of the activity columns of every row: the row holds one of
    the three labels under the column's name (the cell is never missing or
    blank); and if the activity's id is absent from the user's completion
    mapping and no later activity column of the course bears the same name,
    the row holds "Incomplete" there, and so does the cell of that column in
    the sheet. *)
Lemma absent_activity_incomplete (cid cname cshort : value)
    (before after : list (value * string)) (cmid : value) (colname : string)
    (u : value) (acc acc' : rows) (w w' : world) :
  let activity_columns := (before ++ (cmid, colname) :: after)%list in
  let headers := (base ++ List.map snd activity_columns ++ trailing)%list in
  process_user E url token cid cname cshort activity_columns u acc w
  = (Ok acc', w') ->
  exists uid a_map row wa,
    Py.get u "id" VNone = Ok uid
    /\ get_activity_completion E url token cid uid wa = (Ok a_map, w')
    /\ per_course_rows acc' = (per_course_rows acc ++ [row])%list
    /\ (exists label,
          is_label label /\ Py.lookup row (VStr colname) = Some (VStr label))
    /\ (Py.lookup a_map cmid = None ->
        ~ In colname (List.map snd after) ->
        Py.lookup row (VStr colname) = Some (VStr "Incomplete")
        /\ nth_error (render headers row)
                     (List.length base + List.length before)
           = Some (VStr "Incomplete")).
Proof.
  cbv zeta; intros Hrun.
  destruct (process_user_not_dict _ _ _ _ _ _ _ _ _ Hrun) as [f ->].
  rewrite process_user_eq in Hrun; cbv zeta in Hrun.
  destruct (last_access_str E (VDict f)) as [last_access|]; [|discriminate].
  destruct (flatten_custom_fields (VDict f)) as [custom|]; [|discriminate].
  destruct (get_course_completion E url token cid _ w)
    as [[[c_pct c_status]|] w1]; [|discriminate].
  destruct (get_activity_completion E url token cid _ w1)
    as [[a_map|] w2] eqn:Hmap; [|discriminate].
  destruct (for_in _ (fill_column a_map) _) as [row|] eqn:Hrow; [|discriminate].
  injection Hrun as <- <-.
  exists (Py.field_or "id" VNone f), a_map, row, w1.
  split; [reflexivity|].
  split; [exact Hmap|].
  split; [reflexivity|].
  pose proof (get_activity_completion_well_keyed _ _ _ _ _ _ _ _ Hmap) as Hkeyed.
  split.
  - destruct (column_status_label a_map (before ++ (cmid, colname) :: after)
                colname Hkeyed) as (status & Hs & Hl).
    { rewrite map_app; apply in_or_app; right; left; reflexivity. }
    exists status; split; [exact Hl|].
    rewrite (fill_columns_lookup _ _ _ _ colname Hrow), Hs; reflexivity.
  - intros Habsent Hlast.
    assert (Hcell : Py.lookup row (VStr colname) = Some (VStr "Incomplete")).
    { rewrite (fill_columns_lookup _ _ _ _ colname Hrow).
      rewrite (column_status_last a_map before after cmid colname Hlast).
      unfold status_or_incomplete; rewrite Habsent; reflexivity. }
    split; [exact Hcell|].
    eapply render_cell; [apply column_position|exact Hcell].
Qed.

(** *** The aggregator returns on well-formed payloads *)

Lemma for_in_invariant {A S} (P : S -> Prop) (body : A -> S -> res S)
    (xs : list A) (s s' : S) :
  (forall x t t', body x t = Ok t' -> P t -> P t') ->
  for_in xs body s = Ok s' -> P s -> P s'.
Proof.
  intros Hbody; revert s; induction xs as [|x xs IH]; intros s; cbn [for_in].
  - intros H; injection H as <-; auto.
  - destruct (body x s) as [t|] eqn:Hx; cbn [res_bind]; [|discriminate].
    intros Hrest Hs; apply (IH t Hrest); eapply Hbody; eassumption.
Qed.

Lemma add_module_hashable (mod_ : value) (acts acts' : Py.dict meta) :
  add_module mod_ acts = Ok acts' -> keys_hashable acts -> keys_hashable acts'.
Proof.
  unfold add_module, Py.setitem.
  destruct (Py.get mod_ "uservisible" _) as [uv|]; cbn [res_bind]; [|discriminate].
  destruct (Py.truthy uv); [|intros H; injection H as <-; auto].
  destruct (Py.get mod_ "deletioninprogress" _) as [dip|]; cbn [res_bind];
    [|discriminate].
  destruct (negb (Py.truthy dip)); [|intros H; injection H as <-; auto].
  destruct (Py.get mod_ "id" _) as [cmid|]; cbn [res_bind]; [|discriminate].
  destruct (Py.get mod_ "name" _) as [name|]; cbn [res_bind]; [|discriminate].
  destruct (Py.get mod_ "modname" _) as [modname|]; cbn [res_bind]; [|discriminate].
  destruct (Py.hashable cmid) eqn:Hc; [|discriminate].
  intros H Hacts; injection H as <-.
  apply DictFacts.store_keys_hashable; assumption.
Qed.

Lemma add_section_hashable (sec : value) (acts acts' : Py.dict meta) :
  add_section sec acts = Ok acts' -> keys_hashable acts -> keys_hashable acts'.
Proof.
  unfold add_section.
  destruct (Py.get sec "modules" _) as [modules|]; cbn [res_bind]; [|discriminate].
  destruct (Py.iter modules) as [mods|]; cbn [res_bind]; [|discriminate].
  apply for_in_invariant; exact add_module_hashable.
Qed.

Lemma collect_activities_hashable (sections : value) (acts : Py.dict meta) :
  collect_activities sections = Ok acts -> keys_hashable acts.
Proof.
  unfold collect_activities.
  destruct (Py.iter sections) as [secs|]; cbn [res_bind]; [|discriminate].
  intros H; apply (for_in_invariant keys_hashable add_section secs [] acts);
    [exact add_section_hashable|exact H|constructor].
Qed.

Lemma get_course_activities_hashable (cid : value) (w w1 : world)
    (acts : Py.dict meta) :
  get_course_activities E url token cid w = (Ok acts, w1) -> keys_hashable acts.
Proof.
  unfold get_course_activities, bind, lift.
  destruct (call_moodle _ _ _ _ _ w) as [[sections|] w']; [|discriminate].
  destruct (collect_activities sections) eqn:Hc; [|discriminate].
  intros H; injection H as <- _.
  eapply collect_activities_hashable; eassumption.
Qed.

Lemma columns_of_typed (activities : Py.dict meta) (acc : list (value * string)) :
  activities_typed activities -> keys_hashable activities -> keys_hashable acc ->
  exists cols, for_in activities add_column acc = Ok cols /\ keys_hashable cols.
Proof.
  intros Htyped; revert acc.
  induction Htyped as [|[cmid [name modname]] activities [s Hs] Hrest IH];
    intros acc Hkeys Hacc; cbn [for_in].
  - exists acc; split; [reflexivity|exact Hacc].
  - simpl in Hs; subst modname.
    unfold add_column at 1; cbn [meta_modname meta_name py_capitalize res_bind].
    inversion Hkeys as [|? ? Hcmid Hkeys']; subst.
    apply IH; [exact Hkeys'|].
    apply Forall_app; split; [exact Hacc|].
    constructor; [exact Hcmid|constructor].
Qed.

Lemma fill_columns_total (a_map : Py.dict string)
    (cols : list (value * string)) (row0 : Py.dict value) :
  keys_hashable cols ->
  exists row, for_in cols (fill_column a_map) row0 = Ok row.
Proof.
  intros H; revert row0.
  induction H as [|[cmid colname] cols Hc Hcols IH]; intros row0; cbn [for_in].
  - exists row0; reflexivity.
  - unfold fill_column at 1, Py.dict_get, Py.setitem.
    simpl in Hc; rewrite Hc; cbn [res_bind Py.hashable].
    apply IH.
Qed.

Lemma last_access_str_ok (f : list (string * value)) :
  timestamp_ok E f -> exists s, last_access_str E (VDict f) = Ok s.
Proof.
  unfold timestamp_ok, last_access_str, Py.get; cbn [res_bind].
  fold (Py.field_or "lastaccess" VNone f).
  intros [Hfalse|(z & s & Hz & Hs)].
  - rewrite Hfalse; exists ""; reflexivity.
  - destruct (Py.truthy _); [|exists ""; reflexivity].
    unfold fromtimestamp; rewrite Hz, Hs; exists s; reflexivity.
Qed.

Lemma add_custom_fields_ok (gs : list value) (acc : Py.dict value) :
  Forall custom_field_ok gs ->
  exists custom, for_in gs add_custom_field acc = Ok custom.
Proof.
  intros H; revert acc.
  induction H as [|g gs (fields & -> & Hkey) Hgs IH]; intros acc; cbn [for_in].
  - exists acc; reflexivity.
  - unfold add_custom_field at 1, Py.get, Py.setitem; cbn [res_bind].
    fold (Py.field_or "shortname" VNone fields).
    fold (Py.field_or "name" VNone fields).
    unfold Py.or_ in Hkey.
    destruct (Py.truthy (Py.field_or "shortname" VNone fields));
      cbn [res_bind]; rewrite Hkey; apply IH.
Qed.

Lemma flatten_custom_fields_ok (f : list (string * value)) :
  custom_fields_ok f -> exists custom, flatten_custom_fields (VDict f) = Ok custom.
Proof.
  unfold custom_fields_ok, flatten_custom_fields, Py.get; cbn [res_bind].
  fold (Py.field_or "customfields" (VList []) f).
  intros [Hfalse|(gs & -> & Hgs)].
  - unfold Py.or_; rewrite Hfalse; exists []; reflexivity.
  - unfold Py.or_; destruct (Py.truthy (VList gs)); cbn [Py.iter res_bind].
    + apply add_custom_fields_ok; exact Hgs.
    + exists []; reflexivity.
Qed.

Lemma process_user_total (cid cname cshort : value)
    (activity_columns : list (value * string)) (u : value) (acc : rows)
    (w : world) :
  keys_hashable activity_columns ->
  well_formed_user E u ->
  exists acc' w',
    process_user E url token cid cname cshort activity_columns u acc w
    = (Ok acc', w').
Proof.
  intros Hcols (f & -> & Hts & Hcf).
  rewrite process_user_eq; cbv zeta.
  destruct (last_access_str_ok f Hts) as [last_access ->].
  destruct (flatten_custom_fields_ok f Hcf) as [custom ->].
  rewrite get_course_completion_eq; cbv zeta.
  match goal with
  | |- context [match ?r with pair _ _ => _ end] => destruct r as [c_pct c_status]
  end.
  rewrite get_activity_completion_eq; cbv zeta.
  match goal with
  | |- context [for_in activity_columns (fill_column ?m) ?r0] =>
      destruct (fill_columns_total m activity_columns r0 Hcols) as [row ->]
  end.
  eexists _, _; reflexivity.
Qed.

Lemma process_users_total (cid cname cshort : value)
    (activity_columns : list (value * string)) (us : list value) (acc : rows)
    (w : world) :
  keys_hashable activity_columns ->
  Forall (well_formed_user E) us ->
  exists acc' w',
    for_in_M us (process_user E url token cid cname cshort activity_columns)
      acc w = (Ok acc', w').
Proof.
  intros Hcols Hus; revert acc w.
  induction Hus as [|u us Hu Hus IH]; intros acc w.
  - exists acc, w; reflexivity.
  - destruct (process_user_total cid cname cshort activity_columns u acc w
                Hcols Hu) as (acc1 & w1 & H1).
    destruct (IH acc1 w1) as (acc' & w' & H').
    exists acc', w'.
    change (bind (process_user E url token cid cname cshort activity_columns
                    u acc)
              (fun s' => for_in_M us
                           (process_user E url token cid cname cshort
                              activity_columns) s') w = (Ok acc', w')).
    unfold bind; rewrite H1; exact H'.
Qed.

(** C1, as amended.  On payloads of the shape the script reads, the
    aggregator raises only what the activities fetch raises.  A failure of
    the activities fetch is not absorbed: it leaves the aggregator as it is.
    When the activities fetch succeeds the aggregator always returns a
    (possibly empty) result: a failure of the enrolled-users fetch is caught
    inside it, and the two completion queries never raise.  What the
    aggregator raises is caught by the orchestrator's loop, which prints it
    and leaves its collections as they were. *)
Theorem process_one_course_outcome (d : list (string * value)) (w : world) :
  let cid := Py.field_or "id" VNone d in
  let cname := Py.field_or "fullname" (VStr "") d in
  let w0 := (w ++ [Print (processing_message cname cid)])%list in
  (forall activities w1,
     get_course_activities E url token cid w0 = (Ok activities, w1) ->
     activities_typed activities
     /\ forall users w2,
          get_course_users E url token cid w1 = (Ok users, w2) ->
          users_ok E users) ->
  (forall e w1,
     get_course_activities E url token cid w0 = (Raise e, w1) ->
     process_one_course E url token (VDict d) w = (Raise e, w1))
  /\ (forall activities w1,
        get_course_activities E url token cid w0 = (Ok activities, w1) ->
        (exists r w', process_one_course E url token (VDict d) w = (Ok r, w'))
        /\ (forall e w2,
              get_course_users E url token cid w1 = (Raise e, w2) ->
              exists r,
                process_one_course E url token (VDict d) w
                = (Ok r, (w2 ++ [Print (users_failed_message cname e)])%list)))
  /\ (forall uid wq,
        (exists r wq',
           get_course_completion E url token cid uid wq = (Ok r, wq'))
        /\ (exists m wq',
              get_activity_completion E url token cid uid wq = (Ok m, wq')))
  /\ (forall e acc wm,
        collect_one (VDict d, Raise e) acc wm
        = (Ok acc, (wm ++ [Print (error_message cname e)])%list)).
Proof.
  cbv zeta; intros Hshape.
  split; [|split; [|split]]; [| | |reflexivity].
  - intros e w1 Hacts.
    rewrite process_one_course_eq; cbv zeta; rewrite Hacts; reflexivity.
  - intros activities w1 Hacts.
    destruct (Hshape activities w1 Hacts) as [Htyped Husers].
    pose proof (get_course_activities_hashable _ _ _ _ Hacts) as Hkeys.
    destruct (columns_of_typed activities [] Htyped Hkeys (Forall_nil _))
      as (cols & Hcols & Hckeys).
    rewrite process_one_course_eq; cbv zeta.
    rewrite Hacts; unfold columns_of; rewrite Hcols.
    split.
    + destruct (get_course_users E url token _ w1) as [[users|e] w2] eqn:Hu.
      * destruct (Husers users w2 eq_refl) as (us & -> & Hus).
        cbn [Py.iter].
        destruct (process_users_total (Py.field_or "id" VNone d)
                    (Py.field_or "fullname" (VStr "") d)
                    (Py.field_or "shortname" (VStr "") d) cols us (Rows [] [] [])
                    w2 Hckeys Hus) as (acc' & w' & ->).
        eexists _, _; reflexivity.
      * eexists _, _; reflexivity.
    + intros e w2 Hu; rewrite Hu; eexists; reflexivity.
  - intros uid wq; split.
    + rewrite get_course_completion_eq; eexists _, _; reflexivity.
    + rewrite get_activity_completion_eq; eexists _, _; reflexivity.
Qed.

(** C3. When the enrolled-users fetch of a course fails, the aggregator
    returns empty per-course, consolidated and enrollment rows (with the
    course's activity columns), having printed a failure message that names
    the course; it returns normally, and the orchestrator's loop goes on with
    nothing added to the consolidated and enrollment collections. *)
Theorem users_fetch_failure (d : list (string * value)) (w w1 w2 : world)
    (activities : Py.dict meta) (activity_columns : list (value * string))
    (e : exn) :
  let cid := Py.field_or "id" VNone d in
  let cname := Py.field_or "fullname" (VStr "") d in
  let message := users_failed_message cname e in
  get_course_activities E url token cid
    (w ++ [Print (processing_message cname cid)])%list = (Ok activities, w1) ->
  columns_of activities = Ok activity_columns ->
  get_course_users E url token cid w1 = (Raise e, w2) ->
  process_one_course E url token (VDict d) w
  = (Ok ([], [], [], List.map snd activity_columns), (w2 ++ [Print message])%list)
  /\ (exists before after, message = before ++ Py.str cname ++ after)
  /\ (forall acc wm, exists acc' wm',
        collect_one (VDict d, fst (process_one_course E url token (VDict d) w))
          acc wm = (Ok acc', wm')
        /\ consolidated_all acc' = consolidated_all acc
        /\ enrollment_all acc' = enrollment_all acc).
Proof.
  cbv zeta; intros Hacts Hcols Husers.
  assert (Hrun : process_one_course E url token (VDict d) w
                 = (Ok ([], [], [], List.map snd activity_columns),
                    (w2 ++ [Print (users_failed_message
                                     (Py.field_or "fullname" (VStr "") d) e)])%list)).
  { rewrite process_one_course_eq; cbv zeta.
    rewrite Hacts, Hcols, Husers; reflexivity. }
  split; [exact Hrun|].
  split.
  - unfold users_failed_message.
    exists ("  " ++ cross_mark ++ " Failed to get users for course "),
           (": " ++ exn_str e).
    reflexivity.
  - intros acc wm; rewrite Hrun.
    unfold collect_one, bind, lift, print, emit, ret, Py.get; simpl.
    eexists _, _; split; [reflexivity|].
    simpl; rewrite !app_nil_r; split; reflexivity.
Qed.

End Aggregator.

(** A server that refuses to list the enrolled users. *)
Lemma users_fetch_failure_witness :
  fst (process_one_course Sample.campus_without_users "https://moodle.example"
         "secret" Sample.biology [])
  = Ok ([], [], [], List.map snd Sample.columns).
Proof.
  edestruct (users_fetch_failure Sample.campus_without_users
               "https://moodle.example" "secret"
               [("id", VInt 102); ("fullname", VStr "Biology");
                ("shortname", VStr "BIO"); ("categoryid", VInt 3)] [])
    as [Hrun _]; [reflexivity | reflexivity | reflexivity |].
  unfold Sample.biology; rewrite Hrun; reflexivity.
Defined.

(** ** The workbook *)

Module SortFacts.

Lemma insert_by_key_perm {A} (x : string * A) (l : list (string * A)) :
  Permutation (insert_by_key x l) (x :: l).
Proof.
  induction l as [|y l IH]; simpl; [apply Permutation_refl|].
  destruct (String.leb (fst x) (fst y)); [apply Permutation_refl|].
  eapply perm_trans; [apply perm_skip, IH|apply perm_swap].
Qed.

Lemma sort_by_key_perm {A} (l : list (string * A)) :
  Permutation (sort_by_key l) l.
Proof.
  induction l as [|x l IH]; simpl; [constructor|].
  eapply perm_trans; [apply insert_by_key_perm|apply perm_skip, IH].
Qed.

End SortFacts.

Lemma map_res_total {A B} (f : A -> res B) (g : A -> B) (xs : list A) :
  Forall (fun x => f x = Ok (g x)) xs -> map_res f xs = Ok (List.map g xs).
Proof.
  induction 1 as [|x xs Hx Hxs IH]; simpl; [reflexivity|].
  rewrite Hx, IH; reflexivity.
Qed.

Lemma sorted_results_perm (results : list course_entry) :
  Forall filed results ->
  exists ordered, sorted_results results = Ok ordered /\ Permutation ordered results.
Proof.
  intros H; unfold sorted_results.
  set (key := fun x : course_entry =>
                match fst (fst x) with VStr s => Str.lower s | _ => "" end).
  rewrite (map_res_total _ (fun x => (key x, x))).
  - simpl; eexists; split; [reflexivity|].
    eapply perm_trans.
    + apply Permutation_map, SortFacts.sort_by_key_perm.
    + rewrite map_map; simpl; rewrite map_id; apply Permutation_refl.
  - eapply Forall_impl; [|exact H].
    intros x [s Hs]; unfold key; rewrite Hs; reflexivity.
Qed.

Lemma collect_one_eq (d : list (string * value)) (result : res task_result)
    (acc : collected) (w : world) :
  collect_one (VDict d, result) acc w
  = (Ok (Collected
           (consolidated_all acc ++ consolidated_of (VDict d, result))
           (enrollment_all acc ++ enrollments_of (VDict d, result))
           (per_course_results acc ++ entry_of (VDict d, result)))%list,
     (w ++ collect_line (VDict d, result))%list).
Proof.
  destruct acc as [ca ea pr].
  destruct result as [[[[pc cons] enr] cols]|e]; [reflexivity|].
  unfold collect_one, bind, lift, print, emit, ret, Py.get, consolidated_of,
    enrollments_of, entry_of, collect_line; cbn.
  rewrite !app_nil_r; reflexivity.
Qed.

Lemma collect_from (completed : list (value * res task_result))
    (acc : collected) (w : world) :
  Forall (fun done => is_object (fst done)) completed ->
  for_in_M completed collect_one acc w
  = (Ok (Collected
           (consolidated_all acc ++ flat_map consolidated_of completed)
           (enrollment_all acc ++ flat_map enrollments_of completed)
           (per_course_results acc ++ flat_map entry_of completed))%list,
     (w ++ flat_map collect_line completed)%list).
Proof.
  intros H; revert acc w.
  induction H as [|[course result] completed [d Hd] _ IH]; intros acc w.
  - destruct acc; cbn [for_in_M flat_map]; rewrite !app_nil_r; reflexivity.
  - cbn [fst] in Hd; subst course.
    cbn [for_in_M flat_map]; unfold bind at 1.
    rewrite collect_one_eq, IH.
    cbn [consolidated_all enrollment_all per_course_results].
    rewrite <- !app_assoc; reflexivity.
Qed.

Lemma append_rows_writes (X : openpyxl) (rows : list (list value)) :
  writes X rows -> append_rows X rows = Ok rows.
Proof.
  intros H; unfold append_rows.
  rewrite (map_res_total _ (fun row => row) rows H), map_id; reflexivity.
Qed.

Lemma course_sheets_made (X : openpyxl) (ordered : list course_entry)
    (before : list sheet) :
  Forall (fun entry => filed entry
                       /\ names_sheet X (asked_title entry)
                       /\ writes X (sheet_rows entry)) ordered ->
  exists new,
    for_in ordered (course_sheet X) before = Ok (before ++ new)%list
    /\ sheets_made X before ordered new.
Proof.
  intros H; revert before.
  induction H as [|[[cshort rows] act_cols] ordered (Hfiled & Hname & Hrows) _ IH];
    intros before.
  - exists []; rewrite app_nil_r; split; [reflexivity|constructor].
  - destruct Hfiled as [s Hs]; cbn [fst] in Hs; subst cshort.
    destruct (Hname (List.map title before)) as [ws_title Htitle].
    pose proof (append_rows_writes X _ Hrows) as Hwritten.
    unfold sheet_rows in Hwritten; cbn [fst snd] in Hwritten.
    cbn [for_in]; unfold course_sheet at 1; cbn [py_sheet_title res_bind].
    unfold asked_title in Htitle; cbn [fst] in Htitle.
    rewrite Htitle; cbn [res_bind]; rewrite Hwritten; cbn [res_bind].
    destruct (IH (before
                  ++ [Sheet ws_title (sheet_rows (VStr s, rows, act_cols))])%list)
      as (new & Hnew & Hmade).
    exists (Sheet ws_title (sheet_rows (VStr s, rows, act_cols)) :: new).
    unfold sheet_rows at 1 in Hnew; cbn [fst snd] in Hnew.
    rewrite Hnew, <- app_assoc; split; [reflexivity|].
    constructor; [|exact Hmade].
    split; [exact Htitle|reflexivity].
Qed.


Lemma plain_course_entry (done : value * res task_result) (entry : course_entry) :
  plain_course (fst done) -> In entry (entry_of done) -> ascii_named entry.
Proof.
  destruct done as [course result]; cbn [fst].
  intros (d & s & -> & Hs & Hascii).
  destruct result as [[[[pc cons] enr] cols]|e]; cbn [entry_of]; [|contradiction].
  intros [<-|[]]; exists s; split; [exact Hs|exact Hascii].
Qed.

(** The sheets of a run of which openpyxl refuses nothing. *)
Lemma report_made (X : openpyxl) (completed : list (value * res task_result))
    (w : world) :
  Forall (fun done => plain_course (fst done)) completed ->
  takes X completed ->
  exists main_title ordered course_sheets en_title,
    report X completed w
    = (Ok (Sheet main_title
             (header_row main_headers :: flat_map consolidated_of completed)
           :: course_sheets
           ++ [Sheet en_title
                 (header_row en_headers
                  :: List.map (render en_headers)
                       (flat_map enrollments_of completed))])%list,
       (w ++ flat_map collect_line completed)%list)
    /\ set_title X consolidated_title = Ok main_title
    /\ sorted_results (flat_map entry_of completed) = Ok ordered
    /\ Permutation ordered (flat_map entry_of completed)
    /\ sheets_made X
         [Sheet main_title
            (header_row main_headers :: flat_map consolidated_of completed)]
         ordered course_sheets
    /\ create_sheet X
         (List.map title
            (Sheet main_title
               (header_row main_headers :: flat_map consolidated_of completed)
             :: course_sheets))
         "Enrollments" = Ok en_title.
Proof.
  intros Hplain ([main_title Hmain] & Hcons & Hentries & Hen & Henr).
  assert (Hobjects : Forall (fun done => is_object (fst done)) completed).
  { eapply Forall_impl; [|exact Hplain].
    intros done (d & s & Hd & _); exists d; exact Hd. }
  assert (Hnamed : Forall ascii_named (flat_map entry_of completed)).
  { apply Forall_forall; intros entry Hin.
    apply in_flat_map in Hin as (done & Hdone & Hentry).
    rewrite Forall_forall in Hplain.
    exact (plain_course_entry done entry (Hplain done Hdone) Hentry). }
  assert (Hfiled : Forall filed (flat_map entry_of completed)).
  { eapply Forall_impl; [|exact Hnamed].
    intros entry (s & Hs & _); exists s; exact Hs. }
  destruct (sorted_results_perm _ Hfiled) as (ordered & Hsorted & Hperm).
  assert (Hordered : Forall (fun entry => filed entry
                                          /\ names_sheet X (asked_title entry)
                                          /\ writes X (sheet_rows entry))
                       ordered).
  { apply (Permutation_Forall (Permutation_sym Hperm)).
    rewrite Forall_forall in *; intros entry Hin.
    destruct (Hentries entry Hin) as [Hn Hw].
    split; [exact (Hfiled entry Hin)|split; assumption]. }
  destruct (course_sheets_made X ordered
              [Sheet main_title
                 (header_row main_headers :: flat_map consolidated_of completed)]
              Hordered) as (course_sheets & Hsheets & Hmade).
  destruct (Hen (List.map title
                   (Sheet main_title
                      (header_row main_headers
                       :: flat_map consolidated_of completed)
                    :: course_sheets))) as [en_title Hentitle].
  exists main_title, ordered, course_sheets, en_title.
  split; [|repeat split; assumption].
  unfold report, bind, lift, collect.
  rewrite (collect_from completed (Collected [] [] []) w Hobjects).
  cbn [consolidated_all enrollment_all per_course_results app].
  unfold workbook;
    cbn [consolidated_all enrollment_all per_course_results].
  rewrite Hmain; cbn [res_bind].
  rewrite (append_rows_writes X _ Hcons); cbn [res_bind].
  rewrite Hsorted; cbn [res_bind].
  rewrite Hsheets; cbn [res_bind app].
  rewrite Hentitle; cbn [res_bind].
  rewrite (append_rows_writes X _ Henr); cbn [res_bind].
  reflexivity.
Qed.


Lemma sample_takes :
  takes Sample.spreadsheet
    [(Sample.biology,
      fst (process_one_course Sample.campus_without_users
             "https://moodle.example" "secret" Sample.biology []))].
Proof.
  assert (Hrun : fst (process_one_course Sample.campus_without_users
                        "https://moodle.example" "secret" Sample.biology [])
                 = Ok ([], [], [], List.map snd Sample.columns))
    by reflexivity.
  rewrite Hrun; unfold takes; cbn [flat_map app].
  split; [eexists; reflexivity|].
  split; [repeat constructor|].
  split; [|split; [intros names; eexists; reflexivity|repeat constructor]].
  constructor; [|constructor].
  split; [intros names; eexists; reflexivity|repeat constructor].
Qed.



(** C4.  An activity absent from the user's completion mapping is to read
    "Incomplete" in its column.  The code misses the case of two activities
    that share a column name: Ada has no entry for the first forum (id 11),
    and the row, keyed by column name, is overwritten with the status of the
    second forum (id 12), so the sheet shows "Completed" in the first forum's
    column. *)
Theorem absent_activity_shows_completed :
  exists row consolidated enrollment,
    fst (process_one_course Sample.campus "https://moodle.example" "secret"
           Sample.biology [])
    = Ok ([row], consolidated, enrollment, List.map snd Sample.columns)
    /\ nth_error Sample.columns 0 = Some (VInt 11, "Forum: Discussion")
    /\ fst (get_activity_completion Sample.campus "https://moodle.example"
              "secret" (VInt 102) (VInt 7) [])
       = Ok [(VInt 12, "Completed")]
    /\ Py.lookup [(VInt 12, "Completed")] (VInt 11) = None
    /\ Py.lookup row (VStr "Forum: Discussion") = Some (VStr "Completed")
    /\ nth_error
         (render (base ++ List.map snd Sample.columns ++ trailing)%list row)
         (List.length base + 0)
       = Some (VStr "Completed").
Proof.
  eexists _, _, _; split; [vm_compute; reflexivity|].
  repeat split.
Qed.

(** The final exam (id 14) has no entry for Ada and no namesake after it. *)
Example absent_activity_incomplete_sample :
  exists row acc' w',
    process_user Sample.campus "https://moodle.example" "secret"
      (VInt 102) (VStr "Biology") (VStr "BIO") Sample.columns Sample.ada
      (Rows [] [] []) [] = (Ok acc', w')
    /\ per_course_rows acc' = [row]
    /\ Py.lookup row (VStr "Quiz: Final exam") = Some (VStr "Incomplete")
    /\ nth_error
         (render (base ++ List.map snd Sample.columns ++ trailing)%list row) 15
       = Some (VStr "Incomplete").
Proof.
  destruct (process_user Sample.campus "https://moodle.example" "secret"
              (VInt 102) (VStr "Biology") (VStr "BIO") Sample.columns
              Sample.ada (Rows [] [] []) []) as [[acc'|e] w'] eqn:Hrun;
    [|vm_compute in Hrun; discriminate].
  destruct (absent_activity_incomplete Sample.campus "https://moodle.example"
              "secret" (VInt 102) (VStr "Biology") (VStr "BIO")
              [(VInt 11, "Forum: Discussion"); (VInt 12, "Forum: Discussion")]
              [] (VInt 14) "Quiz: Final exam" Sample.ada (Rows [] [] []) acc'
              [] w' Hrun)
    as (uid & a_map & row & wa & Huid & Hmap & Hrows & _ & Hinc).
  injection Huid as <-.
  rewrite get_activity_completion_eq in Hmap; cbv zeta in Hmap.
  rewrite call_moodle_eq in Hmap; cbv zeta in Hmap.
  injection Hmap as <- _.
  exists row, acc', w'.
  split; [reflexivity|].
  split; [exact Hrows|].
  apply Hinc; [reflexivity|intros []].
Qed.

(** C1, as stated, fails: when the server is down the activities fetch
    raises after its three attempts, before the enrolled-users fetch is
    tried, and the failure leaves the aggregator. *)
Lemma activities_failure_escapes :
  let run := process_one_course Sample.dead_server "https://moodle.example"
               "secret" Sample.biology [] in
  let contents := mk_request "https://moodle.example" "secret"
                    "core_course_get_contents" [("courseid", VInt 102)] in
  fst run = Raise Sample.unreachable
  /\ snd run = [Print "Processing course: Biology (ID=102)";
                Post contents; Sleep (backoff 1);
                Post contents; Sleep (backoff 2);
                Post contents].
Proof. split; reflexivity. Qed.

(** A server that answers every call with well-formed payloads. *)
Lemma process_one_course_outcome_witness :
  exists r w',
    process_one_course Sample.campus "https://moodle.example" "secret"
      Sample.biology [] = (Ok r, w').
Proof.
  destruct (process_one_course_outcome Sample.campus "https://moodle.example"
              "secret"
              [("id", VInt 102); ("fullname", VStr "Biology");
               ("shortname", VStr "BIO"); ("categoryid", VInt 3)] [])
    as (_ & Hreturns & _).
  - intros activities w1 Hacts.
    vm_compute in Hacts; injection Hacts as <- <-.
    split.
    + repeat constructor; eexists; reflexivity.
    + intros users w2 Husers.
      vm_compute in Husers; injection Husers as <- _.
      eexists; split; [reflexivity|].
      constructor; [|constructor].
      eexists; split; [reflexivity|].
      split.
      * right; exists 1704067200%Z, "2024-01-01 00:00:00"; split; reflexivity.
      * right; eexists; split; [reflexivity|].
        constructor; [|constructor].
        eexists; split; reflexivity.
  - edestruct Hreturns as [Hrun _]; [reflexivity|exact Hrun].
Defined.

(** The sheets of a report over two courses, one of them without users:
    the course sheets come in the order of their short names. *)
Example report_sheets :
  let run E c := fst (process_one_course E "https://moodle.example" "secret" c []) in
  let completed := [(Sample.biology, run Sample.campus Sample.biology);
                    (Sample.algebra, run Sample.campus_without_users Sample.algebra)] in
  match fst (report Sample.spreadsheet completed []) with
  | Ok sheets =>
      List.map (fun s => (title s, List.length (cells s))) sheets
      = [(consolidated_title, 2); ("ALG1", 1); ("BIO", 2); ("Enrollments", 2)]
  | Raise _ => False
  end.
Proof. vm_compute; reflexivity. Qed.

(** Two courses of the same short name: the second sheet gets another
    title. *)
Example report_renames_sheet :
  let run c := fst (process_one_course Sample.campus_without_users
                      "https://moodle.example" "secret" c []) in
  let twin := VDict [("id", VInt 202); ("fullname", VStr "Biology II");
                     ("shortname", VStr "bio")] in
  match fst (report Sample.spreadsheet
               [(Sample.biology, run Sample.biology); (twin, run twin)] []) with
  | Ok sheets =>
      List.map title sheets = [consolidated_title; "BIO"; "bio1"; "Enrollments"]
  | Raise _ => False
  end.
Proof. vm_compute; reflexivity. Qed.

(** * Further properties of the script *)

(** ** sanitize_sheet_name, once more *)

Lemma re_sub_drop_clean (cls : ascii -> bool) (s : string) :
  Str.all (fun c => negb (cls c)) s = true -> Str.re_sub_drop cls s = s.
Proof.
  induction s as [|c r IH]; simpl; [reflexivity|].
  intros H; apply andb_true_iff in H as [Hc Hr].
  apply negb_true_iff in Hc; rewrite Hc, (IH Hr); reflexivity.
Qed.

Lemma take_all (n : nat) (s : string) :
  String.length s <= n -> Str.take n s = s.
Proof.
  revert s; induction n as [|n IH]; intros [|c r]; simpl; try reflexivity;
    try lia.
  intros H; rewrite IH by lia; reflexivity.
Qed.

Lemma clean_is_alnum (s : string) :
  Str.all (fun c => negb (non_alnum c)) s = Str.all Str.is_alnum s.
Proof.
  apply StrFacts.all_ext; intros c; unfold non_alnum; apply negb_involutive.
Qed.

(** X1. Sanitizing a sheet name twice gives what sanitizing it once gives,
    and a name of at most 31 letters and digits is returned as it is. *)
Theorem sanitize_sheet_name_idempotent (name : string) :
  sanitize_sheet_name (sanitize_sheet_name name) = sanitize_sheet_name name
  /\ (Str.all Str.is_alnum name = true -> String.length name <= 31 ->
      sanitize_sheet_name name = name).
Proof.
  assert (Hfix : forall s, Str.all Str.is_alnum s = true ->
                           String.length s <= 31 -> sanitize_sheet_name s = s).
  { intros s Hs Hlen; unfold sanitize_sheet_name.
    rewrite re_sub_drop_clean by (rewrite clean_is_alnum; exact Hs).
    apply take_all; exact Hlen. }
  split; [|exact (Hfix name)].
  apply Hfix; unfold sanitize_sheet_name.
  - apply StrFacts.all_take; rewrite <- clean_is_alnum.
    apply StrFacts.all_re_sub_drop.
  - apply StrFacts.length_take.
Qed.

(** ** autosize_columns *)

Lemma longest_ge (vals : list value) (m : nat) : m <= longest vals m.
Proof.
  revert m; induction vals as [|v vals IH]; intros m; simpl; [lia|].
  destruct v; try apply IH;
    (eapply Nat.le_trans; [apply Nat.le_max_l|apply IH]).
Qed.

Lemma longest_covers (vals : list value) (m : nat) (v : value) :
  In v vals -> v <> VNone -> Chars.len (Py.str v) <= longest vals m.
Proof.
  revert m; induction vals as [|a vals IH]; intros m; simpl; [contradiction|].
  intros [->|Hin] Hv.
  - destruct v; try contradiction;
      (eapply Nat.le_trans; [apply Nat.le_max_r|apply longest_ge]).
  - destruct a; apply IH; assumption.
Qed.

Lemma longest_empty (rows : list (list value)) (col_idx m : nat) :
  (forall row, In row rows -> nth (col_idx - 1) row VNone = VNone) ->
  longest (column_values rows col_idx) m = m.
Proof.
  unfold column_values.
  induction rows as [|row rows IH]; intros Hempty; simpl; [reflexivity|].
  rewrite (Hempty row (or_introl eq_refl)).
  apply IH; intros r Hr; apply Hempty; right; exact Hr.
Qed.

Lemma max_column_ge (rows : list (list value)) (row : list value) :
  In row rows -> List.length row <= max_column rows.
Proof.
  induction rows as [|r rows IH]; simpl; [contradiction|].
  intros [->|Hin]; [apply Nat.le_max_l|].
  eapply Nat.le_trans; [apply IH; exact Hin|apply Nat.le_max_r].
Qed.

(** X2. [autosize_columns] gives every column of a sheet a width between 12
    and 60; the width leaves two units beyond the longest rendered value of
    the column unless it is capped at 60, and empty cells do not count. *)
Theorem autosize_columns_bounds (rows : list (list value)) :
  let widths := autosize_columns rows in
  List.length widths = max_column rows
  /\ Forall (fun width => 12 <= width <= 60) widths
  /\ (forall row j v,
        In row rows -> nth_error row j = Some v -> v <> VNone ->
        exists width,
          nth_error widths j = Some width
          /\ (width = 60 \/ Chars.len (Py.str v) + 2 <= width))
  /\ (forall j width,
        nth_error widths j = Some width ->
        (forall row, In row rows -> nth j row VNone = VNone) ->
        width = 12).
Proof.
  cbv zeta; unfold autosize_columns.
  split; [rewrite length_map, length_seq; reflexivity|].
  split.
  { apply Forall_forall; intros width Hin.
    apply in_map_iff in Hin as (j & <- & _).
    unfold column_width; lia. }
  split.
  - intros row j v Hrow Hj Hv.
    assert (Hlt : j < max_column rows).
    { eapply Nat.lt_le_trans; [|apply max_column_ge; exact Hrow].
      apply nth_error_Some; congruence. }
    exists (column_width rows (S j)); split.
    + rewrite nth_error_map, nth_error_seq.
      apply Nat.ltb_lt in Hlt; rewrite Hlt; reflexivity.
    + assert (Hcov : Chars.len (Py.str v)
                     <= longest (column_values rows (S j)) 0).
      { apply longest_covers; [|exact Hv].
        unfold column_values; apply in_map_iff; exists row; split; [|exact Hrow].
        simpl; rewrite Nat.sub_0_r.
        apply nth_error_nth; exact Hj. }
      unfold column_width; lia.
  - intros j width Hj Hempty.
    rewrite nth_error_map in Hj.
    destruct (nth_error (seq 1 (max_column rows)) j) as [i|] eqn:Hi;
      [|discriminate].
    injection Hj as <-.
    assert (i = S j).
    { rewrite nth_error_seq in Hi.
      destruct (j <? max_column rows)%nat; [|discriminate].
      injection Hi as <-; reflexivity. }
    subst i; unfold column_width.
    rewrite (longest_empty rows (S j) 0); [reflexivity|].
    intros row Hrow; simpl; rewrite Nat.sub_0_r; apply Hempty; exact Hrow.
Qed.

Example autosize_columns_sample :
  autosize_columns
    [[VStr "User ID"; VStr "Full Name"; VStr "Email"];
     [VInt 7; VStr "Ada Lovelace"; VNone];
     [VInt 1234567890123; VStr (String "195" (String "137" "mile")); VStr
        "a-very-long-address-that-goes-on-and-on-and-on@mail.example.org"]]
  = [15; 14; 60].
Proof. reflexivity. Qed.

(** ** get_all_courses, once more *)

(** X3. Without a filter, and with an empty filter list alike,
    [get_all_courses] returns the "courses" of the payload as they are (the
    empty list when the payload has none); a failure of the call is raised
    to the caller, and so is the AttributeError of a payload that is not a
    JSON object. *)
Theorem get_all_courses_unfiltered (E : env) (url token : string) (w : world) :
  let call := call_moodle E url token "core_course_get_courses_by_field" None w in
  get_all_courses E url token (Some []) w = get_all_courses E url token None w
  /\ (forall d,
        fst call = Ok (VDict d) ->
        get_all_courses E url token None w
        = (Ok (Py.field_or "courses" (VList []) d), snd call))
  /\ (forall e,
        fst call = Raise e ->
        get_all_courses E url token None w = (Raise e, snd call))
  /\ (forall data,
        fst call = Ok data -> Py.is_dict data = false ->
        get_all_courses E url token None w
        = (Raise (Py.no_attribute data "get"), snd call)).
Proof.
  cbv zeta; split; [reflexivity|].
  unfold get_all_courses, bind, lift, ret.
  destruct (call_moodle _ _ _ _ _ w) as [[data|e] w']; simpl.
  - repeat split.
    + intros d H; injection H as ->; reflexivity.
    + discriminate.
    + intros data' H Hd; injection H as <-.
      destruct data; try reflexivity; discriminate.
  - repeat split; try discriminate.
    intros e' H; injection H as <-; reflexivity.
Qed.

Lemma filter_courses_sublist (specific_lower : list string)
    (cs filtered out : list value) :
  filter_courses specific_lower cs filtered = Ok out ->
  exists kept,
    out = (filtered ++ kept)%list
    /\ sublist kept cs
    /\ (forall c, In c cs ->
          exists keep, course_selected specific_lower c = Ok keep
                       /\ (keep = true -> In c kept))
    /\ Forall (fun c => course_selected specific_lower c = Ok true) kept.
Proof.
  revert filtered; induction cs as [|c cs IH]; intros filtered; cbn [filter_courses].
  - intros H; injection H as <-; exists []; rewrite app_nil_r.
    repeat split; [constructor|contradiction|constructor].
  - destruct (course_selected specific_lower c) as [keep|] eqn:Hc;
      cbn [res_bind]; [|discriminate].
    intros H; destruct (IH _ H) as (kept & -> & Hsub & Hall & Hkept).
    destruct keep.
    + exists (c :: kept); rewrite <- app_assoc; repeat split.
      * constructor; exact Hsub.
      * intros c' [<-|Hin].
        -- exists true; split; [exact Hc|intros _; left; reflexivity].
        -- destruct (Hall c' Hin) as (k & Hk & Hk').
           exists k; split; [exact Hk|intros Ht; right; exact (Hk' Ht)].
      * constructor; assumption.
    + exists kept; repeat split.
      * constructor; exact Hsub.
      * intros c' [<-|Hin].
        -- exists false; split; [exact Hc|discriminate].
        -- exact (Hall c' Hin).
      * exact Hkept.
Qed.

(** X4. Whatever the payload, when a listing filtered by entries of ASCII
    characters returns, what it returns is a selection of the payload's
    courses in their order: nothing is added or moved, and a course whose
    id and full name hold strings of ASCII characters only is kept if and
    only if it passes the test of the filter. *)
Theorem get_all_courses_selection (E : env) (url token : string)
    (specific : list string) (w w' : world) (result : value) :
  specific <> [] ->
  Forall ascii_text specific ->
  get_all_courses E url token (Some specific) w = (Ok result, w') ->
  exists d cs kept,
    fst (call_moodle E url token "core_course_get_courses_by_field" None w)
    = Ok (VDict d)
    /\ Py.iter (Py.field_or "courses" (VList []) d) = Ok cs
    /\ result = VList kept
    /\ sublist kept cs
    /\ (forall c, In c cs -> ascii_course c ->
          (In c kept
           <-> course_selected (List.map Str.lower specific) c = Ok true)).
Proof.
  intros Hne Hascii; destruct specific as [|e rest]; [contradiction|].
  clear Hascii.
  unfold get_all_courses, bind, lift, ret.
  destruct (call_moodle _ _ _ _ _ w) as [[data|] w1]; [|discriminate].
  destruct data as [| | | | |d]; try discriminate.
  cbn [Py.get].
  destruct (Py.iter (Py.field_or "courses" (VList []) d)) as [cs|] eqn:Hcs;
    [|discriminate].
  destruct (filter_courses _ cs []) as [out|] eqn:Hout; [|discriminate].
  intros H; injection H as <- <-.
  destruct (filter_courses_sublist _ _ _ _ Hout)
    as (kept & -> & Hsub & Hall & Hkept).
  exists d, cs, kept.
  split; [reflexivity|]. split; [exact Hcs|]. split; [reflexivity|].
  split; [exact Hsub|].
  intros c Hc _; split.
  - intros Hin; rewrite Forall_forall in Hkept; exact (Hkept c Hin).
  - intros Hsel; destruct (Hall c Hc) as (keep & Hk & Hin).
    apply Hin; congruence.
Qed.

(** The catalogue filtered by one id. *)
Lemma get_all_courses_selection_witness :
  exists kept,
    fst (get_all_courses Sample.catalogue_server "https://moodle.example"
           "secret" (Some ["103"]) []) = Ok (VList kept)
    /\ sublist kept [Sample.algebra; Sample.biology; Sample.chemistry].
Proof.
  destruct (get_all_courses Sample.catalogue_server "https://moodle.example"
              "secret" (Some ["103"]) []) as [result w'] eqn:Hrun.
  assert (Hok : exists r, result = Ok r)
    by (vm_compute in Hrun; injection Hrun as <- _; eexists; reflexivity).
  destruct Hok as [r ->].
  destruct (get_all_courses_selection Sample.catalogue_server
              "https://moodle.example" "secret" ["103"] [] w' r)
    as (d & cs & kept & Hd & Hcs & -> & Hsub & _);
    [discriminate|repeat constructor|exact Hrun|].
  exists kept; split; [reflexivity|].
  vm_compute in Hd; injection Hd as <-.
  vm_compute in Hcs; injection Hcs as <-.
  exact Hsub.
Defined.

(** ** main: which courses are processed *)

Lemma to_int_normal (z : Z) : Decimal.norm (Z.to_int z) = Z.to_int z.
Proof.
  rewrite <- DecimalZ.to_of, DecimalZ.of_to; reflexivity.
Qed.

(** Two integers written alike are equal. *)
Lemma str_of_Z_inj (x y : Z) : Py.str_of_Z x = Py.str_of_Z y -> x = y.
Proof.
  unfold Py.str_of_Z; intros H.
  apply DecimalZ.to_int_inj.
  assert (Hnil : forall z, Z.to_int z <> Decimal.Pos Decimal.Nil
                           /\ Z.to_int z <> Decimal.Neg Decimal.Nil).
  { intros z; split; intros Hz; pose proof (to_int_normal z) as Hn;
      rewrite Hz in Hn; discriminate. }
  destruct (Hnil x) as [Hx1 Hx2], (Hnil y) as [Hy1 Hy2].
  pose proof (NilZero.isi _ Hx1 Hx2) as Hx.
  pose proof (NilZero.isi _ Hy1 Hy2) as Hy.
  rewrite H in Hx; congruence.
Qed.

Lemma matches_one_id (id : Z) (c : value) :
  listed_course c -> matches_filter [Py.str_of_Z id] c = has_id_or_name id c.
Proof.
  intros (fields & i & fullname & -> & Hid & Hname).
  unfold matches_filter, has_id_or_name, course_id, course_fullname, Py.field_or.
  rewrite Hid, Hname; cbn [existsb Py.str Py.repr].
  rewrite !orb_false_r; f_equal.
  - destruct (Z.eqb_spec i id) as [->|Hne]; [apply String.eqb_refl|].
    apply String.eqb_neq; intros H; apply Hne, str_of_Z_inj; exact H.
  - unfold same_ignoring_case.
    rewrite (CaseFacts.lower_of_caseless _ (CaseFacts.str_of_Z_caseless id)).
    destruct (String.eqb_spec fullname (Py.str_of_Z id)) as [->|Hne].
    + rewrite (CaseFacts.lower_of_caseless _ (CaseFacts.str_of_Z_caseless id)).
      apply String.eqb_refl.
    + apply String.eqb_neq; intros H; apply Hne.
      apply CaseFacts.lower_caseless;
        [apply CaseFacts.str_of_Z_caseless|exact H].
Qed.

Lemma get_all_courses_listed (E : env) (url token : string)
    (specific : list string) (w : world)
    (d : list (string * value)) (cs : list value) :
  specific <> [] ->
  fst (call_moodle E url token "core_course_get_courses_by_field" None w)
  = Ok (VDict d) ->
  Py.field_or "courses" (VList []) d = VList cs ->
  Forall listed_course cs ->
  get_all_courses E url token (Some specific) w
  = (Ok (VList (List.filter (matches_filter specific) cs)),
     snd (call_moodle E url token "core_course_get_courses_by_field" None w)).
Proof.
  intros Hne Hcall Hcourses Hcs.
  destruct specific as [|e rest]; [contradiction|].
  unfold get_all_courses, bind, lift, ret.
  destruct (call_moodle _ _ _ _ _ w) as [r w']; simpl in Hcall; subst r.
  cbn [Py.get]; rewrite Hcourses; cbn [Py.iter snd].
  rewrite (filter_courses_listed (e :: rest) cs [] Hcs); reflexivity.
Qed.

(** X5. With a course id other than 0, [main] processes the listed courses
    that have this id, and those whose full name is the id's decimal
    writing, whatever the courses file says, and prints how many it found;
    a course id of 0 counts as no course id. *)
Theorem resolve_courses_by_id (E : env) (url token : string) (id : Z)
    (specific_courses : option (list string)) (w : world)
    (d : list (string * value)) (cs : list value) :
  let call := call_moodle E url token "core_course_get_courses_by_field" None w in
  let kept := List.filter (has_id_or_name id) cs in
  id <> 0%Z ->
  fst call = Ok (VDict d) ->
  Py.field_or "courses" (VList []) d = VList cs ->
  Forall listed_course cs ->
  resolve_courses E url token (Some id) specific_courses w
  = (Ok (VList kept),
     (snd call ++ [Print (only_course_message id (List.length kept))])%list)
  /\ resolve_courses E url token (Some 0%Z) specific_courses w
     = resolve_courses E url token None specific_courses w.
Proof.
  cbv zeta; intros Hid Hcall Hcourses Hcs.
  split; [|reflexivity].
  unfold resolve_courses, nonzero.
  destruct (Z.eqb_spec id 0) as [|_]; [contradiction|].
  unfold bind at 1.
  rewrite (get_all_courses_listed E url token [Py.str_of_Z id] w d cs);
    [|discriminate|exact Hcall|exact Hcourses|exact Hcs].
  rewrite (filter_ext_in (matches_filter [Py.str_of_Z id]) (has_id_or_name id)).
  - reflexivity.
  - intros c Hc; rewrite Forall_forall in Hcs.
    apply matches_one_id, Hcs, Hc.
Qed.

(** The catalogue restricted to the course 102. *)
Lemma resolve_courses_by_id_witness :
  fst (resolve_courses Sample.catalogue_server "https://moodle.example"
         "secret" (Some 102%Z) (Some ["Chemistry"]) [])
  = Ok (VList [Sample.biology]).
Proof.
  refine (f_equal fst
            (proj1 (resolve_courses_by_id Sample.catalogue_server
                      "https://moodle.example" "secret" 102 (Some ["Chemistry"])
                      [] Sample.catalogue
                      [Sample.algebra; Sample.biology; Sample.chemistry]
                      _ eq_refl eq_refl _))).
  - discriminate.
  - repeat constructor; eexists _, _, _; repeat split; reflexivity.
Defined.

(** ** get_course_activities *)

Lemma store_distinct {V} (d : Py.dict V) (k : value) (v : V) :
  distinct_keys d -> distinct_keys (Py.store d k v).
Proof.
  induction 1 as [|k' v' d Hk' Hd IH]; simpl.
  - constructor; [reflexivity|constructor].
  - destruct (Py.key_eqb k' k) eqn:Hk.
    + constructor; assumption.
    + constructor; [|exact IH].
      rewrite DictFacts.lookup_store, DictFacts.key_eqb_sym, Hk; exact Hk'.
Qed.

Lemma add_module_eq (m : value) (acts acts' : Py.dict meta) :
  add_module m acts = Ok acts' ->
  acts' = match visible_module m with
          | Some (cmid, x) => Py.store acts cmid x
          | None => acts
          end.
Proof.
  destruct m as [| | | | |f]; try discriminate.
  unfold add_module, visible_module, Py.get, Py.setitem; cbn [res_bind].
  destruct (Py.truthy (Py.field_or "uservisible" (VBool true) f));
    cbn [andb]; [|congruence].
  destruct (Py.truthy (Py.field_or "deletioninprogress" (VBool false) f));
    cbn [negb]; [congruence|].
  destruct (Py.hashable (Py.field_or "id" VNone f)); congruence.
Qed.

Lemma add_modules_lookup (ms : list value) (acts acts' : Py.dict meta) :
  for_in ms add_module acts = Ok acts' ->
  (distinct_keys acts -> distinct_keys acts')
  /\ forall k, Py.lookup acts' k
               = match last_visible ms k with
                 | Some x => Some x
                 | None => Py.lookup acts k
                 end.
Proof.
  revert acts; induction ms as [|m ms IH]; intros acts;
    cbn [for_in last_visible].
  - intros H; injection H as <-; split; auto.
  - destruct (add_module m acts) as [acts1|] eqn:Hm; cbn [res_bind];
      [|discriminate].
    intros Hrest; destruct (IH acts1 Hrest) as [Hdist Hlook].
    apply add_module_eq in Hm.
    split.
    + intros Hd; apply Hdist; subst acts1.
      destruct (visible_module m) as [[cmid x]|];
        [apply store_distinct|]; exact Hd.
    + intros k; rewrite Hlook.
      destruct (last_visible ms k); [reflexivity|].
      subst acts1; destruct (visible_module m) as [[cmid x]|]; [|reflexivity].
      rewrite DictFacts.lookup_store.
      destruct (Py.key_eqb cmid k); reflexivity.
Qed.

Lemma last_visible_app (a b : list value) (k : value) :
  last_visible (a ++ b) k
  = match last_visible b k with
    | Some x => Some x
    | None => last_visible a k
    end.
Proof.
  induction a as [|m a IH]; simpl.
  - destruct (last_visible b k); reflexivity.
  - rewrite IH; destruct (last_visible b k); reflexivity.
Qed.

Lemma add_section_lookup (sec : value) (acts acts' : Py.dict meta) :
  add_section sec acts = Ok acts' ->
  for_in (section_modules sec) add_module acts = Ok acts'.
Proof.
  destruct sec as [| | | | |f]; try discriminate.
  unfold add_section, section_modules, Py.get; cbn [res_bind].
  destruct (Py.iter (Py.field_or "modules" (VList []) f)); [|discriminate].
  cbn [res_bind]; auto.
Qed.

Lemma add_sections_lookup (secs : list value) (acts acts' : Py.dict meta) :
  for_in secs add_section acts = Ok acts' ->
  (distinct_keys acts -> distinct_keys acts')
  /\ forall k, Py.lookup acts' k
               = match last_visible (flat_map section_modules secs) k with
                 | Some x => Some x
                 | None => Py.lookup acts k
                 end.
Proof.
  revert acts; induction secs as [|sec secs IH]; intros acts;
    cbn [for_in flat_map].
  - intros H; injection H as <-; split; auto.
  - destruct (add_section sec acts) as [acts1|] eqn:Hsec; cbn [res_bind];
      [|discriminate].
    intros Hrest; destruct (IH acts1 Hrest) as [Hdist Hlook].
    apply add_section_lookup, add_modules_lookup in Hsec as [Hdist1 Hlook1].
    split; [auto|].
    intros k; rewrite Hlook, last_visible_app, Hlook1.
    destruct (last_visible (flat_map section_modules secs) k); reflexivity.
Qed.

(** X6. When [get_course_activities] returns, no two of the activities it
    lists have the same id, and the name and type listed for an id are those
    of the last module of the payload with this id that is visible to the
    user and not being deleted; an id whose modules are all hidden or being
    deleted is not listed. *)
Theorem get_course_activities_listing (E : env) (url token : string)
    (cid : value) (w w1 : world) (activities : Py.dict meta) :
  get_course_activities E url token cid w = (Ok activities, w1) ->
  exists sections,
    call_moodle E url token "core_course_get_contents"
      (Some [("courseid", cid)]) w = (Ok sections, w1)
    /\ distinct_keys activities
    /\ forall k, Py.lookup activities k = last_visible (modules_of sections) k.
Proof.
  unfold get_course_activities, bind, lift.
  destruct (call_moodle _ _ _ _ _ w) as [[sections|] w']; [|discriminate].
  unfold collect_activities.
  destruct (Py.iter sections) as [secs|] eqn:Hsecs; cbn [res_bind];
    [|discriminate].
  destruct (for_in secs add_section []) as [acts|] eqn:Hacts; [|discriminate].
  intros H; injection H as <- <-.
  destruct (add_sections_lookup secs [] acts Hacts) as [Hdist Hlook].
  exists sections; split; [reflexivity|].
  split; [apply Hdist; constructor|].
  intros k; unfold modules_of; rewrite Hsecs, Hlook.
  destruct (last_visible (flat_map section_modules secs) k); reflexivity.
Qed.

(** The sample course: the hidden quiz (id 13) is not listed. *)
Lemma get_course_activities_listing_witness :
  exists activities w1,
    get_course_activities Sample.campus "https://moodle.example" "secret"
      (VInt 102) [] = (Ok activities, w1)
    /\ distinct_keys activities
    /\ Py.lookup activities (VInt 13) = None
    /\ Py.lookup activities (VInt 14)
       = Some (Meta (VStr "Final exam") (VStr "quiz")).
Proof.
  destruct (get_course_activities Sample.campus "https://moodle.example"
              "secret" (VInt 102) []) as [[activities|e] w1] eqn:Hrun;
    [|vm_compute in Hrun; discriminate].
  destruct (get_course_activities_listing Sample.campus
              "https://moodle.example" "secret" (VInt 102) [] w1 activities Hrun)
    as (sections & Hcall & Hdist & Hlook).
  vm_compute in Hcall; injection Hcall as <- _.
  exists activities, w1; split; [reflexivity|].
  split; [exact Hdist|].
  split; rewrite Hlook; reflexivity.
Defined.

(** ** What a run adds to the trace *)

Section Effects.

Variables url token : string.

Lemma within_ret {A} (a : A) : runs_within url token 0 (ret a).
Proof.
  intros w; exists []; rewrite app_nil_r; repeat split; auto.
Qed.

Lemma within_lift {A} (r : res A) : runs_within url token 0 (lift r).
Proof.
  intros w; exists []; rewrite app_nil_r; repeat split; auto.
Qed.

Lemma within_print (line : string) : runs_within url token 0 (print line).
Proof.
  intros w; exists [Print line]; repeat split; auto.
  constructor; [exact I|constructor].
Qed.

Lemma within_weaken {A} (n n' : nat) (m : M A) :
  n <= n' -> runs_within url token n m -> runs_within url token n' m.
Proof.
  intros Hn Hm w; destruct (Hm w) as (t & Ht & Hposts & Hall).
  exists t; repeat split; auto; lia.
Qed.

Lemma posts_app (a b : world) : posts (a ++ b)%list = posts a + posts b.
Proof.
  induction a as [|[r|s|l] a IH]; simpl; auto.
Qed.

Lemma within_bind {A B} (n1 n2 : nat) (m : M A) (k : A -> M B) :
  runs_within url token n1 m ->
  (forall a, runs_within url token n2 (k a)) ->
  runs_within url token (n1 + n2) (bind m k).
Proof.
  intros Hm Hk w; unfold bind.
  destruct (Hm w) as (t1 & Ht1 & Hp1 & Ha1).
  destruct (m w) as [[a|e] w1]; simpl in Ht1; subst w1.
  - destruct (Hk a (w ++ t1)%list) as (t2 & Ht2 & Hp2 & Ha2).
    exists (t1 ++ t2)%list; rewrite Ht2, app_assoc, posts_app.
    repeat split; [lia|apply Forall_app; auto].
  - exists t1; repeat split; [lia|auto].
Qed.

Lemma within_try {A} (n1 n2 : nat) (m : M A) (handler : exn -> M A) :
  runs_within url token n1 m ->
  (forall e, runs_within url token n2 (handler e)) ->
  runs_within url token (n1 + n2) (try_except m handler).
Proof.
  intros Hm Hh w; unfold try_except.
  destruct (Hm w) as (t1 & Ht1 & Hp1 & Ha1).
  destruct (m w) as [[a|e] w1]; simpl in Ht1; subst w1.
  - exists t1; repeat split; [lia|auto].
  - destruct (Hh e (w ++ t1)%list) as (t2 & Ht2 & Hp2 & Ha2).
    exists (t1 ++ t2)%list; rewrite Ht2, app_assoc, posts_app.
    repeat split; [lia|apply Forall_app; auto].
Qed.

Lemma within_for_in_M {A St} (n : nat) (body : A -> St -> M St) (xs : list A)
    (s : St) :
  (forall x t, runs_within url token n (body x t)) ->
  runs_within url token (n * List.length xs) (for_in_M xs body s).
Proof.
  intros Hbody; revert s; induction xs as [|x xs IH]; intros s.
  - rewrite Nat.mul_0_r; apply within_ret.
  - cbn [for_in_M List.length].
    replace (n * S (List.length xs)) with (n + n * List.length xs) by lia.
    apply within_bind; [apply Hbody|intros s'; apply IH].
Qed.

Variable E : env.

Lemma call_moodle_within (function : string)
    (params : option (list (string * value))) :
  runs_within url token 3 (call_moodle E url token function params).
Proof.
  intros w; rewrite call_moodle_eq; cbv zeta.
  assert (Hpost : forall p, to_endpoint url token
                              (Post (mk_request url token function p))).
  { intros p; simpl; repeat split; auto. }
  destruct (outcome (respond E w _)).
  - eexists; split; [reflexivity|]; split; [simpl; lia|].
    repeat constructor; apply Hpost.
  - destruct (outcome (respond E _ _)).
    + eexists; split; [simpl; rewrite <- !app_assoc; reflexivity|].
      split; [simpl; lia|]. repeat constructor; apply Hpost.
    + eexists; split; [simpl; rewrite <- !app_assoc; reflexivity|].
      split; [simpl; lia|]. repeat constructor; apply Hpost.
Qed.

Lemma get_course_completion_within (cid uid : value) :
  runs_within url token 3 (get_course_completion E url token cid uid).
Proof.
  intros w; rewrite get_course_completion_eq; cbv zeta; cbn [snd].
  apply call_moodle_within.
Qed.

Lemma get_activity_completion_within (cid uid : value) :
  runs_within url token 3 (get_activity_completion E url token cid uid).
Proof.
  intros w; rewrite get_activity_completion_eq; cbv zeta; cbn [snd].
  apply call_moodle_within.
Qed.

Lemma get_course_activities_within (cid : value) :
  runs_within url token 3 (get_course_activities E url token cid).
Proof.
  unfold get_course_activities.
  apply (within_bind 3 0); [apply call_moodle_within|].
  intros sections; apply within_lift.
Qed.

Lemma process_user_within (cid cname cshort : value)
    (activity_columns : list (value * string)) (u : value) (acc : rows) :
  runs_within url token 6
    (process_user E url token cid cname cshort activity_columns u acc).
Proof.
  unfold process_user.
  repeat (apply (within_bind 0 6); [apply within_lift|intros ?]).
  apply (within_bind 3 3); [apply get_course_completion_within|].
  intros [c_pct c_status].
  apply (within_bind 3 0); [apply get_activity_completion_within|intros a_map].
  apply (within_bind 0 0); [apply within_lift|intros ?].
  apply within_ret.
Qed.

End Effects.

(** ** The rows of a course *)

Lemma mem_app (c : ascii) (a b : string) :
  Str.mem c (a ++ b) = Str.mem c a || Str.mem c b.
Proof.
  induction a as [|x a IH]; simpl; [reflexivity|].
  rewrite IH, orb_assoc; reflexivity.
Qed.

Lemma columns_have_colon (activities : Py.dict meta)
    (acc cols : list (value * string)) :
  for_in activities add_column acc = Ok cols ->
  Forall has_colon acc -> Forall has_colon cols.
Proof.
  apply for_in_invariant.
  intros [cmid [name modname]] t t'; unfold add_column.
  cbn [meta_modname meta_name].
  destruct (py_capitalize modname) as [cap|]; cbn [res_bind]; [|discriminate].
  intros H Ht; injection H as <-.
  apply Forall_app; split; [exact Ht|].
  constructor; [|constructor].
  unfold has_colon; cbn [snd]; rewrite mem_app; simpl.
  apply orb_true_r.
Qed.

Lemma colon_not_named (cols : list (value * string)) (name : string) :
  Forall has_colon cols -> Str.mem ":" name = false ->
  ~ In name (List.map snd cols).
Proof.
  intros Hcols Hname Hin.
  apply in_map_iff in Hin as (c & <- & Hc).
  rewrite Forall_forall in Hcols; specialize (Hcols c Hc).
  unfold has_colon in Hcols; congruence.
Qed.

Lemma completion_of_pair (resp : value) (pct : Z) (status : string) :
  completion_of resp = Ok (Some (pct, status)) -> completion_pair pct status.
Proof.
  destruct resp as [| | | | |d]; try discriminate; simpl.
  destruct (Py.field "completionstatus" d) as [st|]; [|discriminate].
  destruct (Py.get st "completed" VNone) as [completed|]; cbn [res_bind];
    [|discriminate].
  unfold completion_pair.
  destruct (Py.truthy completed); intros H; injection H as <- <-; auto.
Qed.

Section Rows.

Variable E : env.
Variables url token : string.

Lemma get_course_completion_pair (cid uid : value) (w w' : world)
    (pct : Z) (status : string) :
  get_course_completion E url token cid uid w = (Ok (pct, status), w') ->
  completion_pair pct status.
Proof.
  rewrite get_course_completion_eq; cbv zeta.
  intros H; injection H as H _.
  destruct (fst _) as [resp|].
  - destruct (completion_of resp) as [[[p s]|]|] eqn:Hc.
    + injection H as <- <-; exact (completion_of_pair resp p s Hc).
    + injection H as <- <-; right; left; auto.
    + injection H as <- <-; right; left; auto.
  - injection H as <- <-; right; left; auto.
Qed.

Lemma course_row_completion (cid cname cshort : value)
    (base_user : Py.dict value) (status : string) (pct : Z) :
  let row := course_row_of cid cname cshort base_user status pct in
  Py.lookup row (VStr "Completion %") = Some (VInt pct)
  /\ Py.lookup row (VStr "Course Completion Status") = Some (VStr status).
Proof.
  cbv zeta; unfold course_row_of.
  set (d := Py.update _ base_user).
  split; unfold Py.update at 1; cbn [fold_left fst snd];
    rewrite !DictFacts.lookup_store; reflexivity.
Qed.

Lemma process_user_rows (cid cname cshort : value)
    (activity_columns : list (value * string)) (u : value)
    (acc acc' : rows) (w w' : world) :
  Forall has_colon activity_columns ->
  process_user E url token cid cname cshort activity_columns u acc w
  = (Ok acc', w') ->
  exists course_row consolidated_row enrollment_row,
    per_course_rows acc' = (per_course_rows acc ++ [course_row])%list
    /\ consolidated_rows acc' = (consolidated_rows acc ++ [consolidated_row])%list
    /\ enrollment_rows acc' = (enrollment_rows acc ++ [enrollment_row])%list
    /\ user_rows u course_row consolidated_row enrollment_row.
Proof.
  intros Hcols Hrun.
  destruct (process_user_not_dict _ _ _ _ _ _ _ _ _ _ _ _ Hrun) as [f ->].
  rewrite process_user_eq in Hrun; cbv zeta in Hrun.
  destruct (last_access_str E (VDict f)) as [last_access|]; [|discriminate].
  destruct (flatten_custom_fields (VDict f)) as [custom|]; [|discriminate].
  destruct (get_course_completion E url token cid _ w)
    as [[[c_pct c_status]|] w1] eqn:Hcompletion; [|discriminate].
  destruct (get_activity_completion E url token cid _ w1)
    as [[a_map|] w2]; [|discriminate].
  destruct (for_in _ (fill_column a_map) _) as [row|] eqn:Hrow; [|discriminate].
  injection Hrun as <- <-.
  eexists _, _, _; repeat split.
  exists f, c_pct, c_status.
  pose proof (get_course_completion_pair _ _ _ _ _ _ Hcompletion) as Hpair.
  destruct (course_row_completion cid cname cshort
              (Py.update
                 (base_user_of (Py.field_or "id" VNone f)
                    (Py.field_or "fullname" (VStr "") f)
                    (Py.field_or "username" (VStr "") f)
                    (Py.field_or "email" (VStr "") f)
                    (Py.field_or "department" (VStr "") f)
                    (Py.field_or "institution" (VStr "") f)
                    (Py.field_or "city" (VStr "") f)
                    (Py.field_or "country" (VStr "") f) last_access
                    (role_names (VDict f))) custom) c_status c_pct)
    as [Hpct Hstatus].
  repeat split; auto.
  - rewrite (fill_columns_lookup _ _ _ _ "Completion %" Hrow).
    rewrite column_status_unnamed; [exact Hpct|].
    apply colon_not_named; [exact Hcols|reflexivity].
  - rewrite (fill_columns_lookup _ _ _ _ "Course Completion Status" Hrow).
    rewrite column_status_unnamed; [exact Hstatus|].
    apply colon_not_named; [exact Hcols|reflexivity].
Qed.

Lemma process_users_rows (cid cname cshort : value)
    (activity_columns : list (value * string)) (us : list value)
    (acc acc' : rows) (w w' : world) :
  Forall has_colon activity_columns ->
  for_in_M us (process_user E url token cid cname cshort activity_columns)
    acc w = (Ok acc', w') ->
  exists course_rows consolidated enrollments,
    per_course_rows acc' = (per_course_rows acc ++ course_rows)%list
    /\ consolidated_rows acc' = (consolidated_rows acc ++ consolidated)%list
    /\ enrollment_rows acc' = (enrollment_rows acc ++ enrollments)%list
    /\ aligned user_rows us course_rows consolidated enrollments.
Proof.
  intros Hcols; revert acc w.
  induction us as [|u us IH]; intros acc w; cbn [for_in_M].
  - unfold ret; intros H; injection H as <- <-.
    exists [], [], []; rewrite !app_nil_r; repeat split; constructor.
  - unfold bind at 1.
    destruct (process_user E url token cid cname cshort activity_columns u acc w)
      as [[acc1|e] w1] eqn:Huser; [|discriminate].
    intros Hrest.
    destruct (process_user_rows _ _ _ _ _ _ _ _ _ Hcols Huser)
      as (r & c & en & Hr & Hc & Hen & Hrows).
    destruct (IH _ _ Hrest) as (rs & cs & ens & Hrs & Hcs & Hens & Hall).
    exists (r :: rs), (c :: cs), (en :: ens).
    rewrite Hrs, Hcs, Hens, Hr, Hc, Hen, <- !app_assoc; cbn [app].
    repeat split; constructor; assumption.
Qed.

(** The rows of a course that was processed: the users they were made
    for. *)
Lemma process_one_course_users (course : value) (w w' : world)
    (course_rows : list (Py.dict value)) (consolidated : list (list value))
    (enrollments : list (Py.dict value)) (cols : list string) :
  process_one_course E url token course w
  = (Ok (course_rows, consolidated, enrollments, cols), w') ->
  exists d activities w1 us,
    course = VDict d
    /\ get_course_activities E url token (Py.field_or "id" VNone d)
         (w ++ [Print (processing_message (Py.field_or "fullname" (VStr "") d)
                         (Py.field_or "id" VNone d))])%list
       = (Ok activities, w1)
    /\ match get_course_users E url token (Py.field_or "id" VNone d) w1 with
       | (Ok users, _) => Py.iter users = Ok us
       | (Raise _, _) => us = []
       end
    /\ aligned user_rows us course_rows consolidated enrollments.
Proof.
  intros Hrun.
  destruct course as [| | | | |d]; try discriminate.
  rewrite process_one_course_eq in Hrun; cbv zeta in Hrun.
  destruct (get_course_activities E url token _ _) as [[activities|e] w1]
    eqn:Hacts; [|discriminate].
  destruct (columns_of activities) as [activity_columns|e] eqn:Hcols;
    [|discriminate].
  exists d, activities, w1.
  destruct (get_course_users E url token _ w1) as [[users|e] w2].
  - destruct (Py.iter users) as [us|e]; [|discriminate].
    destruct (for_in_M us _ _ w2) as [[acc|e] w3] eqn:Hloop; [|discriminate].
    assert (Hcolon : Forall has_colon activity_columns).
    { apply (columns_have_colon activities [] activity_columns Hcols).
      constructor. }
    destruct (process_users_rows _ _ _ _ _ _ _ _ _ Hcolon Hloop)
      as (rs & cs & ens & Hrs & Hcs & Hens & Hall).
    cbn [per_course_rows consolidated_rows enrollment_rows app] in Hrs, Hcs, Hens.
    injection Hrun as <- <- <- _ _.
    exists us; rewrite Hrs, Hcs, Hens; repeat split; assumption.
  - injection Hrun as <- <- <- _ _.
    exists []; repeat split; solve [assumption|constructor].
Qed.

Lemma aligned_length {A B C D} (R : A -> B -> C -> D -> Prop)
    (la : list A) (lb : list B) (lc : list C) (ld : list D) :
  aligned R la lb lc ld ->
  List.length lb = List.length la
  /\ List.length lc = List.length la
  /\ List.length ld = List.length la.
Proof.
  induction 1 as [|a b c d la lb lc ld _ _ (IHb & IHc & IHd)]; cbn [List.length];
    auto.
Qed.

Lemma aligned_pairs {A B C D} (R : A -> B -> C -> D -> Prop)
    (P : B -> C -> Prop)
    (la : list A) (lb : list B) (lc : list C) (ld : list D) :
  (forall a b c d, R a b c d -> P b c) ->
  aligned R la lb lc ld -> Forall2 P lb lc.
Proof.
  intros HP; induction 1; constructor; eauto.
Qed.

Lemma aligned_cells {A B C D X} (R : A -> B -> C -> D -> Prop)
    (f : A -> X) (g : C -> X)
    (la : list A) (lb : list B) (lc : list C) (ld : list D) :
  (forall a b c d, R a b c d -> g c = f a) ->
  aligned R la lb lc ld -> List.map g lc = List.map f la.
Proof.
  intros Hg; induction 1 as [|a b c d la lb lc ld HR _ IH]; cbn [List.map];
    [reflexivity|].
  rewrite IH, (Hg a b c d HR); reflexivity.
Qed.

Lemma aligned_entries {A B C D X} (R : A -> B -> C -> D -> Prop)
    (f : A -> X) (g : D -> X)
    (la : list A) (lb : list B) (lc : list C) (ld : list D) :
  (forall a b c d, R a b c d -> g d = f a) ->
  aligned R la lb lc ld -> List.map g ld = List.map f la.
Proof.
  intros Hg; induction 1 as [|a b c d la lb lc ld HR _ IH]; cbn [List.map];
    [reflexivity|].
  rewrite IH, (Hg a b c d HR); reflexivity.
Qed.

Lemma aligned_all {A B C D} (R : A -> B -> C -> D -> Prop) (P : C -> Prop)
    (la : list A) (lb : list B) (lc : list C) (ld : list D) :
  (forall a b c d, R a b c d -> P c) ->
  aligned R la lb lc ld -> Forall P lc.
Proof.
  intros HP; induction 1; constructor; eauto.
Qed.

(** X7. A course that was processed has one row per enrolled user in each of
    its three collections, in the order of the users the server listed (none
    when the users could not be fetched): every consolidated row has the ten
    cells of the consolidated sheet and starts with the user's id, and every
    enrollment row has that id under "User ID". *)
Theorem process_one_course_row_per_user (course : value) (w w' : world)
    (course_rows : list (Py.dict value)) (consolidated : list (list value))
    (enrollments : list (Py.dict value)) (cols : list string) :
  process_one_course E url token course w
  = (Ok (course_rows, consolidated, enrollments, cols), w') ->
  exists d activities w1 us,
    course = VDict d
    /\ get_course_activities E url token (Py.field_or "id" VNone d)
         (w ++ [Print (processing_message (Py.field_or "fullname" (VStr "") d)
                         (Py.field_or "id" VNone d))])%list
       = (Ok activities, w1)
    /\ match get_course_users E url token (Py.field_or "id" VNone d) w1 with
       | (Ok users, _) => Py.iter users = Ok us
       | (Raise _, _) => us = []
       end
    /\ List.length course_rows = List.length us
    /\ List.length consolidated = List.length us
    /\ List.length enrollments = List.length us
    /\ Forall (fun row => List.length row = 10) consolidated
    /\ List.map (fun row => nth_error row 0) consolidated
       = List.map (fun u => Some (user_id u)) us
    /\ List.map (fun row => Py.lookup row (VStr "User ID")) enrollments
       = List.map (fun u => Some (user_id u)) us.
Proof.
  intros Hrun.
  destruct (process_one_course_users _ _ _ _ _ _ _ Hrun)
    as (d & activities & w1 & us & -> & Hacts & Husers & Hall).
  exists d, activities, w1, us.
  destruct (aligned_length _ _ _ _ _ Hall) as (Hb & Hc & Hd).
  split; [reflexivity|].
  repeat (split; [assumption|]).
  split; [|split].
  - apply (aligned_all _ _ _ _ _ _) with (2 := Hall).
    intros u r c e (f & pct & status & _ & _ & Hlen & _); exact Hlen.
  - apply (aligned_cells _ _ _ _ _ _ _) with (2 := Hall).
    intros u r c e (f & pct & status & -> & _ & _ & Hid & _); exact Hid.
  - apply (aligned_entries _ _ _ _ _ _ _) with (2 := Hall).
    intros u r c e (f & pct & status & -> & _ & _ & _ & _ & _ & Hid & _);
      exact Hid.
Qed.

(** X8. In every row pair of a processed course the per-course row and the
    consolidated row show the same course completion: "Completion %" and
    "Course Completion Status" of the first are cells 9 and 10 of the
    second, and they are 0 with "Incomplete", 0 with "N/A" or 100 with
    "Completed"; no activity column replaces them. *)
Theorem process_one_course_completion_cells (course : value) (w w' : world)
    (course_rows : list (Py.dict value)) (consolidated : list (list value))
    (enrollments : list (Py.dict value)) (cols : list string) :
  process_one_course E url token course w
  = (Ok (course_rows, consolidated, enrollments, cols), w') ->
  Forall2 same_completion course_rows consolidated.
Proof.
  intros Hrun.
  destruct (process_one_course_users _ _ _ _ _ _ _ Hrun)
    as (d & activities & w1 & us & _ & _ & _ & Hall).
  apply (aligned_pairs _ _ _ _ _ _) with (2 := Hall).
  intros u r c e
    (f & pct & status & _ & Hpair & _ & _ & H8 & H9 & _ & Hpct & Hstatus).
  exists pct, status; auto.
Qed.

End Rows.

Lemma process_one_course_row_per_user_witness :
  exists course_rows consolidated enrollments,
    fst (process_one_course Sample.campus "https://moodle.example" "secret"
           Sample.biology [])
    = Ok (course_rows, consolidated, enrollments,
          ["Forum: Discussion"; "Forum: Discussion"; "Quiz: Final exam"])
    /\ List.length course_rows = 1
    /\ List.map (fun row => nth_error row 0) consolidated = [Some (VInt 7)].
Proof.
  destruct (process_one_course Sample.campus "https://moodle.example" "secret"
              Sample.biology [])
    as [[[[[course_rows consolidated] enrollments] cols]|e] w'] eqn:Hrun;
    [|vm_compute in Hrun; discriminate].
  destruct (process_one_course_row_per_user Sample.campus
              "https://moodle.example" "secret" Sample.biology [] w'
              course_rows consolidated enrollments cols Hrun)
    as (d & activities & w1 & us & Hd & Hacts & Husers & Hrows & _ & _ & _
        & Hids & _).
  injection Hd as <-.
  vm_compute in Hacts; injection Hacts as <- <-.
  vm_compute in Husers; injection Husers as <-.
  exists course_rows, consolidated, enrollments.
  split; [|split; [exact Hrows|exact Hids]].
  vm_compute in Hrun; injection Hrun as _ _ _ <- _.
  cbn [fst]; reflexivity.
Defined.

Lemma process_one_course_completion_cells_witness :
  exists course_rows consolidated enrollments cols w',
    process_one_course Sample.campus "https://moodle.example" "secret"
      Sample.biology []
    = (Ok (course_rows, consolidated, enrollments, cols), w')
    /\ Forall2 same_completion course_rows consolidated.
Proof.
  destruct (process_one_course Sample.campus "https://moodle.example" "secret"
              Sample.biology [])
    as [[[[[course_rows consolidated] enrollments] cols]|e] w'] eqn:Hrun;
    [|vm_compute in Hrun; discriminate].
  exists course_rows, consolidated, enrollments, cols, w'.
  split; [reflexivity|].
  exact (process_one_course_completion_cells Sample.campus
           "https://moodle.example" "secret" Sample.biology [] w'
           course_rows consolidated enrollments cols Hrun).
Defined.

(** ** The requests of a course *)

Section Requests.

Variable E : env.
Variables url token : string.

Lemma trace_step (w t1 w1 t2 : world) (n1 n2 : nat) :
  w1 = (w ++ t1)%list ->
  posts t1 <= n1 -> Forall (to_endpoint url token) t1 ->
  posts t2 <= n2 -> Forall (to_endpoint url token) t2 ->
  (w1 ++ t2)%list = (w ++ (t1 ++ t2))%list
  /\ posts (t1 ++ t2)%list <= n1 + n2
  /\ Forall (to_endpoint url token) (t1 ++ t2)%list.
Proof.
  intros -> H1 F1 H2 F2; rewrite app_assoc, posts_app.
  split; [reflexivity|]; split; [lia|].
  apply Forall_app; split; assumption.
Qed.

(** X9. Processing a course only adds to the trace, and every request it
    makes goes to the web-service endpoint of the given URL with the given
    token; a course that is no JSON object makes none.  When the course is
    processed, the requests are at most six (three tries each for its
    activities and its users) and six for every row. *)
Theorem process_one_course_requests (course : value) (w : world) :
  exists t,
    snd (process_one_course E url token course w) = (w ++ t)%list
    /\ Forall (to_endpoint url token) t
    /\ (forall course_rows consolidated enrollments cols,
          fst (process_one_course E url token course w)
          = Ok (course_rows, consolidated, enrollments, cols) ->
          posts t <= 6 + 6 * List.length course_rows)
    /\ match course with VDict _ => True | _ => t = [] end.
Proof.
  destruct course as [| | | | |d];
    try (exists []; rewrite app_nil_r; repeat split;
         [constructor|discriminate]).
  rewrite process_one_course_eq; cbv zeta.
  set (cid := Py.field_or "id" VNone d).
  set (cname := Py.field_or "fullname" (VStr "") d).
  set (cshort := Py.field_or "shortname" (VStr "") d).
  set (line := Print (processing_message cname cid)).
  assert (H0 : posts [line] <= 0 /\ Forall (to_endpoint url token) [line]).
  { split; [apply Nat.le_refl|repeat constructor]. }
  destruct H0 as [P0 F0].
  destruct (get_course_activities_within url token E cid (w ++ [line])%list)
    as (t1 & H1 & P1 & F1).
  destruct (get_course_activities E url token cid _) as [[activities|e] w1];
    cbn [snd] in H1.
  2: { destruct (trace_step w [line] _ t1 0 3 eq_refl P0 F0 P1 F1)
         as (Hw & _ & HF).
       exists ([line] ++ t1)%list; cbn [snd fst]; rewrite H1.
       repeat split; [exact Hw|exact HF|discriminate]. }
  destruct (trace_step w [line] _ t1 0 3 eq_refl P0 F0 P1 F1)
    as (Hw1 & Pa & Fa).
  rewrite <- H1 in Hw1; clear H1 P1 F1.
  destruct (columns_of activities) as [activity_columns|e] eqn:Hcols.
  2: { exists ([line] ++ t1)%list; cbn [snd fst].
       repeat split; [exact Hw1|exact Fa|discriminate]. }
  destruct (call_moodle_within url token E "core_enrol_get_enrolled_users"
              (Some [("courseid", cid)]) w1) as (t2 & H2 & P2 & F2).
  fold (get_course_users E url token cid) in H2.
  destruct (get_course_users E url token cid w1) as [[users|e] w2];
    cbn [snd] in H2.
  2: { set (failed := Print (users_failed_message cname e)).
       destruct (trace_step w _ _ t2 _ 3 Hw1 Pa Fa P2 F2) as (Hw2 & Pb & Fb).
       rewrite <- H2 in Hw2.
       assert (Pf : posts [failed] <= 0) by apply Nat.le_refl.
       assert (Ff : Forall (to_endpoint url token) [failed])
         by repeat constructor.
       destruct (trace_step w _ _ [failed] _ 0 Hw2 Pb Fb Pf Ff)
         as (Hw3 & Pc & Fc).
       eexists; cbn [snd fst]; repeat split; [exact Hw3|exact Fc|].
       intros; lia. }
  destruct (trace_step w _ _ t2 _ 3 Hw1 Pa Fa P2 F2) as (Hw2 & Pb & Fb).
  rewrite <- H2 in Hw2; clear H2 P2 F2.
  destruct (Py.iter users) as [us|e].
  2: { eexists; cbn [snd fst]; repeat split; [exact Hw2|exact Fb|discriminate]. }
  destruct (within_for_in_M url token 6
              (process_user E url token cid cname cshort activity_columns) us
              (Rows [] [] [])
              (process_user_within url token E cid cname cshort activity_columns)
              w2) as (t3 & H3 & P3 & F3).
  destruct (for_in_M us _ _ w2) as [[acc|e] w3] eqn:Hloop; cbn [snd] in H3.
  2: { destruct (trace_step w _ _ t3 _ _ Hw2 Pb Fb P3 F3) as (Hw3 & _ & Fc).
       rewrite <- H3 in Hw3.
       eexists; cbn [snd fst]; repeat split; [exact Hw3|exact Fc|discriminate]. }
  destruct (trace_step w _ _ t3 _ _ Hw2 Pb Fb P3 F3) as (Hw3 & Pc & Fc).
  rewrite <- H3 in Hw3.
  eexists; cbn [snd fst]; repeat split; [exact Hw3|exact Fc|].
  intros course_rows consolidated enrollments cols Hres.
  injection Hres as <- _ _ _.
  assert (Hcolon : Forall has_colon activity_columns).
  { apply (columns_have_colon activities [] activity_columns Hcols).
    constructor. }
  destruct (process_users_rows E url token _ _ _ _ _ _ _ _ _ Hcolon Hloop)
    as (rs & cs & ens & Hrs & _ & _ & Hall).
  cbn [per_course_rows app] in Hrs.
  destruct (aligned_length _ _ _ _ _ Hall) as (Hlen & _).
  rewrite Hrs, Hlen; lia.
Qed.

End Requests.

Example process_one_course_requests_sample :
  let t := snd (process_one_course Sample.campus "https://moodle.example"
                  "secret" Sample.biology []) in
  posts t = 4 /\ posts (snd (process_one_course Sample.dead_server
                                "https://moodle.example" "secret"
                                Sample.biology [])) = 3.
Proof. split; reflexivity. Qed.

(** ** The cells of a user *)

Lemma role_names_step (rs : list value) :
  match map_res role_name rs with
  | Ok names =>
      map_opt role_shown rs = Some names
  | Raise _ => map_opt role_shown rs = None
  end.
Proof.
  induction rs as [|r rs IH]; cbn [map_res map_opt]; [reflexivity|].
  destruct r as [| | | | |g]; try reflexivity.
  unfold role_name at 1, Py.get; cbn [res_bind role_shown].
  destruct (map_res role_name rs) as [names|]; cbn [res_bind];
    rewrite IH; reflexivity.
Qed.

Lemma role_names_eq (user : value) :
  role_names user
  = match map_opt role_shown (roles_of user) with
    | Some names =>
        match strings_of names with
        | Ok parts => Str.join ", " parts
        | Raise _ => ""
        end
    | None => ""
    end.
Proof.
  destruct user as [| | | | |f]; try reflexivity.
  unfold role_names, roles_of, Py.get; cbn [res_bind].
  destruct (Py.iter (Py.field_or "roles" (VList []) f)) as [rs|];
    cbn [res_bind]; [|reflexivity].
  pose proof (role_names_step rs) as Hstep.
  destruct (map_res role_name rs) as [names|]; rewrite Hstep; cbn [res_bind];
    [|reflexivity].
  destruct (strings_of names); reflexivity.
Qed.

Lemma strings_of_strings (parts : list string) :
  strings_of (List.map VStr parts) = Ok parts.
Proof.
  induction parts as [|s parts IH]; cbn [List.map strings_of]; [reflexivity|].
  rewrite IH; reflexivity.
Qed.

Lemma strings_of_in (names : list value) (parts : list string) (v : value) :
  strings_of names = Ok parts -> In v names -> exists s, v = VStr s.
Proof.
  revert parts; induction names as [|n names IH]; intros parts; [contradiction|].
  destruct n as [| | |s| |]; try discriminate.
  cbn [strings_of].
  destruct (strings_of names) as [ss|]; [|discriminate].
  intros _ [<-|Hin]; [exists s; reflexivity|exact (IH ss eq_refl Hin)].
Qed.

Lemma map_opt_map {A B} (f : A -> option B) (xs : list A) (ys : list B) :
  List.map f xs = List.map Some ys -> map_opt f xs = Some ys.
Proof.
  revert ys; induction xs as [|x xs IH]; intros [|y ys]; try discriminate.
  - reflexivity.
  - cbn [List.map map_opt]; intros H; injection H as Hx Hxs.
    rewrite Hx, (IH ys Hxs); reflexivity.
Qed.

Lemma map_opt_in {A B} (f : A -> option B) (xs : list A) (ys : list B) (x : A) :
  map_opt f xs = Some ys -> In x xs -> exists y, f x = Some y /\ In y ys.
Proof.
  revert ys; induction xs as [|a xs IH]; intros ys; [contradiction|].
  cbn [map_opt].
  destruct (f a) as [b|] eqn:Ha; [|discriminate].
  destruct (map_opt f xs) as [bs|]; [|discriminate].
  intros H [->|Hin]; injection H as <-.
  - exists b; split; [assumption|left; reflexivity].
  - destruct (IH bs eq_refl Hin) as (y & Hy & Hiny).
    exists y; split; [assumption|right; assumption].
Qed.

(** X10. The "Role(s)" cell of a user.  When every role the payload lists
    is shown under a string (its "name", or its role id as a string when it
    has no name), the cell is these strings joined by ", ", in the order of
    the payload.  As soon as one role is no JSON object or has a name that is
    no string (null, a number), the cell is empty.  It is empty as well for a
    user without roles. *)
Theorem role_names_joined (user : value) :
  (forall parts,
     List.map role_shown (roles_of user)
     = List.map (fun s => Some (VStr s)) parts ->
     role_names user = Str.join ", " parts)
  /\ (forall r,
        In r (roles_of user) ->
        (forall s, role_shown r = Some (VStr s) -> False) ->
        role_names user = "")
  /\ (roles_of user = [] -> role_names user = "").
Proof.
  rewrite role_names_eq.
  split; [|split].
  - intros parts Hparts.
    rewrite (map_opt_map role_shown (roles_of user) (List.map VStr parts)).
    + rewrite strings_of_strings; reflexivity.
    + rewrite Hparts, map_map; reflexivity.
  - intros r Hin Hbad.
    destruct (map_opt role_shown (roles_of user)) as [names|] eqn:Hnames;
      [|reflexivity].
    destruct (strings_of names) as [parts|] eqn:Hstrings; [|reflexivity].
    destruct (map_opt_in _ _ _ _ Hnames Hin) as (v & Hv & Hvin).
    destruct (strings_of_in _ _ _ Hstrings Hvin) as [s ->].
    destruct (Hbad s Hv).
  - intros ->; reflexivity.
Qed.

Example role_names_sample :
  role_names (VDict [("roles", VList [VDict [("roleid", VInt 5); ("name", VStr "Student")];
                                     VDict [("roleid", VInt 3)]])])
  = "Student, 3"
  /\ role_names (VDict [("roles", VList [VDict [("roleid", VInt 5); ("name", VStr "Student")];
                                        VDict [("roleid", VInt 3); ("name", VNone)]])])
     = "".
Proof. split; reflexivity. Qed.

(** ** flatten_custom_fields *)

Lemma add_custom_field_eq (f : value) (d d' : Py.dict value) :
  add_custom_field f d = Ok d' ->
  exists key v, custom_entry f = Some (key, v) /\ d' = Py.store d key v.
Proof.
  destruct f as [| | | | |g]; try discriminate.
  unfold add_custom_field, custom_entry, Py.get, Py.setitem; cbn [res_bind].
  destruct (Py.truthy (Py.field_or "shortname" VNone g)); cbn [res_bind].
  - destruct (Py.hashable _); [|discriminate].
    intros H; injection H as <-; eexists _, _; split; reflexivity.
  - destruct (Py.hashable _); [|discriminate].
    intros H; injection H as <-; eexists _, _; split; reflexivity.
Qed.

Lemma add_custom_fields_lookup (fs : list value) (d d' : Py.dict value) :
  for_in fs add_custom_field d = Ok d' ->
  (distinct_keys d -> distinct_keys d')
  /\ forall k, Py.lookup d' k
               = match last_custom fs k with
                 | Some v => Some v
                 | None => Py.lookup d k
                 end.
Proof.
  revert d; induction fs as [|f fs IH]; intros d; cbn [for_in last_custom].
  - intros H; injection H as <-; split; auto.
  - destruct (add_custom_field f d) as [d1|] eqn:Hf; cbn [res_bind];
      [|discriminate].
    intros Hrest; destruct (IH d1 Hrest) as [Hdist Hlook].
    apply add_custom_field_eq in Hf as (key & v & Hentry & ->).
    split.
    + intros Hd; apply Hdist, store_distinct, Hd.
    + intros k; rewrite Hlook, Hentry.
      destruct (last_custom fs k); [reflexivity|].
      rewrite DictFacts.lookup_store.
      destruct (Py.key_eqb key k); reflexivity.
Qed.

(** X11. When [flatten_custom_fields] returns, no two keys of its dict are
    equal, and the value under a key is that of the last custom field of the
    payload kept under this key: a field goes under its short name, or under
    its name when the short name is missing or empty, and has the empty
    string as value when it has none.  A user whose custom fields are
    missing, null or an empty list gets the empty dict. *)
Theorem flatten_custom_fields_listing (user : value) (d : Py.dict value) :
  flatten_custom_fields user = Ok d ->
  distinct_keys d
  /\ (forall k, Py.lookup d k = last_custom (custom_fields_of user) k)
  /\ (custom_fields_of user = [] -> d = []).
Proof.
  destruct user as [| | | | |f]; try discriminate.
  unfold flatten_custom_fields, custom_fields_of, Py.get; cbn [res_bind].
  destruct (Py.iter _) as [fs|]; cbn [res_bind]; [|discriminate].
  intros Hfs.
  destruct (add_custom_fields_lookup fs [] d Hfs) as [Hdist Hlook].
  split; [apply Hdist; constructor|].
  split.
  - intros k; rewrite Hlook; destruct (last_custom fs k); reflexivity.
  - intros ->; injection Hfs as <-; reflexivity.
Qed.

Lemma flatten_custom_fields_listing_witness :
  exists d,
    flatten_custom_fields
      (VDict [("customfields",
               VList [VDict [("shortname", VStr "team"); ("value", VStr "Engines")];
                      VDict [("shortname", VStr ""); ("name", VStr "Badge")];
                      VDict [("shortname", VStr "team"); ("value", VStr "Looms")]])])
    = Ok d
    /\ Py.lookup d (VStr "team") = Some (VStr "Looms")
    /\ Py.lookup d (VStr "Badge") = Some (VStr "")
    /\ Py.lookup d (VStr "") = None.
Proof.
  eexists; split; [reflexivity|].
  match goal with
  | |- Py.lookup ?d _ = _ /\ _ =>
      destruct (flatten_custom_fields_listing
                  (VDict [("customfields",
                           VList [VDict [("shortname", VStr "team");
                                         ("value", VStr "Engines")];
                                  VDict [("shortname", VStr "");
                                         ("name", VStr "Badge")];
                                  VDict [("shortname", VStr "team");
                                         ("value", VStr "Looms")]])])
                  d eq_refl) as (_ & Hlook & _)
  end.
  rewrite !Hlook; repeat split; reflexivity.
Defined.

(** ** Custom fields in the rows *)

Lemma lookup_key_eqb {V} (d : Py.dict V) (k k' : value) :
  Py.key_eqb k k' = true -> Py.lookup d k = Py.lookup d k'.
Proof.
  intros Hk; induction d as [|[q v] d IH]; simpl; [reflexivity|].
  rewrite IH, (DictFacts.key_eqb_sym q k), (DictFacts.key_eqb_sym q k'),
    (DictFacts.key_eqb_trans k k' q Hk); reflexivity.
Qed.

Lemma update_distinct {V} (other d : Py.dict V) :
  distinct_keys d -> distinct_keys (Py.update d other).
Proof.
  unfold Py.update; revert d.
  induction other as [|[k v] other IH]; intros d Hd; simpl; [exact Hd|].
  apply IH, store_distinct, Hd.
Qed.

Lemma lookup_update {V} (other d : Py.dict V) (k : value) :
  distinct_keys other ->
  Py.lookup (Py.update d other) k
  = match Py.lookup other k with
    | Some v => Some v
    | None => Py.lookup d k
    end.
Proof.
  unfold Py.update; intros Hother; revert d.
  induction Hother as [|q v other Hq Hother IH]; intros d; simpl;
    [reflexivity|].
  rewrite IH, DictFacts.lookup_store.
  destruct (Py.key_eqb q k) eqn:Hk; [|reflexivity].
  rewrite <- (lookup_key_eqb other q k Hk), Hq; reflexivity.
Qed.

Lemma flatten_custom_fields_lookup (user : value) (d : Py.dict value) :
  flatten_custom_fields user = Ok d ->
  distinct_keys d
  /\ forall k, Py.lookup d k = last_custom (custom_fields_of user) k.
Proof.
  destruct user as [| | | | |f]; try discriminate.
  unfold flatten_custom_fields, custom_fields_of, Py.get; cbn [res_bind].
  destruct (Py.iter _) as [fs|]; cbn [res_bind]; [|discriminate].
  intros Hfs.
  destruct (add_custom_fields_lookup fs [] d Hfs) as [Hdist Hlook].
  split; [apply Hdist; constructor|].
  intros k; rewrite Hlook; destruct (last_custom fs k); reflexivity.
Qed.

Lemma course_row_custom (cid cname cshort : value)
    (base_user custom : Py.dict value) (status : string) (pct : Z)
    (name : string) (v : value) :
  distinct_keys base_user -> distinct_keys custom ->
  Py.lookup custom (VStr name) = Some v ->
  name <> "Completion %" -> name <> "Course Completion Status" ->
  Py.lookup
    (course_row_of cid cname cshort (Py.update base_user custom) status pct)
    (VStr name) = Some v.
Proof.
  intros Hbase Hcustom Hv Hpct Hstatus; unfold course_row_of.
  unfold Py.update at 1; cbn [fold_left fst snd].
  rewrite !DictFacts.lookup_store; cbn [Py.key_eqb].
  destruct (String.eqb_spec "Completion %" name) as [<-|_]; [tauto|].
  destruct (String.eqb_spec "Course Completion Status" name) as [<-|_];
    [tauto|].
  rewrite lookup_update by (apply update_distinct, Hbase).
  rewrite lookup_update by exact Hcustom.
  rewrite Hv; reflexivity.
Qed.

Section CustomFields.

Variable E : env.
Variables url token : string.

Lemma process_user_custom (cid cname cshort : value)
    (activity_columns : list (value * string)) (u : value)
    (acc acc' : rows) (w w' : world) :
  process_user E url token cid cname cshort activity_columns u acc w
  = (Ok acc', w') ->
  exists course_row,
    per_course_rows acc' = (per_course_rows acc ++ [course_row])%list
    /\ shows_custom_fields u (List.map snd activity_columns) course_row.
Proof.
  intros Hrun.
  destruct (process_user_not_dict _ _ _ _ _ _ _ _ _ _ _ _ Hrun) as [f ->].
  rewrite process_user_eq in Hrun; cbv zeta in Hrun.
  destruct (last_access_str E (VDict f)) as [last_access|]; [|discriminate].
  destruct (flatten_custom_fields (VDict f)) as [custom|] eqn:Hcustom;
    [|discriminate].
  destruct (get_course_completion E url token cid _ w)
    as [[[c_pct c_status]|] w1]; [|discriminate].
  destruct (get_activity_completion E url token cid _ w1)
    as [[a_map|] w2]; [|discriminate].
  destruct (for_in _ (fill_column a_map) _) as [row|] eqn:Hrow; [|discriminate].
  injection Hrun as <- <-.
  exists row; split; [reflexivity|].
  intros name v Hv Hcol Hpct Hstatus.
  destruct (flatten_custom_fields_lookup _ _ Hcustom) as [Hdist Hlook].
  rewrite (fill_columns_lookup _ _ _ _ name Hrow).
  rewrite column_status_unnamed by exact Hcol.
  apply course_row_custom; auto.
  - apply update_distinct; constructor.
  - rewrite Hlook; exact Hv.
Qed.

Lemma process_users_custom (cid cname cshort : value)
    (activity_columns : list (value * string)) (us : list value)
    (acc acc' : rows) (w w' : world) :
  for_in_M us (process_user E url token cid cname cshort activity_columns)
    acc w = (Ok acc', w') ->
  exists course_rows,
    per_course_rows acc' = (per_course_rows acc ++ course_rows)%list
    /\ Forall2 (fun u row =>
                  shows_custom_fields u (List.map snd activity_columns) row)
         us course_rows.
Proof.
  revert acc w.
  induction us as [|u us IH]; intros acc w; cbn [for_in_M].
  - unfold ret; intros H; injection H as <- <-.
    exists []; rewrite app_nil_r; split; constructor.
  - unfold bind at 1.
    destruct (process_user E url token cid cname cshort activity_columns u acc w)
      as [[acc1|e] w1] eqn:Huser; [|discriminate].
    intros Hrest.
    destruct (process_user_custom _ _ _ _ _ _ _ _ _ Huser) as (r & Hr & Hshown).
    destruct (IH _ _ Hrest) as (rs & Hrs & Hall).
    exists (r :: rs); rewrite Hrs, Hr, <- app_assoc.
    split; [reflexivity|constructor; assumption].
Qed.

(** X12. The per-course rows of a processed course show the custom profile
    fields of their users: a field is found under its key (short name, or
    name) with the value of the last field of this key, also when the key is
    that of a standard column ("Full Name", "Course ID", ...), whose cell it
    replaces.  Only the activity columns and the two completion columns are
    written after the custom fields and keep their cells. *)
Theorem process_one_course_custom_fields (course : value) (w w' : world)
    (course_rows : list (Py.dict value)) (consolidated : list (list value))
    (enrollments : list (Py.dict value)) (cols : list string) :
  process_one_course E url token course w
  = (Ok (course_rows, consolidated, enrollments, cols), w') ->
  exists d activities w1 us,
    course = VDict d
    /\ get_course_activities E url token (Py.field_or "id" VNone d)
         (w ++ [Print (processing_message (Py.field_or "fullname" (VStr "") d)
                         (Py.field_or "id" VNone d))])%list
       = (Ok activities, w1)
    /\ match get_course_users E url token (Py.field_or "id" VNone d) w1 with
       | (Ok users, _) => Py.iter users = Ok us
       | (Raise _, _) => us = []
       end
    /\ Forall2 (fun u row => shows_custom_fields u cols row) us course_rows.
Proof.
  intros Hrun.
  destruct course as [| | | | |d]; try discriminate.
  rewrite process_one_course_eq in Hrun; cbv zeta in Hrun.
  destruct (get_course_activities E url token _ _) as [[activities|e] w1]
    eqn:Hacts; [|discriminate].
  destruct (columns_of activities) as [activity_columns|e]; [|discriminate].
  exists d, activities, w1.
  destruct (get_course_users E url token _ w1) as [[users|e] w2].
  - destruct (Py.iter users) as [us|e]; [|discriminate].
    destruct (for_in_M us _ _ w2) as [[acc|e] w3] eqn:Hloop; [|discriminate].
    destruct (process_users_custom _ _ _ _ _ _ _ _ _ Hloop)
      as (rs & Hrs & Hall).
    cbn [per_course_rows app] in Hrs.
    injection Hrun as <- _ _ <- _.
    exists us; rewrite Hrs; repeat split; assumption.
  - injection Hrun as <- _ _ _ _.
    exists []; repeat split; solve [assumption|constructor].
Qed.

End CustomFields.

Lemma process_one_course_custom_fields_witness :
  exists course_row consolidated enrollments cols w',
    process_one_course Sample.campus "https://moodle.example" "secret"
      Sample.biology []
    = (Ok ([course_row], consolidated, enrollments, cols), w')
    /\ Py.lookup course_row (VStr "team") = Some (VStr "Engines").
Proof.
  destruct (process_one_course Sample.campus "https://moodle.example" "secret"
              Sample.biology [])
    as [[[[[course_rows consolidated] enrollments] cols]|e] w'] eqn:Hrun;
    [|vm_compute in Hrun; discriminate].
  destruct (process_one_course_custom_fields Sample.campus
              "https://moodle.example" "secret" Sample.biology [] w'
              course_rows consolidated enrollments cols Hrun)
    as (d & activities & w1 & us & Hd & Hacts & Husers & Hshown).
  injection Hd as <-.
  vm_compute in Hacts; injection Hacts as <- <-.
  vm_compute in Husers; injection Husers as <-.
  inversion Hshown as [|u row us' rows' Hrow Hrest]; subst.
  inversion Hrest; subst.
  exists row, consolidated, enrollments, cols, w'.
  split; [reflexivity|].
  apply Hrow; [reflexivity| |discriminate|discriminate].
  vm_compute in Hrun; injection Hrun as _ _ _ <- _.
  intros [H|[H|[H|[]]]]; discriminate.
Defined.

(** A custom field named like a standard column takes its cell in the
    per-course row; the consolidated row keeps the user's name. *)
Example custom_field_replaces_name :
  let user :=
    VDict [("id", VInt 7); ("fullname", VStr "Ada Lovelace");
           ("customfields",
            VList [VDict [("shortname", VStr "Full Name");
                          ("value", VStr "Countess")]])] in
  match fst (process_user Sample.campus "https://moodle.example" "secret"
               (VInt 102) (VStr "Biology") (VStr "BIO") [] user
               (Rows [] [] []) []) with
  | Ok (Rows [course_row] [consolidated_row] _) =>
      Py.lookup course_row (VStr "Full Name") = Some (VStr "Countess")
      /\ nth_error consolidated_row 1 = Some (VStr "Ada Lovelace")
  | _ => False
  end.
Proof. vm_compute; split; reflexivity. Qed.

(** ** The activity columns of a course *)

Lemma add_columns_named (activities : Py.dict meta)
    (acc cols : list (value * string)) :
  for_in activities add_column acc = Ok cols ->
  exists new,
    cols = (acc ++ new)%list
    /\ List.map fst new = List.map fst activities
    /\ Forall2 column_of activities (List.map snd new).
Proof.
  revert acc; induction activities as [|[cmid [name modname]] activities IH];
    intros acc; cbn [for_in].
  - intros H; injection H as <-.
    exists []; rewrite app_nil_r; repeat split; constructor.
  - unfold add_column at 1; cbn [meta_modname meta_name].
    destruct modname as [| | |s| |]; try discriminate.
    cbn [py_capitalize res_bind].
    intros Hrest; destruct (IH _ Hrest) as (new & -> & Hids & Hnames).
    eexists (_ :: new); rewrite <- app_assoc; split; [reflexivity|].
    cbn [List.map fst snd]; rewrite Hids; split; [reflexivity|].
    constructor; [|exact Hnames].
    exists s; split; [reflexivity|intros _; reflexivity].
Qed.

(** X13. The activity columns a processed course returns are those of the
    activities [get_course_activities] lists, one for each and in their
    order; the column of an activity whose type tag is of ASCII characters is
    the tag with its first letter in upper case and the others in lower case,
    a colon and a space, and the activity's name.  Every activity listed has
    a string as type tag: with any other tag (a module without "modname")
    the course is not processed. *)
Theorem process_one_course_columns (E : env) (url token : string)
    (course : value) (w w' : world)
    (course_rows : list (Py.dict value)) (consolidated : list (list value))
    (enrollments : list (Py.dict value)) (cols : list string) :
  process_one_course E url token course w
  = (Ok (course_rows, consolidated, enrollments, cols), w') ->
  exists d activities w1,
    course = VDict d
    /\ get_course_activities E url token (Py.field_or "id" VNone d)
         (w ++ [Print (processing_message (Py.field_or "fullname" (VStr "") d)
                         (Py.field_or "id" VNone d))])%list
       = (Ok activities, w1)
    /\ Forall2 column_of activities cols.
Proof.
  intros Hrun.
  destruct course as [| | | | |d]; try discriminate.
  rewrite process_one_course_eq in Hrun; cbv zeta in Hrun.
  destruct (get_course_activities E url token _ _) as [[activities|e] w1]
    eqn:Hacts; [|discriminate].
  destruct (columns_of activities) as [activity_columns|e] eqn:Hcols;
    [|discriminate].
  exists d, activities, w1; split; [reflexivity|]; split; [exact Hacts|].
  destruct (add_columns_named activities [] activity_columns Hcols)
    as (new & -> & _ & Hnames).
  cbn [app] in Hrun.
  destruct (get_course_users E url token _ w1) as [[users|e] w2].
  - destruct (Py.iter users) as [us|e]; [|discriminate].
    destruct (for_in_M us _ _ w2) as [[acc|e] w3]; [|discriminate].
    injection Hrun as _ _ _ <- _; exact Hnames.
  - injection Hrun as _ _ _ <- _; exact Hnames.
Qed.

Lemma process_one_course_columns_witness :
  exists course_rows consolidated enrollments w',
    process_one_course Sample.campus "https://moodle.example" "secret"
      Sample.biology []
    = (Ok (course_rows, consolidated, enrollments,
           ["Forum: Discussion"; "Forum: Discussion"; "Quiz: Final exam"]), w')
    /\ Forall2 column_of
         [(VInt 11, Meta (VStr "Discussion") (VStr "forum"));
          (VInt 12, Meta (VStr "Discussion") (VStr "forum"));
          (VInt 14, Meta (VStr "Final exam") (VStr "quiz"))]
         ["Forum: Discussion"; "Forum: Discussion"; "Quiz: Final exam"].
Proof.
  destruct (process_one_course Sample.campus "https://moodle.example" "secret"
              Sample.biology [])
    as [[[[[course_rows consolidated] enrollments] cols]|e] w'] eqn:Hrun;
    [|vm_compute in Hrun; discriminate].
  destruct (process_one_course_columns Sample.campus
              "https://moodle.example" "secret" Sample.biology [] w'
              course_rows consolidated enrollments cols Hrun)
    as (d & activities & w1 & Hd & Hacts & Hcols).
  injection Hd as <-.
  vm_compute in Hacts; injection Hacts as <- <-.
  vm_compute in Hrun; injection Hrun as _ _ _ <- _.
  exists course_rows, consolidated, enrollments, w'.
  split; [reflexivity|exact Hcols].
Defined.

(** ** The loop over the completed futures *)

Lemma collect_one_other (course : value) (result : res task_result)
    (acc : collected) (w : world) :
  (forall d, course = VDict d -> False) ->
  collect_one (course, result) acc w = (Raise (Py.no_attribute course "get"), w).
Proof.
  destruct course as [| | | | |d]; try reflexivity.
  intros H; destruct (H d eq_refl).
Qed.

(** X14. The loop of [main] over the completed futures.  When the courses
    are JSON objects the loop does not raise: [consolidated_all] and
    [enrollment_all] are the rows of the courses that were processed, and
    [per_course_results] their entries, all in the order in which the futures
    completed; a future that raised adds nothing; one line is printed for
    every future and no request is made.  A course that is no JSON object
    ends the loop with an AttributeError, after the lines of the futures
    before it. *)
Theorem collect_in_completion_order (completed : list (value * res task_result))
    (w : world) :
  (Forall (fun done => is_object (fst done)) completed ->
   collect completed w
   = (Ok (Collected (flat_map consolidated_of completed)
                    (flat_map enrollments_of completed)
                    (flat_map entry_of completed)),
      (w ++ flat_map collect_line completed)%list)
   /\ List.length (flat_map collect_line completed) = List.length completed
   /\ posts (flat_map collect_line completed) = 0)
  /\ (forall before course result after,
        completed = (before ++ (course, result) :: after)%list ->
        Forall (fun done => is_object (fst done)) before ->
        (forall d, course = VDict d -> False) ->
        collect completed w
        = (Raise (Py.no_attribute course "get"),
           (w ++ flat_map collect_line before)%list)).
Proof.
  split.
  - intros H; split; [exact (collect_from completed (Collected [] [] []) w H)|].
    induction H as [|[course result] completed [d Hd] _ [IHlen IHposts]];
      [split; reflexivity|].
    cbn [fst] in Hd; subst course; cbn [flat_map].
    rewrite length_app, posts_app, IHlen, IHposts.
    destruct result as [[[[pc cons] enr] cols]|e]; split; reflexivity.
  - intros before course result after -> Hbefore Hcourse.
    unfold collect.
    assert (Happ : forall (xs ys : list (value * res task_result)) acc w0,
               for_in_M (xs ++ ys) collect_one acc w0
               = match for_in_M xs collect_one acc w0 with
                 | (Ok acc', w1) => for_in_M ys collect_one acc' w1
                 | (Raise e, w1) => (Raise e, w1)
                 end).
    { induction xs as [|x xs IH]; intros ys acc w0; [reflexivity|].
      cbn [app for_in_M]; unfold bind.
      destruct (collect_one x acc w0) as [[acc1|e] w1]; [apply IH|reflexivity]. }
    rewrite Happ, (collect_from before _ w Hbefore).
    cbn [for_in_M]; unfold bind at 1.
    rewrite collect_one_other by exact Hcourse; reflexivity.
Qed.

(** ** The order of the course sheets *)

Module OrderFacts.

Lemma leb_refl (s : string) : String.leb s s = true.
Proof. destruct (String.leb_total s s); assumption. Qed.

Lemma leb_trans (a b c : string) :
  String.leb a b = true -> String.leb b c = true -> String.leb a c = true.
Proof.
  unfold String.leb; revert b c.
  induction a as [|x a IH]; intros [|y b] [|z c]; simpl;
    try reflexivity; try discriminate.
  unfold Ascii.compare.
  destruct (N.compare_spec (N_of_ascii x) (N_of_ascii y)) as [Hxy|Hxy|Hxy];
    destruct (N.compare_spec (N_of_ascii y) (N_of_ascii z)) as [Hyz|Hyz|Hyz];
    destruct (N.compare_spec (N_of_ascii x) (N_of_ascii z)) as [Hxz|Hxz|Hxz];
    try discriminate; try reflexivity; try lia.
  apply IH.
Qed.

Lemma leb_false (a b : string) :
  String.leb a b = false -> String.leb b a = true.
Proof.
  intros H; destruct (String.leb_total a b) as [H'|H']; congruence.
Qed.

Lemma insert_by_key_sorted {A} (x : string * A) (l : list (string * A)) :
  StronglySorted (fun a b => String.leb (fst a) (fst b) = true) l ->
  StronglySorted (fun a b => String.leb (fst a) (fst b) = true)
    (insert_by_key x l).
Proof.
  induction 1 as [|y l Hl IH Hy]; cbn [insert_by_key].
  - constructor; constructor.
  - destruct (String.leb (fst x) (fst y)) eqn:Hxy.
    + constructor; [constructor; assumption|].
      constructor; [exact Hxy|].
      eapply Forall_impl; [|exact Hy].
      intros z Hz; exact (leb_trans _ _ _ Hxy Hz).
    + constructor; [exact IH|].
      apply (Permutation_Forall
               (Permutation_sym (SortFacts.insert_by_key_perm x l))).
      constructor; [exact (leb_false _ _ Hxy)|exact Hy].
Qed.

Lemma sort_by_key_sorted {A} (l : list (string * A)) :
  StronglySorted (fun a b => String.leb (fst a) (fst b) = true) (sort_by_key l).
Proof.
  induction l as [|x l IH]; cbn [sort_by_key]; [constructor|].
  apply insert_by_key_sorted, IH.
Qed.

Lemma insert_by_key_stable {A} (k : string) (x : string * A)
    (l : list (string * A)) :
  filter (fun p => String.eqb (fst p) k) (insert_by_key x l)
  = filter (fun p => String.eqb (fst p) k) (x :: l).
Proof.
  induction l as [|y l IH]; cbn [insert_by_key]; [reflexivity|].
  destruct (String.leb (fst x) (fst y)) eqn:Hxy; [reflexivity|].
  cbn [filter] in *; rewrite IH.
  destruct (String.eqb_spec (fst x) k) as [Hx|Hx];
    destruct (String.eqb_spec (fst y) k) as [Hy|Hy]; try reflexivity.
  rewrite Hx, Hy, leb_refl in Hxy; discriminate.
Qed.

Lemma sort_by_key_stable {A} (k : string) (l : list (string * A)) :
  filter (fun p => String.eqb (fst p) k) (sort_by_key l)
  = filter (fun p => String.eqb (fst p) k) l.
Proof.
  induction l as [|x l IH]; cbn [sort_by_key]; [reflexivity|].
  rewrite insert_by_key_stable; cbn [filter]; rewrite IH; reflexivity.
Qed.

Lemma sorted_by {A} (key : A -> string) (l : list (string * A)) :
  Forall (fun p => fst p = key (snd p)) l ->
  StronglySorted (fun a b => String.leb (fst a) (fst b) = true) l ->
  StronglySorted (fun a b => String.leb (key a) (key b) = true)
    (List.map snd l).
Proof.
  intros Hkeys Hl; induction Hl as [|p l Hl IH Hp]; cbn [List.map];
    [constructor|].
  inversion Hkeys as [|? ? Hkp Hkl]; subst.
  constructor; [exact (IH Hkl)|].
  apply Forall_map.
  rewrite Forall_forall in *; intros q Hq.
  rewrite <- (Hkl q Hq), <- Hkp; exact (Hp q Hq).
Qed.

Lemma filter_by {A} (key : A -> string) (k : string) (l : list (string * A)) :
  Forall (fun p => fst p = key (snd p)) l ->
  filter (fun a => String.eqb (key a) k) (List.map snd l)
  = List.map snd (filter (fun p => String.eqb (fst p) k) l).
Proof.
  induction 1 as [|p l Hp Hl IH]; cbn [List.map filter]; [reflexivity|].
  rewrite IH, <- Hp.
  destruct (String.eqb (fst p) k); reflexivity.
Qed.

End OrderFacts.

Lemma map_res_raises {A B} (f : A -> res B) (xs : list A) (x : A) :
  In x xs -> (exists e, f x = Raise e) ->
  exists y e, In y xs /\ f y = Raise e /\ map_res f xs = Raise e.
Proof.
  induction xs as [|a xs IH]; [contradiction|].
  intros Hin Hx; cbn [map_res].
  destruct (f a) as [b|e] eqn:Ha.
  - destruct Hin as [->|Hin]; [destruct Hx as [e He]; congruence|].
    destruct (IH Hin Hx) as (y & e & Hy & Hfy & Hmap).
    exists y, e; rewrite Hmap; repeat split; [right|..]; assumption.
  - exists a, e; repeat split; [left; reflexivity|assumption].
Qed.

(** X15. The order of the course sheets.  When the short names are strings
    of ASCII characters, [sorted_results] returns the same entries (none
    lost, none twice) with every entry's key, the short name in lower case,
    before or equal to the key of every later entry, and the entries of equal
    keys in the order in which they were collected.  When the short name of
    an entry is no string (a number in the payload), the sorting raises an
    AttributeError. *)
Theorem sorted_results_sorted (results : list course_entry) :
  (Forall ascii_named results ->
   exists ordered,
     sorted_results results = Ok ordered
     /\ Permutation ordered results
     /\ StronglySorted in_order ordered
     /\ forall k, keyed k ordered = keyed k results)
  /\ (forall entry,
        In entry results ->
        (forall s, fst (fst entry) = VStr s -> False) ->
        exists e, sorted_results results = Raise e
                  /\ exn_cls e = AttributeError).
Proof.
  split.
  - intros Hnamed; unfold sorted_results.
    rewrite (map_res_total _ (fun x => (sort_key x, x))).
    + cbn [res_bind].
      set (pairs := List.map (fun x => (sort_key x, x)) results).
      assert (Hpairs : List.map snd pairs = results).
      { unfold pairs; rewrite map_map; apply map_id. }
      assert (Hkeys : Forall (fun p => fst p = sort_key (snd p)) pairs).
      { unfold pairs; apply Forall_map, Forall_forall; reflexivity. }
      assert (Hsorted : Forall (fun p => fst p = sort_key (snd p))
                          (sort_by_key pairs)).
      { apply (Permutation_Forall
                 (Permutation_sym (SortFacts.sort_by_key_perm pairs)) Hkeys). }
      eexists; split; [reflexivity|]; split; [|split].
      * eapply perm_trans;
          [apply Permutation_map, SortFacts.sort_by_key_perm|].
        fold pairs; rewrite Hpairs; apply Permutation_refl.
      * apply (OrderFacts.sorted_by sort_key _ Hsorted).
        apply OrderFacts.sort_by_key_sorted.
      * intros k; unfold keyed.
        rewrite (OrderFacts.filter_by sort_key k _ Hsorted).
        rewrite OrderFacts.sort_by_key_stable.
        rewrite <- (OrderFacts.filter_by sort_key k _ Hkeys), Hpairs.
        reflexivity.
    + eapply Forall_impl; [|exact Hnamed].
      intros x (s & Hs & _); unfold sort_key; rewrite Hs; reflexivity.
  - intros entry Hin Hbad; unfold sorted_results.
    destruct (map_res_raises
                (fun x : course_entry =>
                   (key <- py_lower (fst (fst x)) ;; Ok (key, x))%res)
                results entry Hin) as (y & e & _ & Hy & ->).
    + destruct (fst (fst entry)) as [| | |s| |] eqn:Hc;
        try (eexists; reflexivity).
      destruct (Hbad s eq_refl).
    + exists e; split; [reflexivity|].
      destruct (fst (fst y)) as [| | |s| |]; try discriminate;
        injection Hy as <-; reflexivity.
Qed.

Example sorted_results_sample :
  sorted_results [(VStr "bio", [], []); (VStr "ALG", [], ["x"]);
                  (VStr "Bio", [], ["y"]); (VStr "chem", [], [])]
  = Ok [(VStr "ALG", [], ["x"]); (VStr "bio", [], []);
        (VStr "Bio", [], ["y"]); (VStr "chem", [], [])].
Proof. reflexivity. Qed.

(** ** The workbook of a run *)

Lemma sheet_rows_rectangular (entry : course_entry) :
  List.length (sheet_rows entry) = 1 + List.length (snd (fst entry))
  /\ Forall (fun row => List.length row = 13 + List.length (snd entry) + 2)
       (sheet_rows entry).
Proof.
  unfold sheet_rows; split.
  - cbn [List.length Nat.add]; f_equal; apply length_map.
  - assert (Hlen : List.length (base ++ snd entry ++ trailing)%list
                   = 13 + List.length (snd entry) + 2).
    { rewrite !length_app; reflexivity. }
    constructor.
    + unfold header_row; rewrite length_map; exact Hlen.
    + apply Forall_map, Forall_forall; intros r _.
      unfold render; rewrite length_map; exact Hlen.
Qed.

(** X16. The workbook of a run whose courses are JSON objects with a string
    of ASCII characters as short name, when openpyxl refuses nothing of the
    run (it gives a title to every sheet and writes every row as it is).
    The run does not raise.  The first sheet is the consolidated one: the ten
    headers, then the consolidated rows of the courses that were processed,
    in the order of completion.  Then comes one sheet for every course that
    was processed, none for a course whose processing raised, in the order
    of [sorted_results]: its rows are the header row and one row per user,
    all of the same length, and its title is the one openpyxl gives when the
    course's title is asked for in a workbook that has the sheets before it.
    The last sheet is the one openpyxl adds when "Enrollments" is asked for:
    the nine headers, then one row of nine cells for every enrollment row. *)
Theorem report_layout (X : openpyxl)
    (completed : list (value * res task_result)) (w : world) :
  Forall (fun done => plain_course (fst done)) completed ->
  takes X completed ->
  exists main_title ordered course_sheets en_title,
    report X completed w
    = (Ok (Sheet main_title
             (header_row main_headers :: flat_map consolidated_of completed)
           :: course_sheets
           ++ [Sheet en_title
                 (header_row en_headers
                  :: List.map (render en_headers)
                       (flat_map enrollments_of completed))])%list,
       (w ++ flat_map collect_line completed)%list)
    /\ set_title X consolidated_title = Ok main_title
    /\ sorted_results (flat_map entry_of completed) = Ok ordered
    /\ sheets_made X
         [Sheet main_title
            (header_row main_headers :: flat_map consolidated_of completed)]
         ordered course_sheets
    /\ create_sheet X
         (List.map title
            (Sheet main_title
               (header_row main_headers :: flat_map consolidated_of completed)
             :: course_sheets))
         "Enrollments" = Ok en_title
    /\ Forall (fun entry =>
                 List.length (sheet_rows entry)
                 = 1 + List.length (snd (fst entry))
                 /\ Forall (fun row => List.length row
                                       = 13 + List.length (snd entry) + 2)
                      (sheet_rows entry)) ordered
    /\ Forall (fun row => List.length row = 9)
         (List.map (render en_headers) (flat_map enrollments_of completed)).
Proof.
  intros Hplain Htakes.
  destruct (report_made X completed w Hplain Htakes)
    as (main_title & ordered & course_sheets & en_title
        & Hreport & Hmain & Hsorted & _ & Hmade & Hen).
  exists main_title, ordered, course_sheets, en_title.
  repeat (split; [assumption|]).
  split.
  - apply Forall_forall; intros entry _; apply sheet_rows_rectangular.
  - apply Forall_map, Forall_forall; intros r _.
    unfold render; rewrite length_map; reflexivity.
Qed.

Lemma report_layout_witness :
  exists sheets w,
    report Sample.spreadsheet
      [(Sample.biology,
        fst (process_one_course Sample.campus_without_users
               "https://moodle.example" "secret" Sample.biology []))] []
    = (Ok sheets, w).
Proof.
  destruct (report_layout Sample.spreadsheet
              [(Sample.biology,
                fst (process_one_course Sample.campus_without_users
                       "https://moodle.example" "secret" Sample.biology []))]
              []) as (main_title & ordered & course_sheets & en_title
                      & Hrun & _).
  - repeat constructor; eexists _, _; repeat split; reflexivity.
  - exact sample_takes.
  - eexists _, _; exact Hrun.
Defined.

(** ** The base URL *)

(** X17. The base URL [main] works with is the URL given without the
    slashes it ends with: the URL given is the base URL followed by slashes
    only, the base URL does not end with a slash, and a URL that does not end
    with a slash is taken as it is.  Every request is then posted to the
    base URL followed by "/webservice/rest/server.php". *)
Theorem base_url_strips_slashes (arg : string) :
  (exists n, arg = base_url arg ++ run_of "/" n)
  /\ (forall prefix, base_url arg = prefix ++ "/" -> False)
  /\ base_url (base_url arg) = base_url arg
  /\ ((forall prefix, arg = prefix ++ "/" -> False) -> base_url arg = arg)
  /\ (forall token function params,
        req_url (mk_request (base_url arg) token function params)
        = base_url arg ++ "/webservice/rest/server.php").
Proof.
  unfold base_url.
  assert (Hsplit : forall s, exists n, s = rstrip "/" s ++ run_of "/" n).
  { induction s as [|x r [n IH]]; cbn [rstrip]; [exists 0; reflexivity|].
    destruct (rstrip "/" r) as [|y r'] eqn:Hr; cbn [Str.is_empty andb].
    - destruct (Ascii.eqb_spec x "/") as [->|_].
      + exists (S n); cbn [append run_of]; rewrite IH at 1; reflexivity.
      + exists n; cbn [append]; rewrite IH at 1; reflexivity.
    - exists n; cbn [append]; rewrite IH at 1; reflexivity. }
  assert (Hend : forall s prefix, rstrip "/" s = prefix ++ "/" -> False).
  { induction s as [|x r IH]; intros prefix; cbn [rstrip].
    - destruct prefix; discriminate.
    - destruct (rstrip "/" r) as [|y r'] eqn:Hr; cbn [Str.is_empty andb].
      + destruct (Ascii.eqb_spec x "/") as [->|Hx].
        * destruct prefix; discriminate.
        * destruct prefix as [|p [|q prefix]]; cbn [append]; try discriminate.
          intros H; injection H as H; congruence.
      + destruct prefix as [|p prefix]; cbn [append]; [discriminate|].
        intros H; injection H as _ H; exact (IH prefix H). }
  assert (Hfix : forall s, (forall prefix, s = prefix ++ "/" -> False) ->
                           rstrip "/" s = s).
  { intros s Hs; destruct (Hsplit s) as [[|n] Hn].
    - rewrite Hn at 2; clear Hn.
      induction (rstrip "/" s) as [|x r IH]; cbn [append run_of];
        [reflexivity|f_equal; exact IH].
    - exfalso; apply (Hs (rstrip "/" s ++ run_of "/" n)).
      rewrite Hn at 1; clear.
      induction (rstrip "/" s) as [|x r IH]; cbn [append].
      + induction n as [|n IHn]; cbn [run_of append]; [reflexivity|].
        f_equal; exact IHn.
      + f_equal; exact IH. }
  split; [apply Hsplit|].
  split; [apply Hend|].
  split; [apply Hfix; intros prefix; apply Hend|].
  split; [exact (Hfix arg)|reflexivity].
Qed.

Example base_url_sample :
  base_url "https://moodle.example//" = "https://moodle.example"
  /\ base_url "https://moodle.example/a/b" = "https://moodle.example/a/b"
  /\ base_url "///" = "".
Proof. repeat split; reflexivity. Qed.
